(** * FinanceAdvice (PersonalFinanceTracker): aggregation and API properties

    A shallow embedding of the expense/goal aggregation code of the client
    (insights-charts.tsx, spending-chart.tsx, summary-cards.tsx,
    goal-card.tsx), of the validation schema (shared/schema.ts) and of the
    ownership-checked routes (server/routes.ts, server/storage.ts), followed
    by the properties the specification states about them.

    Modelling conventions.
    - A JavaScript number is an exact rational ([Qc]) or one of the
      non-finite values NaN, +Infinity, -Infinity. The code computes with
      binary doubles: what it computes from amounts differs from the
      rational given here by the rounding of doubles. A property whose
      outcome could turn on that rounding is stated with the margin the
      rounding needs ([computed]), for amounts that doubles hold without
      overflow or underflow ([moderate]). Module [Binary64] holds the
      doubles themselves; the sign of zero is not kept.
    - A monetary column ([numeric], delivered as decimal text) is read with
      [Number(...)]; the model keeps the rational that text denotes.
    - A [Date] is its day number since 1970-01-01; the [date] column of an
      expense always holds a valid calendar day. [new Date('YYYY-MM-DD')]
      is the UTC midnight that opens the day, and [getFullYear],
      [getMonth], [getDate] and [getDay] read it in the local time of the
      browser, whose time zone is a parameter ([JsDate.Zone]) of the code
      that reads dates.
    - The object used as a dictionary in [getCategoryData] is the list of
      its own properties in insertion order, which is the order
      [Object.entries] reports for property names that are neither array
      indices nor names that [Object.prototype] defines
      ([JsObject.ordinary]). Of the latter, [__proto__] is treated where
      the code groups by category; the others are outside the model. *)

From Stdlib Require Import Ascii String QArith Qcanon Qround Sorted Permutation Lqa.
From Stdlib Require Import Floats.
From stdpp Require Import gmap strings list pretty.

Open Scope string_scope.
Open Scope list_scope.
Open Scope Qc_scope.
Open Scope Z_scope.

(** ** JavaScript numbers *)

Inductive number : Type :=
| NaN
| Infinity (negative : bool)
| Finite (q : Qc).

Global Instance number_eq_dec : EqDecision number.
Proof. solve_decision. Defined.

Definition qsign (q : Qc) : bool := bool_decide (q < 0)%Qc.

Definition js_add (a b : number) : number :=
  match a, b with
  | NaN, _ | _, NaN => NaN
  | Infinity s, Infinity t => if bool_decide (s = t) then Infinity s else NaN
  | Infinity s, Finite _ | Finite _, Infinity s => Infinity s
  | Finite x, Finite y => Finite (x + y)
  end.

Definition js_neg (a : number) : number :=
  match a with
  | NaN => NaN
  | Infinity s => Infinity (negb s)
  | Finite x => Finite (- x)
  end.

Definition js_sub (a b : number) : number := js_add a (js_neg b).

Definition js_mul (a b : number) : number :=
  match a, b with
  | NaN, _ | _, NaN => NaN
  | Infinity s, Infinity t => Infinity (xorb s t)
  | Infinity s, Finite y | Finite y, Infinity s =>
      if bool_decide (y = 0%Qc) then NaN else Infinity (xorb s (qsign y))
  | Finite x, Finite y => Finite (x * y)
  end.

Definition js_div (a b : number) : number :=
  match a, b with
  | NaN, _ | _, NaN => NaN
  | Infinity _, Infinity _ => NaN
  | Infinity s, Finite y => Infinity (xorb s (qsign y))
  | Finite _, Infinity _ => Finite 0
  | Finite x, Finite y =>
      if bool_decide (y = 0%Qc)
      then (if bool_decide (x = 0%Qc) then NaN else Infinity (qsign x))
      else Finite (x / y)
  end.

(** [a > b]; every comparison with NaN is false. *)
Definition js_gt (a b : number) : bool :=
  match a, b with
  | NaN, _ | _, NaN => false
  | Infinity s, Infinity t => negb s && t
  | Infinity s, Finite _ => negb s
  | Finite _, Infinity t => t
  | Finite x, Finite y => bool_decide (y < x)%Qc
  end.

Definition js_ge (a b : number) : bool :=
  match a, b with
  | NaN, _ | _, NaN => false
  | Infinity s, Infinity t => negb s || t
  | Infinity s, Finite _ => negb s
  | Finite _, Infinity t => t
  | Finite x, Finite y => bool_decide (y ≤ x)%Qc
  end.

Definition isNaN (a : number) : bool :=
  match a with NaN => true | _ => false end.

(** [Math.round]: the integer nearest to the argument, ties going up. *)
Definition round_half_up (x : Qc) : Z := Qfloor (x + 1 / 2)%Qc.

Definition Math_round (a : number) : number :=
  match a with
  | Finite x => Finite (Qc_of_Z (round_half_up x))
  | _ => a
  end.

Definition Math_abs (a : number) : number :=
  match a with
  | NaN => NaN
  | Infinity _ => Infinity false
  | Finite x => Finite (if qsign x then - x else x)
  end.

(** A value is falsy in a condition when it is [undefined], [0] or [NaN]. *)
Definition truthy (a : number) : bool :=
  match a with
  | NaN => false
  | Infinity _ => true
  | Finite x => negb (bool_decide (x = 0%Qc))
  end.

(** [parseFloat]: leading white space is skipped, then the longest prefix
    that is a decimal literal (sign, digits, fraction, exponent, or
    [Infinity]) is read; without such a prefix the result is NaN. White
    space outside ASCII is not recognised. *)
Module ParseFloat.

Definition is_space (c : ascii) : bool :=
  let n := nat_of_ascii c in
  bool_decide (n = 32 ∨ (9 ≤ n ∧ n ≤ 13))%nat.

Definition digit_of (c : ascii) : option Z :=
  let n := Z.of_nat (nat_of_ascii c) in
  if bool_decide (48 ≤ n ∧ n ≤ 57) then Some (n - 48) else None.

Fixpoint trimStart (s : string) : string :=
  match s with
  | String c s' => if is_space c then trimStart s' else s
  | EmptyString => s
  end.

(** The digits at the front of [s]: their value continuing [acc], how
    many there are, and the rest of the string. *)
Fixpoint digits (acc : Z) (len : nat) (s : string) : Z * nat * string :=
  match s with
  | String c s' =>
      match digit_of c with
      | Some d => digits (10 * acc + d) (S len) s'
      | None => (acc, len, s)
      end
  | EmptyString => (acc, len, s)
  end.

Definition signed (s : string) : bool * string :=
  match s with
  | String "+" s' => (false, s')
  | String "-" s' => (true, s')
  | _ => (false, s)
  end.

(** [ExponentPart]: read only when at least one digit follows. *)
Definition exponent (s : string) : Z :=
  match s with
  | String c s' =>
      if bool_decide (c = "e"%char ∨ c = "E"%char) then
        let '(neg, s'') := signed s' in
        let '(e, len, _) := digits 0 0 s'' in
        if bool_decide (len = 0%nat) then 0 else if neg then - e else e
      else 0
  | EmptyString => 0
  end.

Definition pow10 (e : Z) : Qc :=
  if bool_decide (0 ≤ e) then Qc_of_Z (10 ^ e)
  else (1 / Qc_of_Z (10 ^ (- e)))%Qc.

Definition parseFloat (input : string) : number :=
  let '(neg, s) := signed (trimStart input) in
  if String.prefix "Infinity" s then Infinity neg
  else
    let '(int, ilen, s1) := digits 0 0 s in
    let '(mant, flen, s2) :=
      match s1 with
      | String "." s1' =>
          let '(m, n, s2) := digits int 0 s1' in
          if bool_decide (ilen = 0 ∧ n = 0)%nat then (int, 0%nat, s1)
          else (m, n, s2)
      | _ => (int, 0%nat, s1)
      end in
    if bool_decide (ilen = 0 ∧ flen = 0)%nat then NaN
    else
      let v := (Qc_of_Z mant * pow10 (exponent s2 - Z.of_nat flen))%Qc in
      Finite (if neg then (- v)%Qc else v).

End ParseFloat.

Export ParseFloat (parseFloat).

(** ** JavaScript dates *)

(** Milliseconds in a day. *)
Definition msPerDay : Z := 86400000.

(** A [Date] is the number of its day, counted from 1970-01-01. The
    calendar fields are those of the proleptic Gregorian calendar, as
    [YearFromTime], [MonthFromTime], [DateFromTime] and [WeekDay] give
    them. *)
Module JsDate.

Definition Date := Z.

(** The time zone of the browser: the offset of its local time from UTC,
    in milliseconds, at the UTC midnight that opens a day; it is positive
    east of Greenwich. *)
Definition Zone : Type := Date → Z.

Definition UTC : Zone := λ _, 0.

(** The local calendar day at the UTC midnight that opens day [t]: the
    day whose fields [new Date('YYYY-MM-DD')] shows through
    [getFullYear], [getMonth], [getDate] and [getDay]. It is [t] where
    local time is UTC or ahead of it, and the day before where local time
    is behind. *)
Definition localDay (zone : Zone) (t : Date) : Date :=
  (t * msPerDay + zone t) `div` msPerDay.

(** Day number of the civil date [y]-[m]-[d], with [m] in 1..12. *)
Definition days_from_civil (y m d : Z) : Z :=
  let y := if bool_decide (m ≤ 2) then y - 1 else y in
  let era := y `div` 400 in
  let yoe := y - era * 400 in
  let mp := if bool_decide (2 < m) then m - 3 else m + 9 in
  let doy := (153 * mp + 2) `div` 5 + d - 1 in
  let doe := yoe * 365 + yoe `div` 4 - yoe `div` 100 + doy in
  era * 146097 + doe - 719468.

(** Civil date (year, month in 1..12, day of month) of a day number. *)
Definition civil_from_days (t : Z) : Z * Z * Z :=
  let z := t + 719468 in
  let era := z `div` 146097 in
  let doe := z - era * 146097 in
  let yoe :=
    (doe - doe `div` 1460 + doe `div` 36524 - doe `div` 146096) `div` 365 in
  let doy := doe - (365 * yoe + yoe `div` 4 - yoe `div` 100) in
  let mp := (5 * doy + 2) `div` 153 in
  let d := doy - (153 * mp + 2) `div` 5 + 1 in
  let m := if bool_decide (mp < 10) then mp + 3 else mp - 9 in
  let y := yoe + era * 400 in
  (if bool_decide (m ≤ 2) then y + 1 else y, m, d).

(** [new Date(year, monthIndex, day)]: months and days outside their
    range carry over, and a year in 0..99 stands for 1900 + year. *)
Definition make (year monthIndex day : Z) : Date :=
  let year := if bool_decide (0 ≤ year ≤ 99) then 1900 + year else year in
  let ym := year + monthIndex `div` 12 in
  let mn := monthIndex `mod` 12 in
  days_from_civil ym (mn + 1) 1 + (day - 1).

Definition getFullYear (t : Date) : Z := (civil_from_days t).1.1.
Definition getMonth (t : Date) : Z := (civil_from_days t).1.2 - 1.
Definition getDate (t : Date) : Z := (civil_from_days t).2.
(** 0 = Sunday .. 6 = Saturday; day 0 was a Thursday. *)
Definition getDay (t : Date) : Z := (t + 4) `mod` 7.

End JsDate.

(** ** shared/schema.ts *)

(** A row of table [expenses]; [amount] is the value of the [numeric]
    column and [date] the day of the [date] column. The [createdAt] column
    is never read by the code below and is left out. *)
Module Expense.
Record t : Type := mk {
  id : Z;
  userId : Z;
  amount : Qc;
  category : string;
  description : option string;
  note : option string;
  date : JsDate.Date
}.
End Expense.

(** A row of table [goals]. *)
Module Goal.
Record t : Type := mk {
  id : Z;
  userId : Z;
  name : string;
  targetAmount : Qc;
  currentAmount : Qc;
  targetDate : option JsDate.Date;
  status : string
}.
End Goal.

Global Instance Expense_eq_dec : EqDecision Expense.t.
Proof. solve_decision. Defined.

Global Instance Goal_eq_dec : EqDecision Goal.t.
Proof. solve_decision. Defined.

Definition EXPENSE_CATEGORIES : list string :=
  ["Food"; "Transport"; "Entertainment"; "Shopping"; "Health"; "Bills";
   "Other"].

Definition GOAL_STATUSES : list string :=
  ["in_progress"; "on_track"; "behind_schedule"; "completed"].

(** A value of a JSON request body; [JOther] stands for arrays and
    objects, [JUndefined] for an absent property. *)
Inductive JsValue : Type :=
| JUndefined
| JNull
| JBool (b : bool)
| JNumber (n : number)
| JString (s : string)
| JOther.

Global Instance JsValue_eq_dec : EqDecision JsValue.
Proof. solve_decision. Defined.

(** The amount of a validated expense: [z.union([z.number(), z.string()])]. *)
Inductive Amount : Type :=
| AmountNumber (n : number)
| AmountString (s : string).

Global Instance Amount_eq_dec : EqDecision Amount.
Proof. solve_decision. Defined.

Module InsertExpense.
Record t : Type := mk {
  userId : Z;
  category : string;
  description : option string;
  note : option string;
  date : string;
  amount : Amount
}.
End InsertExpense.

Global Instance InsertExpense_eq_dec : EqDecision InsertExpense.t.
Proof. solve_decision. Defined.

(** The object handed to [insertExpenseSchema.parse]. *)
Module ExpenseInput.
Record t : Type := mk {
  userId : Z;
  category : JsValue;
  description : JsValue;
  note : JsValue;
  date : JsValue;
  amount : JsValue
}.
End ExpenseInput.

Module Zod.

(** [z.string()] of a [notNull] text or date column. *)
Definition string_ (v : JsValue) : option string :=
  match v with JString s => Some s | _ => None end.

(** [z.string().nullable().optional()] of a nullable text column; the
    outer option is the outcome of the check. *)
Definition optional_string (v : JsValue) : option (option string) :=
  match v with
  | JString s => Some (Some s)
  | JNull | JUndefined => Some None
  | _ => None
  end.

(** [z.number().min(0.01, ...)]: NaN is not a number for zod. *)
Definition number_min (bound : Qc) (v : JsValue) : option number :=
  match v with
  | JNumber n =>
      if negb (isNaN n) && js_ge n (Finite bound) then Some n else None
  | _ => None
  end.

(** [z.string().refine(val => !isNaN(parseFloat(val)) && parseFloat(val) > 0)] *)
Definition positive_numeric_string (v : JsValue) : option string :=
  match v with
  | JString val =>
      if negb (isNaN (parseFloat val)) && js_gt (parseFloat val) (Finite 0)
      then Some val else None
  | _ => None
  end.

End Zod.

Definition one_cent : Qc := (1 / Qc_of_Z 100)%Qc.

(** [insertExpenseSchema.parse]; [None] is a thrown [ZodError]. *)
Definition insertExpenseSchema (data : ExpenseInput.t) : option InsertExpense.t :=
  category ← Zod.string_ (ExpenseInput.category data);
  description ← Zod.optional_string (ExpenseInput.description data);
  note ← Zod.optional_string (ExpenseInput.note data);
  date ← Zod.string_ (ExpenseInput.date data);
  amount ←
    match Zod.number_min one_cent (ExpenseInput.amount data) with
    | Some n => Some (AmountNumber n)
    | None =>
        AmountString <$> Zod.positive_numeric_string (ExpenseInput.amount data)
    end;
  Some (InsertExpense.mk (ExpenseInput.userId data) category description note
          date amount).

(** ** Objects used as dictionaries and arrays *)

(** [Record<string, number>]: the own properties in insertion order. *)
Module JsObject.

Definition t : Type := list (string * Qc).

(** [o[k]]; [None] is [undefined]. *)
Fixpoint get (o : t) (k : string) : option Qc :=
  match o with
  | [] => None
  | (k', v) :: o' => if bool_decide (k' = k) then Some v else get o' k
  end.

(** [o[k] = v]: an existing property keeps its place, a new one is
    added last. *)
Fixpoint set (o : t) (k : string) (v : Qc) : t :=
  match o with
  | [] => [(k, v)]
  | (k', v') :: o' =>
      if bool_decide (k' = k) then (k', v) :: o' else (k', v') :: set o' k v
  end.

(** [o[k] += x] for a property that is defined; the callers define it
    first. *)
Fixpoint add (o : t) (k : string) (x : Qc) : t :=
  match o with
  | [] => []
  | (k', v) :: o' =>
      if bool_decide (k' = k) then (k', (v + x)%Qc) :: o'
      else (k', v) :: add o' k x
  end.

(** [o[k] || 0]. Where the code reads [o[k]] alone, the property is
    defined and the value read is the one it holds. *)
Definition read (o : t) (k : string) : Qc := default 0%Qc (get o k).

(** [!o[k]]: the property is undefined or zero. *)
Definition falsy (o : t) (k : string) : bool :=
  match get o k with
  | None => true
  | Some v => bool_decide (v = 0%Qc)
  end.

Definition entries (o : t) : list (string * Qc) := o.

(** The property names every object inherits from [Object.prototype]. *)
Definition inherited : list string :=
  ["__proto__"; "constructor"; "hasOwnProperty"; "isPrototypeOf";
   "propertyIsEnumerable"; "toLocaleString"; "toString"; "valueOf";
   "__defineGetter__"; "__defineSetter__"; "__lookupGetter__";
   "__lookupSetter__"].

(** A non-empty string of decimal digits: the array indices, which
    [Object.entries] reports first and in ascending order, are among
    them. *)
Fixpoint digitsOnly (name : string) : bool :=
  match name with
  | EmptyString => true
  | String c name =>
      bool_decide (48 ≤ nat_of_ascii c ≤ 57)%nat && digitsOnly name
  end.

Definition indexLike (name : string) : bool :=
  negb (bool_decide (name = EmptyString)) && digitsOnly name.

(** The names for which the object is the list of its own properties. *)
Definition ordinary (name : string) : bool :=
  negb (bool_decide (name ∈ inherited)) && negb (indexLike name).

End JsObject.

(** [Array.prototype.sort(compare)]: the sort is stable, so for a
    comparator that is a difference of keys the result is determined; it
    is computed here by insertion from the right. *)
Module JsArray.

Fixpoint insert {A} (compare : A → A → Qc) (x : A) (l : list A) : list A :=
  match l with
  | [] => [x]
  | y :: l' =>
      if bool_decide (0 < compare x y)%Qc then y :: insert compare x l'
      else x :: y :: l'
  end.

Definition sort {A} (compare : A → A → Qc) (l : list A) : list A :=
  foldr (insert compare) [] l.

(** [reduce((sum, value) => sum + value, 0)] *)
Definition sum (l : list Qc) : Qc := foldl Qcplus 0%Qc l.

End JsArray.

(** ** client/src/lib/category-utils.tsx *)

Definition getCategoryColor (category : string) : string :=
  if bool_decide (category = "Food") then "#3B82F6"
  else if bool_decide (category = "Transport") then "#8B5CF6"
  else if bool_decide (category = "Entertainment") then "#EF4444"
  else if bool_decide (category = "Shopping") then "#10B981"
  else if bool_decide (category = "Health") then "#EC4899"
  else if bool_decide (category = "Bills") then "#F59E0B"
  else "#6B7280".

(** The expenses whose date the browser reads in the month of [d], and
    the sum of their amounts: the [filter] and [reduce] of the monthly
    computations. *)
Definition expensesOfMonth (zone : JsDate.Zone) (expenses : list Expense.t)
    (d : JsDate.Date) : list Expense.t :=
  List.filter (λ expense,
    let expenseDate := JsDate.localDay zone (Expense.date expense) in
    bool_decide (JsDate.getMonth expenseDate = JsDate.getMonth d) &&
    bool_decide (JsDate.getFullYear expenseDate = JsDate.getFullYear d))
    expenses.

Definition sumAmounts (expenses : list Expense.t) : Qc :=
  foldl (λ sum expense, (sum + Expense.amount expense)%Qc) 0%Qc expenses.

Definition monthTotal (zone : JsDate.Zone) (expenses : list Expense.t)
    (d : JsDate.Date) : Qc :=
  sumAmounts (expensesOfMonth zone expenses d).

(** [d.toLocaleString('default', { month: 'short' }) + ' ' + d.getFullYear()],
    the default locale being English. *)
Definition monthYear (d : JsDate.Date) : string :=
  default EmptyString (["Jan"; "Feb"; "Mar"; "Apr"; "May"; "Jun"; "Jul"; "Aug"; "Sep";
               "Oct"; "Nov"; "Dec"] !! Z.to_nat (JsDate.getMonth d))
  +:+ " " +:+ pretty (JsDate.getFullYear d).

(** The values of [i] in [for (let i = n - 1; i >= 0; i--)]. *)
Definition countdown (n : nat) : list Z := reverse (seqZ 0 (Z.of_nat n)).

(** ** client/src/components/insights/insights-charts.tsx *)
Module InsightsCharts.

Inductive TimeFilter : Type :=
| OneMonth | ThreeMonths | SixMonths | OneYear | AllTime.

(** The expenses the charts are computed from. [new Date(y, m, d)] is
    the local midnight that opens a day, and [expenseDate >= ...] holds
    when the instant of the expense is not before it: when the local day
    of the expense is that day or a later one. *)
Definition filteredExpenses (zone : JsDate.Zone) (timeFilter : TimeFilter)
    (today : JsDate.Date) (expenses : list Expense.t) : list Expense.t :=
  let year := JsDate.getFullYear today in
  let month := JsDate.getMonth today in
  let day := JsDate.getDate today in
  List.filter (λ expense,
    let expenseDate := JsDate.localDay zone (Expense.date expense) in
    match timeFilter with
    | OneMonth =>
        bool_decide (JsDate.make year (month - 1) day ≤ expenseDate)
    | ThreeMonths =>
        bool_decide (JsDate.make year (month - 3) day ≤ expenseDate)
    | SixMonths =>
        bool_decide (JsDate.make year (month - 6) day ≤ expenseDate)
    | OneYear =>
        bool_decide (JsDate.make (year - 1) month day ≤ expenseDate)
    | AllTime => true
    end) expenses.

(** One step of the [forEach] that groups the expenses by category.
    Under the name [__proto__] the object answers with its prototype,
    which is truthy, and ignores the assignment of the text that [+=]
    forms from it: the step leaves the object as it is. *)
Definition addToCategory (categoryTotals : JsObject.t) (expense : Expense.t)
    : JsObject.t :=
  let category := Expense.category expense in
  if bool_decide (category = "__proto__") then categoryTotals
  else
    let categoryTotals :=
      if JsObject.falsy categoryTotals category
      then JsObject.set categoryTotals category 0%Qc
      else categoryTotals in
    JsObject.add categoryTotals category (Expense.amount expense).

Definition groupByCategory (expenses : list Expense.t) : JsObject.t :=
  foldl addToCategory [] expenses.

(** [Object.entries(categoryTotals).sort((a, b) => b[1] - a[1])
      .map(([category]) => category)] *)
Definition sortCategories (categoryTotals : JsObject.t) : list string :=
  (JsArray.sort (λ a b, (b.2 - a.2)%Qc) (JsObject.entries categoryTotals)).*1.

(** [Math.round((value / total) * 100)] *)
Definition percentage (value total : Qc) : number :=
  Math_round (js_mul (js_div (Finite value) (Finite total))
                (Finite (Qc_of_Z 100))).

Record CategoryData : Type := mkCategoryData {
  labels : list string;
  data : list Qc;
  percentages : list number;
  colors : list string;
  total : Qc
}.

Definition getCategoryData (filteredExpenses : list Expense.t) : CategoryData :=
  let categoryTotals := groupByCategory filteredExpenses in
  let sortedCategories := sortCategories categoryTotals in
  let data := JsObject.read categoryTotals <$> sortedCategories in
  let total := JsArray.sum data in
  let percentages := (λ value, percentage value total) <$> data in
  let colors := getCategoryColor <$> sortedCategories in
  mkCategoryData sortedCategories data percentages colors total.

(** The "Top Spending Category" card, shown when there is a label: the
    first label with its percentage and amount. *)
Definition topSpendingCategory (categoryData : CategoryData)
    : option (string * option number * option Qc) :=
  if bool_decide (0 < length (labels categoryData))%nat
  then (λ label, (label, head (percentages categoryData),
                   head (data categoryData))) <$> head (labels categoryData)
  else None.

Definition monthsToShow (timeFilter : TimeFilter) : nat :=
  match timeFilter with
  | OneMonth => 1
  | ThreeMonths => 3
  | SixMonths => 6
  | OneYear => 12
  | AllTime => 24
  end.

Record MonthlyData : Type := mkMonthlyData {
  monthLabels : list string;
  monthlyTotals : list Qc;
  change : Qc;
  changePercentage : Z
}.

(** Month-over-month change of the last two totals. The division is
    made only for a positive divisor, so it is a rational. *)
Definition monthOverMonth (monthlyTotals : list Qc) : Qc * Z :=
  if bool_decide (2 ≤ length monthlyTotals)%nat then
    match monthlyTotals !! (length monthlyTotals - 1)%nat,
          monthlyTotals !! (length monthlyTotals - 2)%nat with
    | Some currentMonth, Some previousMonth =>
        if bool_decide (0 < previousMonth)%Qc then
          let change := (currentMonth - previousMonth)%Qc in
          (change,
           round_half_up (change / previousMonth * Qc_of_Z 100)%Qc)
        else (0%Qc, 0)
    | _, _ => (0%Qc, 0)
    end
  else (0%Qc, 0).

Definition getMonthlyData (zone : JsDate.Zone) (timeFilter : TimeFilter)
    (today : JsDate.Date) (filteredExpenses : list Expense.t) : MonthlyData :=
  let months :=
    (λ i, JsDate.make (JsDate.getFullYear today) (JsDate.getMonth today - i) 1)
      <$> countdown (monthsToShow timeFilter) in
  let monthLabels := monthYear <$> months in
  let monthlyTotals := monthTotal zone filteredExpenses <$> months in
  let '(change, changePercentage) := monthOverMonth monthlyTotals in
  mkMonthlyData monthLabels monthlyTotals change changePercentage.

Definition weekdays : list string :=
  ["Sunday"; "Monday"; "Tuesday"; "Wednesday"; "Thursday"; "Friday";
   "Saturday"].

Record WeekdayData : Type := mkWeekdayData {
  weekdayLabels : list string;
  weekdayAverages : list Qc;
  highestDay : option string;
  highestAvg : Qc
}.

(** One step of the [forEach] over the expenses: the totals and counts
    of the expense's weekday are advanced. *)
Definition addToWeekday (zone : JsDate.Zone) (acc : list Qc * list Z)
    (expense : Expense.t) : list Qc * list Z :=
  let date := JsDate.localDay zone (Expense.date expense) in
  let day := Z.to_nat (JsDate.getDay date) in
  (alter (λ total, (total + Expense.amount expense)%Qc) day acc.1,
   alter Z.succ day acc.2).

(** [weekdayCounts[i] > 0 ? total / weekdayCounts[i] : 0]; an undefined
    count compares false. *)
Definition average (weekdayCounts : list Z) (i : nat) (total : Qc) : Qc :=
  match weekdayCounts !! i with
  | Some count =>
      if bool_decide (0 < count) then (total / Qc_of_Z count)%Qc else 0%Qc
  | None => 0%Qc
  end.

(** One step of the [forEach] that looks for the highest average. *)
Definition higher (best : nat * Qc) (entry : nat * Qc) : nat * Qc :=
  let '(i, avg) := entry in
  if bool_decide (best.2 < avg)%Qc then (i, avg) else best.

Definition getWeekdayData (zone : JsDate.Zone)
    (filteredExpenses : list Expense.t) : WeekdayData :=
  let '(weekdayTotals, weekdayCounts) :=
    foldl (addToWeekday zone) (replicate 7 0%Qc, replicate 7 0)
      filteredExpenses in
  let weekdayAverages := imap (average weekdayCounts) weekdayTotals in
  let '(highestDay, highestAvg) :=
    foldl higher (0%nat, 0%Qc) (imap pair weekdayAverages) in
  mkWeekdayData weekdays weekdayAverages (weekdays !! highestDay) highestAvg.

End InsightsCharts.

(** ** client/src/components/dashboard/spending-chart.tsx *)
Module SpendingChart.

Record MonthlyData : Type := mkMonthlyData {
  monthLabels : list string;
  monthlyTotals : list Qc
}.

(** The last six months, oldest first. *)
Definition getMonthlyData (zone : JsDate.Zone) (today : JsDate.Date)
    (expenses : list Expense.t) : MonthlyData :=
  let months :=
    (λ i, JsDate.make (JsDate.getFullYear today) (JsDate.getMonth today - i) 1)
      <$> countdown 6 in
  mkMonthlyData (monthYear <$> months) (monthTotal zone expenses <$> months).

Record CategoryData : Type := mkCategoryData {
  labels : list string;
  data : list Qc;
  colors : list string
}.

(** The grouping and the sort are those of the insights page, word for
    word. *)
Definition getCategoryData (expenses : list Expense.t) : CategoryData :=
  let categoryTotals := InsightsCharts.groupByCategory expenses in
  let sortedCategories := InsightsCharts.sortCategories categoryTotals in
  mkCategoryData sortedCategories
    (JsObject.read categoryTotals <$> sortedCategories)
    (getCategoryColor <$> sortedCategories).

End SpendingChart.

(** ** client/src/components/dashboard/summary-cards.tsx *)
Module SummaryCards.

Record t : Type := mk {
  currentMonthTotal : Qc;
  lastMonthTotal : Qc;
  monthlySavings : Qc;
  spendingDifference : Qc;
  topCategory : string;
  topCategoryAmount : Qc;
  topCategoryPercentage : Z;
  goalsProgress : Z
}.

(** [goals?.reduce((sum, goal) => sum + Number(goal.f), 0) || 0] *)
Definition sumGoals (f : Goal.t → Qc) (goals : option (list Goal.t)) : Qc :=
  match goals with
  | Some goals => foldl (λ sum goal, (sum + f goal)%Qc) 0%Qc goals
  | None => 0%Qc
  end.

(** [acc[category] = (acc[category] || 0) + Number(expense.amount)];
    an assignment to [__proto__] of what is not an object is ignored. *)
Definition addToCategory (acc : JsObject.t) (expense : Expense.t) : JsObject.t :=
  let category := Expense.category expense in
  if bool_decide (category = "__proto__") then acc
  else
    JsObject.set acc category
      (JsObject.read acc category + Expense.amount expense)%Qc.

(** One step of the [forEach] that looks for the top category. *)
Definition higher (top : string * Qc) (entry : string * Qc) : string * Qc :=
  let '(category, amount) := entry in
  if bool_decide (top.2 < amount)%Qc then (category, amount) else top.

Definition compute (zone : JsDate.Zone) (today : JsDate.Date)
    (expenses : list Expense.t) (goals : option (list Goal.t)) : t :=
  let currentMonth := JsDate.getMonth today in
  let currentYear := JsDate.getFullYear today in
  let lastMonthDate := JsDate.make currentYear (currentMonth - 1) 1 in
  let currentMonthExpenses := expensesOfMonth zone expenses today in
  let lastMonthExpenses := expensesOfMonth zone expenses lastMonthDate in
  let currentMonthTotal := sumAmounts currentMonthExpenses in
  let lastMonthTotal := sumAmounts lastMonthExpenses in
  let monthlySavings := sumGoals Goal.currentAmount goals in
  let spendingDifference :=
    if bool_decide (lastMonthTotal ≠ 0%Qc)
    then ((currentMonthTotal - lastMonthTotal) / lastMonthTotal
          * Qc_of_Z 100)%Qc
    else 0%Qc in
  let categorySpending := foldl addToCategory [] currentMonthExpenses in
  let '(topCategory, topCategoryAmount) :=
    foldl higher (EmptyString, 0%Qc) (JsObject.entries categorySpending) in
  let topCategoryPercentage :=
    if bool_decide (currentMonthTotal ≠ 0%Qc)
    then round_half_up (topCategoryAmount / currentMonthTotal * Qc_of_Z 100)%Qc
    else 0 in
  let totalGoalTargets := sumGoals Goal.targetAmount goals in
  let totalGoalSavings := sumGoals Goal.currentAmount goals in
  let goalsProgress :=
    if bool_decide (0 < totalGoalTargets)%Qc
    then round_half_up (totalGoalSavings / totalGoalTargets * Qc_of_Z 100)%Qc
    else 0 in
  mk currentMonthTotal lastMonthTotal monthlySavings spendingDifference
     topCategory topCategoryAmount topCategoryPercentage goalsProgress.

(** [Math.abs(Math.round(spendingDifference))], the figure shown before
    "% from last month". *)
Definition shownDifference (s : t) : Z :=
  Z.abs (round_half_up (spendingDifference s)).

(** [topCategory || 'No data'] *)
Definition shownTopCategory (s : t) : string :=
  if bool_decide (topCategory s = EmptyString) then "No data" else topCategory s.

End SummaryCards.

(** ** client/src/components/goals/goal-card.tsx *)
Module GoalCard.

(** [Math.round((Number(goal.currentAmount) / Number(goal.targetAmount)) * 100)] *)
Definition progress (goal : Goal.t) : number :=
  Math_round (js_mul (js_div (Finite (Goal.currentAmount goal))
                             (Finite (Goal.targetAmount goal)))
                (Finite (Qc_of_Z 100))).

(** [addFundsSchema]: the form value [amount] is a non-empty string
    that [parseFloat] reads as a positive number. *)
Definition addFundsSchema (amount : string) : bool :=
  bool_decide (1 ≤ String.length amount)%nat &&
  (negb (isNaN (parseFloat amount)) && js_gt (parseFloat amount) (Finite 0)).

End GoalCard.

(** ** Binary doubles

    The numbers of JavaScript themselves: IEEE 754 binary64, as the
    primitive floats of the kernel give them. [Number] and [parseFloat]
    round the decimal they read to the nearest double, a tie going to the
    double whose last bit is 0; sums and comparisons are those of the
    doubles. On them stands the code that adds funds to a goal
    (goal-card.tsx), whose request carries the sum itself. *)
Module Binary64.

(** The number of binary digits of a positive integer. *)
Definition bits (x : Z) : Z := Z.log2 x + 1.

(** The integer nearest to [n / d], a tie going to the even one. *)
Definition div_half_even (n d : Z) : Z :=
  let q := n `div` d in
  match (2 * (n `mod` d) ?= d) with
  | Lt => q
  | Gt => q + 1
  | Eq => if Z.even q then q else q + 1
  end.

(** [n / d] divided by [2 ^ e], as a fraction. *)
Definition scaled (n d e : Z) : Z * Z :=
  if bool_decide (0 ≤ e) then (n, d * 2 ^ e) else (n * 2 ^ (- e), d).

(** The double nearest to [n / d], for positive [n] and [d]: a mantissa
    of 53 bits, or of fewer below the smallest normal number, and
    infinity from [2 ^ 1024] on. *)
Definition nearest (n d : Z) : spec_float :=
  let e1 := bits n - bits d - 53 in
  let '(n1, d1) := scaled n d e1 in
  let e2 := if bool_decide (2 ^ 53 ≤ n1 `div` d1) then e1 + 1 else e1 in
  let e := Z.max e2 (-1074) in
  let '(n2, d2) := scaled n d e in
  let m := div_half_even n2 d2 in
  let '(m, e) := if bool_decide (m = 2 ^ 53) then (2 ^ 52, e + 1) else (m, e) in
  if bool_decide (m = 0) then S754_zero false
  else if bool_decide (1024 < e + 53) then S754_infinity false
  else S754_finite false (Z.to_pos m) e.

(** [Number(text)], for the decimal text of a rational. *)
Definition ofRational (q : Qc) : float :=
  let n := Qnum q in
  let d := Z.pos (Qden q) in
  if bool_decide (n = 0) then PrimFloat.zero
  else if bool_decide (n < 0) then PrimFloat.opp (SF2Prim (nearest (- n) d))
  else SF2Prim (nearest n d).

Definition ofNumber (a : number) : float :=
  match a with
  | NaN => PrimFloat.nan
  | Infinity negative =>
      if negative then PrimFloat.neg_infinity else PrimFloat.infinity
  | Finite q => ofRational q
  end.

(** [parseFloat]: the decimal literal that is read, rounded to a
    double. *)
Definition parseFloat (input : string) : float :=
  ofNumber (ParseFloat.parseFloat input).

(** [addFundsSchema] of goal-card.tsx: the form value [amount] is a
    non-empty string that [parseFloat] reads as a positive number. *)
Definition addFundsSchema (amount : string) : bool :=
  bool_decide (1 ≤ String.length amount)%nat &&
  (negb (PrimFloat.is_nan (parseFloat amount))
   && PrimFloat.ltb PrimFloat.zero (parseFloat amount)).

Record Funds : Type := mkFunds {
  currentAmount : float;
  status : string
}.

Record ApiRequest : Type := mkApiRequest {
  method : string;
  url : string;
  body : Funds
}.

(** [addFundsMutation.mutationFn]:
    [newAmount = Number(goal.currentAmount) + parseFloat(amount)],
    [newStatus = newAmount >= Number(goal.targetAmount) ? 'completed' : goal.status]. *)
Definition addFundsMutation (goal : Goal.t) (amount : string) : ApiRequest :=
  let newAmount :=
    PrimFloat.add (ofRational (Goal.currentAmount goal)) (parseFloat amount) in
  let newStatus :=
    if PrimFloat.leb (ofRational (Goal.targetAmount goal)) newAmount
    then "completed" else Goal.status goal in
  mkApiRequest "PUT" ("/api/goals/" +:+ pretty (Goal.id goal))
    (mkFunds newAmount newStatus).

(** [addFundsForm.handleSubmit(onAddFundsSubmit)]: the mutation runs
    when the form value passes the schema. *)
Definition onAddFundsSubmit (goal : Goal.t) (amount : string)
    : option ApiRequest :=
  if addFundsSchema amount then Some (addFundsMutation goal amount) else None.

(** [Math.round]: the integer nearest to the argument, a tie going up. A
    double with an exponent that is not negative is an integer. *)
Definition Math_round (x : float) : float :=
  match Prim2SF x with
  | S754_finite negative m e =>
      if bool_decide (0 ≤ e) then x
      else
        let v := if negative then Z.neg m else Z.pos m in
        let r := (2 * v + 2 ^ (- e)) `div` 2 ^ (1 - e) in
        if bool_decide (r < 0)
        then PrimFloat.opp (PrimFloat.of_uint63 (Uint63.of_Z (- r)))
        else PrimFloat.of_uint63 (Uint63.of_Z r)
  | _ => x
  end.

(** [Math.round((value / total) * 100)], the percentage of the charts
    and of the goal card. *)
Definition percentage (value total : float) : float :=
  Math_round (PrimFloat.mul (PrimFloat.div value total) 100%float).

End Binary64.

(** ** server/storage.ts *)

(** The outcome of an awaited storage call: a value, or a rejection. *)
Inductive Result (X : Type) : Type :=
| Ok (x : X)
| Throw.
Global Arguments Ok {X} x.
Global Arguments Throw {X}.

(** The columns a request body can set in an update ([Partial<Expense>],
    [Partial<Goal>]), as the database reads them. A body that names the
    primary key or [createdAt], or holds a value its column refuses, is
    outside this type; [userId], where the body sets it, names a row of
    [users], as the foreign key of the column demands. *)
Module ExpensePatch.
Record t : Type := mk {
  userId : option Z;
  amount : option Qc;
  category : option string;
  description : option (option string);
  note : option (option string);
  date : option JsDate.Date
}.
Definition is_empty (p : t) : bool :=
  bool_decide (userId p = None ∧ amount p = None ∧ category p = None ∧
               description p = None ∧ note p = None ∧ date p = None).
Definition apply (p : t) (row : Expense.t) : Expense.t :=
  Expense.mk (Expense.id row)
    (default (Expense.userId row) (userId p))
    (default (Expense.amount row) (amount p))
    (default (Expense.category row) (category p))
    (default (Expense.description row) (description p))
    (default (Expense.note row) (note p))
    (default (Expense.date row) (date p)).
End ExpensePatch.

Module GoalPatch.
Record t : Type := mk {
  userId : option Z;
  name : option string;
  targetAmount : option Qc;
  currentAmount : option Qc;
  targetDate : option (option JsDate.Date);
  status : option string
}.
Definition is_empty (p : t) : bool :=
  bool_decide (userId p = None ∧ name p = None ∧ targetAmount p = None ∧
               currentAmount p = None ∧ targetDate p = None ∧ status p = None).
Definition apply (p : t) (row : Goal.t) : Goal.t :=
  Goal.mk (Goal.id row)
    (default (Goal.userId row) (userId p))
    (default (Goal.name row) (name p))
    (default (Goal.targetAmount row) (targetAmount p))
    (default (Goal.currentAmount row) (currentAmount p))
    (default (Goal.targetDate row) (targetDate p))
    (default (Goal.status row) (status p)).
End GoalPatch.

(** The operations of [IStorage] the routes below call. *)
Inductive StorageCall : Type → Type :=
| GetExpenseById (id : Z) : StorageCall (option Expense.t)
| CreateExpense (expense : InsertExpense.t) : StorageCall Expense.t
| UpdateExpense (id : Z) (expense : ExpensePatch.t) : StorageCall (option Expense.t)
| DeleteExpense (id : Z) : StorageCall bool
| GetGoalById (id : Z) : StorageCall (option Goal.t)
| UpdateGoal (id : Z) (goal : GoalPatch.t) : StorageCall (option Goal.t)
| DeleteGoal (id : Z) : StorageCall bool.

(** The tables, each row under its primary key, and the last values of
    the [serial] sequences. *)
Record Db : Type := mkDb {
  expenses : gmap Z Expense.t;
  goals : gmap Z Goal.t;
  expenses_id_seq : Z;
  goals_id_seq : Z
}.

(** An implementation of the storage interface. *)
Definition Storage : Type := ∀ X, StorageCall X → Db → Db * Result X.

Module DatabaseStorage.

(** Input of a [date] column: [YYYY-MM-DD] naming a day that exists. *)
Definition date_in (s : string) : option JsDate.Date :=
  let '(y, ylen, s1) := ParseFloat.digits 0 0 s in
  match s1 with
  | String "-" s2 =>
      let '(m, mlen, s3) := ParseFloat.digits 0 0 s2 in
      match s3 with
      | String "-" s4 =>
          let '(d, dlen, s5) := ParseFloat.digits 0 0 s4 in
          let t := JsDate.days_from_civil y m d in
          if bool_decide (ylen = 4 ∧ mlen = 2 ∧ dlen = 2)%nat
             && bool_decide (s5 = EmptyString)
             && bool_decide (JsDate.civil_from_days t = (y, m, d))
          then Some t else None
      | _ => None
      end
  | _ => None
  end.

(** Input of a [numeric] column from [String(amount)]: a finite decimal.
    A non-finite amount is reported as a failed statement. *)
Definition numeric_in (amount : Amount) : option Qc :=
  match amount with
  | AmountNumber (Finite q) => Some q
  | AmountString s =>
      match parseFloat s with Finite q => Some q | _ => None end
  | _ => None
  end.

Definition getExpenseById (id : Z) (db : Db) : Db * Result (option Expense.t) :=
  (db, Ok (expenses db !! id)).

Definition createExpense (insertExpense : InsertExpense.t) (db : Db)
    : Db * Result Expense.t :=
  match numeric_in (InsertExpense.amount insertExpense),
        date_in (InsertExpense.date insertExpense) with
  | Some amount, Some date =>
      let id := expenses_id_seq db + 1 in
      let expense :=
        Expense.mk id (InsertExpense.userId insertExpense) amount
          (InsertExpense.category insertExpense)
          (InsertExpense.description insertExpense)
          (InsertExpense.note insertExpense) date in
      (mkDb (<[id := expense]> (expenses db)) (goals db) id (goals_id_seq db),
       Ok expense)
  | _, _ => (db, Throw)
  end.

(** [update(expenses).set(expenseData).where(eq(expenses.id, id)).returning()];
    a [set] without any column is refused. *)
Definition updateExpense (id : Z) (expenseData : ExpensePatch.t) (db : Db)
    : Db * Result (option Expense.t) :=
  if ExpensePatch.is_empty expenseData then (db, Throw)
  else
    match expenses db !! id with
    | Some row =>
        let updatedExpense := ExpensePatch.apply expenseData row in
        (mkDb (<[id := updatedExpense]> (expenses db)) (goals db)
           (expenses_id_seq db) (goals_id_seq db),
         Ok (Some updatedExpense))
    | None => (db, Ok None)
    end.

(** [result.length > 0] of the deleted rows. *)
Definition deleteExpense (id : Z) (db : Db) : Db * Result bool :=
  match expenses db !! id with
  | Some _ =>
      (mkDb (delete id (expenses db)) (goals db)
         (expenses_id_seq db) (goals_id_seq db), Ok true)
  | None => (db, Ok false)
  end.

Definition getGoalById (id : Z) (db : Db) : Db * Result (option Goal.t) :=
  (db, Ok (goals db !! id)).

Definition updateGoal (id : Z) (goalData : GoalPatch.t) (db : Db)
    : Db * Result (option Goal.t) :=
  if GoalPatch.is_empty goalData then (db, Throw)
  else
    match goals db !! id with
    | Some row =>
        let updatedGoal := GoalPatch.apply goalData row in
        (mkDb (expenses db) (<[id := updatedGoal]> (goals db))
           (expenses_id_seq db) (goals_id_seq db),
         Ok (Some updatedGoal))
    | None => (db, Ok None)
    end.

Definition deleteGoal (id : Z) (db : Db) : Db * Result bool :=
  match goals db !! id with
  | Some _ =>
      (mkDb (expenses db) (delete id (goals db))
         (expenses_id_seq db) (goals_id_seq db), Ok true)
  | None => (db, Ok false)
  end.

Definition storage : Storage := λ X call,
  match call in StorageCall X return Db → Db * Result X with
  | GetExpenseById id => getExpenseById id
  | CreateExpense expense => createExpense expense
  | UpdateExpense id expense => updateExpense id expense
  | DeleteExpense id => deleteExpense id
  | GetGoalById id => getGoalById id
  | UpdateGoal id goal => updateGoal id goal
  | DeleteGoal id => deleteGoal id
  end.

End DatabaseStorage.

(** ** server/routes.ts *)

Inductive Json : Type :=
| Message (message : string)
| InvalidData                        (* message "Invalid data" with the zod errors *)
| ExpenseJson (expense : option Expense.t)
| GoalJson (goal : option Goal.t)
| Empty.

Record Response : Type := mkResponse {
  statusCode : Z;
  json : Json
}.

(** What a route reads of the request besides its parameters and body:
    [req.isAuthenticated()] and [req.user?.id]. *)
Record Session : Type := mkSession {
  isAuthenticated : bool;
  user : option Z
}.

(** The body of POST /api/expenses. *)
Module ExpenseBody.
Record t : Type := mk {
  category : JsValue;
  description : JsValue;
  note : JsValue;
  date : JsValue;
  amount : JsValue
}.
End ExpenseBody.

(** A route handler: it responds, or awaits a storage call inside a
    [try] whose [catch] responds for a rejected call. *)
Inductive Handler : Type :=
| Respond (response : Response)
| Await {X : Type} (call : StorageCall X) (next : X → Handler)
    (catch : Response).

Definition Call : Type := sigT StorageCall.

(** Running a handler against a storage: the final tables, the response
    and the storage calls made, in order. *)
Fixpoint run (storage : Storage) (handler : Handler) (db : Db)
    : Db * Response * list Call :=
  match handler with
  | Respond response => (db, response, [])
  | Await call next catch =>
      match storage _ call db with
      | (db', Ok x) =>
          let '(db'', response, calls) := run storage (next x) db' in
          (db'', response, existT _ call :: calls)
      | (db', Throw) => (db', catch, [existT _ call])
      end
  end.

(** The route parameter [:id] is taken as the integer [parseInt] reads
    from it. *)
Module Routes.

(** The [isAuthenticated] middleware followed by the check of
    [req.user?.id] that opens every route. *)
Definition authenticated (session : Session) (route : Z → Handler) : Handler :=
  if isAuthenticated session then
    match user session with
    | Some userId =>
        if bool_decide (userId = 0)
        then Respond (mkResponse 401 (Message "User not found"))
        else route userId
    | None => Respond (mkResponse 401 (Message "User not found"))
    end
  else Respond (mkResponse 401 (Message "Unauthorized")).

(** POST /api/expenses *)
Definition requestData (userId : Z) (body : ExpenseBody.t) : ExpenseInput.t :=
  ExpenseInput.mk userId (ExpenseBody.category body)
    (ExpenseBody.description body) (ExpenseBody.note body)
    (ExpenseBody.date body)
    match ExpenseBody.amount body with
    | JString amount => JNumber (parseFloat amount)
    | amount => amount
    end.

Definition postExpense (session : Session) (body : ExpenseBody.t) : Handler :=
  authenticated session (λ userId,
    match insertExpenseSchema (requestData userId body) with
    | Some validatedData =>
        Await (CreateExpense validatedData)
          (λ expense, Respond (mkResponse 201 (ExpenseJson (Some expense))))
          (mkResponse 500 (Message "Failed to create expense"))
    | None => Respond (mkResponse 400 InvalidData)
    end).

(** PUT /api/expenses/:id *)
Definition putExpense (session : Session) (expenseId : Z)
    (body : ExpensePatch.t) : Handler :=
  authenticated session (λ userId,
    Await (GetExpenseById expenseId)
      (λ expense,
        match expense with
        | None => Respond (mkResponse 404 (Message "Expense not found"))
        | Some expense =>
            if bool_decide (Expense.userId expense ≠ userId)
            then Respond (mkResponse 403
                   (Message "Not authorized to update this expense"))
            else
              Await (UpdateExpense expenseId body)
                (λ updatedExpense,
                  Respond (mkResponse 200 (ExpenseJson updatedExpense)))
                (mkResponse 500 (Message "Failed to update expense"))
        end)
      (mkResponse 500 (Message "Failed to update expense"))).

(** DELETE /api/expenses/:id *)
Definition deleteExpense (session : Session) (expenseId : Z) : Handler :=
  authenticated session (λ userId,
    Await (GetExpenseById expenseId)
      (λ expense,
        match expense with
        | None => Respond (mkResponse 404 (Message "Expense not found"))
        | Some expense =>
            if bool_decide (Expense.userId expense ≠ userId)
            then Respond (mkResponse 403
                   (Message "Not authorized to delete this expense"))
            else
              Await (DeleteExpense expenseId)
                (λ result : bool,
                  if result then Respond (mkResponse 204 Empty)
                  else Respond (mkResponse 500
                         (Message "Failed to delete expense")))
                (mkResponse 500 (Message "Failed to delete expense"))
        end)
      (mkResponse 500 (Message "Failed to delete expense"))).

(** PUT /api/goals/:id *)
Definition putGoal (session : Session) (goalId : Z) (body : GoalPatch.t)
    : Handler :=
  authenticated session (λ userId,
    Await (GetGoalById goalId)
      (λ goal,
        match goal with
        | None => Respond (mkResponse 404 (Message "Goal not found"))
        | Some goal =>
            if bool_decide (Goal.userId goal ≠ userId)
            then Respond (mkResponse 403
                   (Message "Not authorized to update this goal"))
            else
              Await (UpdateGoal goalId body)
                (λ updatedGoal,
                  Respond (mkResponse 200 (GoalJson updatedGoal)))
                (mkResponse 500 (Message "Failed to update goal"))
        end)
      (mkResponse 500 (Message "Failed to update goal"))).

(** DELETE /api/goals/:id *)
Definition deleteGoal (session : Session) (goalId : Z) : Handler :=
  authenticated session (λ userId,
    Await (GetGoalById goalId)
      (λ goal,
        match goal with
        | None => Respond (mkResponse 404 (Message "Goal not found"))
        | Some goal =>
            if bool_decide (Goal.userId goal ≠ userId)
            then Respond (mkResponse 403
                   (Message "Not authorized to delete this goal"))
            else
              Await (DeleteGoal goalId)
                (λ result : bool,
                  if result then Respond (mkResponse 204 Empty)
                  else Respond (mkResponse 500
                         (Message "Failed to delete goal")))
                (mkResponse 500 (Message "Failed to delete goal"))
        end)
      (mkResponse 500 (Message "Failed to delete goal"))).

End Routes.

(** ** Further code: pages, forms, queries

    Conventions for the code below.
    - The moment [new Date()] gives is read in local time: a day and the
      milliseconds elapsed within that day.
    - [String.prototype.toLowerCase], [Date.parse] and the conversion of a
      local time to an instant follow the runtime; the code that calls
      them takes them as parameters.
    - A [select] returns the rows of a table in an order the database
      chooses; the properties of the queries do not depend on it. *)

(** [getCategoryBadgeStyles] of client/src/lib/category-utils.tsx. *)
Definition getCategoryBadgeStyles (category : string) : string :=
  if bool_decide (category = "Food") then "bg-blue-100 text-blue-800"
  else if bool_decide (category = "Transport") then "bg-purple-100 text-purple-800"
  else if bool_decide (category = "Entertainment") then "bg-red-100 text-red-800"
  else if bool_decide (category = "Shopping") then "bg-green-100 text-green-800"
  else if bool_decide (category = "Health") then "bg-pink-100 text-pink-800"
  else if bool_decide (category = "Bills") then "bg-yellow-100 text-yellow-800"
  else "bg-gray-100 text-gray-800".

(** [new Date(expense.date).getTime()]: milliseconds since the epoch of
    the UTC midnight that opens the day. *)
Definition getTime (t : JsDate.Date) : Z := t * msPerDay.

(** ** client/src/components/dashboard/recent-transactions.tsx *)
Module RecentTransactions.

(** [(a, b) => new Date(b.date).getTime() - new Date(a.date).getTime()] *)
Definition newestFirst (a b : Expense.t) : Qc :=
  Qc_of_Z (getTime (Expense.date b) - getTime (Expense.date a)).

(** [[...expenses].sort(...).slice(0, 5)] *)
Definition recentExpenses (expenses : list Expense.t) : list Expense.t :=
  take 5 (JsArray.sort newestFirst expenses).

End RecentTransactions.

(** ** client/src/pages/expenses-page.tsx *)
Module ExpensesPage.

Inductive DateFilter : Type :=
| SevenDays | ThirtyDays | ThisMonth | ThisYear | AllDates.

Inductive SortOption : Type :=
| Newest | Oldest | AmountHigh | AmountLow.

(** [haystack.includes(needle)] *)
Definition includes (haystack needle : string) : bool :=
  match String.index 0 needle haystack with
  | Some _ => true
  | None => false
  end.

Section Filters.

(** [String.prototype.toLowerCase], whose case mapping is the runtime's. *)
Variable toLowerCase : string → string.

(** The time zone of the browser, and the operation [UTC(t)] of the
    language: the instant, in milliseconds since the epoch, at which the
    local clock shows the local time [t]. *)
Variable zone : JsDate.Zone.
Variable utc : Z → Z.

(** The selections of the page, and the moment [new Date()] gives, as
    the local clock shows it: its day and the milliseconds elapsed within
    that day. *)
Variables (categoryFilter : string) (dateFilter : DateFilter)
  (searchTerm : string).
Variables (today : JsDate.Date) (timeOfDay : Z).

(** [const d = new Date(today); d.setDate(today.getDate() - n)]: the
    instant of the same local time of day, [n] days of the month
    earlier. *)
Definition daysAgo (n : Z) : Z :=
  utc (JsDate.make (JsDate.getFullYear today) (JsDate.getMonth today)
         (JsDate.getDate today - n) * msPerDay
       + timeOfDay).

(** The date part of the filter callback: [false] where it returns
    [false]. The comparisons are of instants, the calendar fields are
    read in local time. *)
Definition passesDate (expense : Expense.t) : bool :=
  let instant := getTime (Expense.date expense) in
  let expenseDate := JsDate.localDay zone (Expense.date expense) in
  match dateFilter with
  | SevenDays => negb (bool_decide (instant < daysAgo 7))
  | ThirtyDays => negb (bool_decide (instant < daysAgo 30))
  | ThisMonth =>
      negb (bool_decide (JsDate.getMonth expenseDate ≠ JsDate.getMonth today)
            || bool_decide (JsDate.getFullYear expenseDate
                            ≠ JsDate.getFullYear today))
  | ThisYear =>
      negb (bool_decide (JsDate.getFullYear expenseDate
                         ≠ JsDate.getFullYear today))
  | AllDates => true
  end.

(** The search part of the filter callback; an empty term is falsy. *)
Definition passesSearch (expense : Expense.t) : bool :=
  if bool_decide (searchTerm = EmptyString) then true
  else
    let searchLower := toLowerCase searchTerm in
    let descriptionMatch :=
      match Expense.description expense with
      | Some description => includes (toLowerCase description) searchLower
      | None => false
      end in
    let categoryMatch :=
      includes (toLowerCase (Expense.category expense)) searchLower in
    let noteMatch :=
      match Expense.note expense with
      | Some note => includes (toLowerCase note) searchLower
      | None => false
      end in
    negb (negb descriptionMatch && negb categoryMatch && negb noteMatch).

(** The callback of [expenses.filter]. *)
Definition keeps (expense : Expense.t) : bool :=
  if bool_decide (categoryFilter ≠ "all")
     && bool_decide (Expense.category expense ≠ categoryFilter)
  then false
  else if negb (passesDate expense) then false
  else passesSearch expense.

End Filters.

(** The comparator of [sort]. *)
Definition compare (sortOption : SortOption) (a b : Expense.t) : Qc :=
  match sortOption with
  | Newest => Qc_of_Z (getTime (Expense.date b) - getTime (Expense.date a))
  | Oldest => Qc_of_Z (getTime (Expense.date a) - getTime (Expense.date b))
  | AmountHigh => (Expense.amount b - Expense.amount a)%Qc
  | AmountLow => (Expense.amount a - Expense.amount b)%Qc
  end.

Definition filteredExpenses (toLowerCase : string → string)
    (zone : JsDate.Zone) (utc : Z → Z)
    (categoryFilter : string) (dateFilter : DateFilter) (sortOption : SortOption)
    (searchTerm : string) (today : JsDate.Date) (timeOfDay : Z)
    (expenses : list Expense.t) : list Expense.t :=
  JsArray.sort (compare sortOption)
    (List.filter
       (keeps toLowerCase zone utc categoryFilter dateFilter searchTerm today
          timeOfDay)
       expenses).

End ExpensesPage.

(** ** client/src/components/expenses/add-expense-dialog.tsx *)
Module AddExpenseDialog.

(** The [amount] rule of the form schema:
    [z.string().min(1, ...).refine(val => !isNaN(parseFloat(val)) && parseFloat(val) > 0)] *)
Definition amountSchema (amount : string) : bool :=
  bool_decide (1 ≤ String.length amount)%nat &&
  (negb (isNaN (parseFloat amount)) && js_gt (parseFloat amount) (Finite 0)).

(** [amount: parseFloat(data.amount)] of the payload. *)
Definition payloadAmount (amount : string) : number := parseFloat amount.

End AddExpenseDialog.

(** ** client/src/components/goals/add-goal-dialog.tsx *)
Module AddGoalDialog.

(** The values of the form. *)
Record FormValues : Type := mkFormValues {
  name : string;
  targetAmount : string;
  currentAmount : string;
  status : option string;
  targetDate : option string
}.

Record Payload : Type := mkPayload {
  payloadName : string;
  payloadTargetAmount : number;
  payloadCurrentAmount : number;
  payloadStatus : option string;
  payloadTargetDate : option string
}.

Section Form.

(** [Date.parse], whose accepted formats are the runtime's. *)
Variable Date_parse : string → number.

(** [formSchema]: the target amount is a non-empty string read as a
    positive number, the current amount is empty or read as a number that
    is not negative, the target date is absent, empty or parsable. *)
Definition formSchema (data : FormValues) : bool :=
  (bool_decide (1 ≤ String.length (targetAmount data))%nat &&
   (negb (isNaN (parseFloat (targetAmount data)))
    && js_gt (parseFloat (targetAmount data)) (Finite 0))) &&
  (bool_decide (currentAmount data = EmptyString) ||
   (negb (isNaN (parseFloat (currentAmount data)))
    && js_ge (parseFloat (currentAmount data)) (Finite 0))) &&
  match targetDate data with
  | None => true
  | Some val =>
      bool_decide (val = EmptyString) || negb (isNaN (Date_parse val))
  end.

(** The payload of [goalMutation.mutationFn]. *)
Definition payload (data : FormValues) : Payload :=
  mkPayload (name data)
    (parseFloat (targetAmount data))
    (if bool_decide (currentAmount data = EmptyString) then Finite 0
     else parseFloat (currentAmount data))
    (status data) (targetDate data).

(** [form.handleSubmit(onSubmit)]: the mutation runs on values that pass
    the schema. *)
Definition onSubmit (data : FormValues) : option Payload :=
  if formSchema data then Some (payload data) else None.

End Form.

End AddGoalDialog.

(** ** Reads of server/storage.ts and their routes *)
Module DatabaseQueries.

(** The rows of a table; a [select] without [orderBy] returns them in an
    order the database chooses. *)
Definition rows {A} (table : gmap Z A) : list A := (map_to_list table).*2.

(** [select().from(expenses).where(eq(expenses.userId, userId))] *)
Definition getExpenses (userId : Z) (db : Db) : list Expense.t :=
  List.filter (λ row, bool_decide (Expense.userId row = userId))
    (rows (expenses db)).

Definition getExpensesByCategory (userId : Z) (category : string) (db : Db)
    : list Expense.t :=
  List.filter (λ row, bool_decide (Expense.userId row = userId)
                      && bool_decide (Expense.category row = category))
    (rows (expenses db)).

(** [startDate] and [endDate] are compared by their calendar day. *)
Definition getExpensesByDateRange (userId : Z) (startDate endDate : JsDate.Date)
    (db : Db) : list Expense.t :=
  List.filter (λ row, bool_decide (Expense.userId row = userId)
                      && bool_decide (startDate ≤ Expense.date row)
                      && bool_decide (Expense.date row ≤ endDate))
    (rows (expenses db)).

Definition getGoals (userId : Z) (db : Db) : list Goal.t :=
  List.filter (λ row, bool_decide (Goal.userId row = userId))
    (rows (goals db)).

End DatabaseQueries.

(** The response of a route that lists records. *)
Inductive Listing (A : Type) : Type :=
| Listed (records : list A)
| Refused (statusCode : Z) (message : string).
Global Arguments Listed {A} records.
Global Arguments Refused {A} statusCode message.

Module ReadRoutes.

(** The opening of every route: the [isAuthenticated] middleware, then
    the check of [req.user?.id]. *)
Definition authenticated {A} (session : Session) (route : Z → Listing A)
    : Listing A :=
  if isAuthenticated session then
    match user session with
    | Some userId =>
        if bool_decide (userId = 0) then Refused 401 "User not found"
        else route userId
    | None => Refused 401 "User not found"
    end
  else Refused 401 "Unauthorized".

(** GET /api/expenses, over a storage whose read may be rejected. *)
Definition getExpenses (read : Z → Db → Result (list Expense.t))
    (session : Session) (db : Db) : Listing Expense.t :=
  authenticated session (λ userId,
    match read userId db with
    | Ok expenses => Listed expenses
    | Throw => Refused 500 "Failed to fetch expenses"
    end).

(** GET /api/expenses/category/:category *)
Definition getExpensesByCategory
    (read : Z → string → Db → Result (list Expense.t))
    (session : Session) (category : string) (db : Db) : Listing Expense.t :=
  authenticated session (λ userId,
    match read userId category db with
    | Ok expenses => Listed expenses
    | Throw => Refused 500 "Failed to fetch expenses by category"
    end).

(** GET /api/goals *)
Definition getGoals (read : Z → Db → Result (list Goal.t))
    (session : Session) (db : Db) : Listing Goal.t :=
  authenticated session (λ userId,
    match read userId db with
    | Ok goals => Listed goals
    | Throw => Refused 500 "Failed to fetch goals"
    end).

End ReadRoutes.

(** ** Vocabulary of the properties *)

(** The sum of a list, against which the [reduce] loops are measured. *)
Definition Qsum (l : list Qc) : Qc := foldr Qcplus 0%Qc l.

Global Arguments Qsum : simpl never.

(** The sum of the amounts of the expenses of one category. *)
Definition categorySum (expenses : list Expense.t) (category : string) : Qc :=
  Qsum (Expense.amount <$>
          filter (λ expense, Expense.category expense = category) expenses).

(** An amount that doubles hold without overflow or underflow, and add
    without cancellation: zero, or between 10^-15 and 10^15. *)
Definition moderate (amount : Qc) : Prop :=
  amount = 0%Qc ∨
  (1 / Qc_of_Z (10 ^ 15) ≤ amount)%Qc ∧ (amount ≤ Qc_of_Z (10 ^ 15))%Qc.





Definition by_total : string * Qc → string * Qc → Qc :=
  λ a b, (b.2 - a.2)%Qc.

Global Instance CategoryData_eq_dec : EqDecision InsightsCharts.CategoryData.
Proof. solve_decision. Defined.

Global Instance TimeFilter_eq_dec : EqDecision InsightsCharts.TimeFilter.
Proof. solve_decision. Defined.

(** The entries of the grouped totals, sorted as [sortCategories] sorts
    them. *)
Definition sortedEntries (expenses : list Expense.t) : list (string * Qc) :=
  JsArray.sort by_total
    (JsObject.entries (InsightsCharts.groupByCategory expenses)).

(** The scan for the highest average, seen as a function of the
    averages. *)
Definition highest (averages : list Qc) : nat * Qc :=
  foldl InsightsCharts.higher (0%nat, 0%Qc) (imap pair averages).

(** [i] is the first position of [averages] that holds their maximum. *)
Definition earliest_maximum (averages : list Qc) (i : nat) : Prop :=
  ∃ avg, averages !! i = Some avg ∧
    (∀ j a, averages !! j = Some a → (a ≤ avg)%Qc) ∧
    (∀ j a, (j < i)%nat → averages !! j = Some a → (a < avg)%Qc).

(** What the scan computes on any list: the largest of 0 and the
    averages, at its first position when it is positive. *)
Definition scanned (averages : list Qc) (best : nat * Qc) : Prop :=
  (∀ j a, averages !! j = Some a → (a ≤ best.2)%Qc) ∧
  ((best.2 = 0%Qc ∧ best.1 = 0%nat) ∨
   ((0 < best.2)%Qc ∧ averages !! best.1 = Some best.2 ∧
    ∀ j a, (j < best.1)%nat → averages !! j = Some a → (a < best.2)%Qc)).

(** The weekday property without a condition on the amounts: the day
    reported is the first weekday that attains the maximum average. *)
Definition reports_earliest_maximum (zone : JsDate.Zone)
    (expenses : list Expense.t) : Prop :=
  let weekdayData := InsightsCharts.getWeekdayData zone expenses in
  ∃ i, InsightsCharts.highestDay weekdayData = InsightsCharts.weekdays !! i ∧
       earliest_maximum (InsightsCharts.weekdayAverages weekdayData) i.


Global Instance Json_eq_dec : EqDecision Json.
Proof. solve_decision. Defined.

Global Instance Response_eq_dec : EqDecision Response.
Proof. solve_decision. Defined.

Global Instance Db_eq_dec : EqDecision Db.
Proof. solve_decision. Defined.

(** The invariant the specification gives for an expense record. *)
Definition expense_invariant (expense : Expense.t) : Prop :=
  (0 < Expense.amount expense)%Qc ∧ Expense.category expense ∈ EXPENSE_CATEGORIES.

(** The expenses of the scenario of the specification, dated 15 March
    2024. *)
Definition scenario : list Expense.t :=
  [Expense.mk 1 1 (Qc_of_Z 50) "Food" None None (JsDate.make 2024 2 15);
   Expense.mk 2 1 (Qc_of_Z 30) "Food" None None (JsDate.make 2024 2 15);
   Expense.mk 3 1 (Qc_of_Z 20) "Transport" None None (JsDate.make 2024 2 15)].

(** Expense 1 and goal 1 belong to user 2. *)
Definition sample_db : Db :=
  mkDb {[ 1 := Expense.mk 1 2 (Qc_of_Z 10) "Food" None None
                 (JsDate.make 2024 2 15) ]}
       {[ 1 := Goal.mk 1 2 "Holiday" (Qc_of_Z 1000) (Qc_of_Z 200) None
                 "in_progress" ]}
       1 1.

(** ** Vocabulary of the further properties *)

(** The first element of a list of entries whose total no later element
    exceeds and no earlier element reaches. *)
Fixpoint firstMax (entries : list (string * Qc)) : option (string * Qc) :=
  match entries with
  | [] => None
  | entry :: entries =>
      match firstMax entries with
      | Some best =>
          if bool_decide (entry.2 < best.2)%Qc then Some best else Some entry
      | None => Some entry
      end
  end.

(** A session in which no user can be served. *)
Definition no_user (session : Session) : Prop :=
  isAuthenticated session = false ∨ user session = None ∨ user session = Some 0.

(** ASCII lower case, an instance of [toLowerCase] on ASCII text. *)
Fixpoint asciiLower (s : string) : string :=
  match s with
  | EmptyString => EmptyString
  | String c s =>
      let n := nat_of_ascii c in
      String (if bool_decide (65 ≤ n ∧ n ≤ 90)%nat then ascii_of_nat (n + 32) else c)
        (asciiLower s)
  end.

(** A storage that rejects every call and leaves the tables alone. *)
Definition unavailable : Storage := λ X call db, (db, Throw).

(** The key by which a sort option orders the expenses, smallest first. *)
Definition rank (sortOption : ExpensesPage.SortOption) (expense : Expense.t) : Qc :=
  match sortOption with
  | ExpensesPage.Newest => Qc_of_Z (- Expense.date expense)
  | ExpensesPage.Oldest => Qc_of_Z (Expense.date expense)
  | ExpensesPage.AmountHigh => (- Expense.amount expense)%Qc
  | ExpensesPage.AmountLow => Expense.amount expense
  end.

(** The first day the "last [n] days" filters of the expenses page show
    in a browser whose local time is UTC, for a clock that reads
    [timeOfDay] milliseconds after midnight. *)
Definition firstDayShown (today timeOfDay n : Z) : Z :=
  if bool_decide (timeOfDay = 0) then today - n else today - n + 1.

(** The dates a date filter of the expenses page lets through: those
    whose UTC midnight is not before the moment [n] days ago, and those
    the browser reads in the month, or the year, of today. *)
Definition inPeriod (zone : JsDate.Zone) (utc : Z → Z)
    (dateFilter : ExpensesPage.DateFilter)
    (today timeOfDay : Z) (day : JsDate.Date) : Prop :=
  match dateFilter with
  | ExpensesPage.SevenDays =>
      utc ((today - 7) * msPerDay + timeOfDay) ≤ day * msPerDay
  | ExpensesPage.ThirtyDays =>
      utc ((today - 30) * msPerDay + timeOfDay) ≤ day * msPerDay
  | ExpensesPage.ThisMonth =>
      JsDate.getMonth (JsDate.localDay zone day) = JsDate.getMonth today ∧
      JsDate.getFullYear (JsDate.localDay zone day) = JsDate.getFullYear today
  | ExpensesPage.ThisYear =>
      JsDate.getFullYear (JsDate.localDay zone day) = JsDate.getFullYear today
  | ExpensesPage.AllDates => True
  end.

(** The search term is empty, or occurs, case aside, in the category, the
    description or the note. *)
Definition matchesSearch (toLowerCase : string → string) (searchTerm : string)
    (expense : Expense.t) : Prop :=
  searchTerm = EmptyString ∨
  ∃ text,
    (text = Expense.category expense ∨ Expense.description expense = Some text ∨
     Expense.note expense = Some text) ∧
    ExpensesPage.includes (toLowerCase text) (toLowerCase searchTerm) = true.

(** The months since the year 0 of the month a day lies in. *)
Definition monthNumber (day : JsDate.Date) : Z :=
  12 * JsDate.getFullYear day + JsDate.getMonth day.

(** The sum of the amounts of the expenses whose date the browser reads
    in the month of number [month], added up in the order of the list as
    the [reduce] of the code adds them. *)
Definition totalOfMonth (zone : JsDate.Zone) (expenses : list Expense.t)
    (month : Z) : Qc :=
  sumAmounts
    (List.filter (λ expense,
       bool_decide
         (monthNumber (JsDate.localDay zone (Expense.date expense)) = month))
       expenses).

(** The requests that write, and the route that serves each. *)
Inductive Request : Type :=
| PostExpense (body : ExpenseBody.t)
| PutExpense (expenseId : Z) (body : ExpensePatch.t)
| DeleteExpense_ (expenseId : Z)
| PutGoal (goalId : Z) (body : GoalPatch.t)
| DeleteGoal_ (goalId : Z).

Definition handle (session : Session) (request : Request) : Handler :=
  match request with
  | PostExpense body => Routes.postExpense session body
  | PutExpense expenseId body => Routes.putExpense session expenseId body
  | DeleteExpense_ expenseId => Routes.deleteExpense session expenseId
  | PutGoal goalId body => Routes.putGoal session goalId body
  | DeleteGoal_ goalId => Routes.deleteGoal session goalId
  end.

(** ** Tactics *)

(** Case analysis on the key comparisons of a goal. *)
Ltac key_cases :=
  repeat first
    [ progress simplify_eq /=
    | case_bool_decide
    | case_decide ].

(** Linear arithmetic on canonical rationals, through [Q]. *)
Ltac qc_lra :=
  rewrite ?Z2Qc_inj_0, ?Z2Qc_inj_1 in *;
  unfold Qcle, Qclt, Qcminus, Qcdiv in *;
  cbn -[Qred Qplus Qmult Qinv Qopp Qle Qlt Qeq inject_Z] in *;
  rewrite ?Qred_correct in *;
  change (1 * / (1 + 1))%Q with (1 # 2)%Q in *;
  lra.

(** * Properties *)

(** ** The runtime model on samples *)

Example parseFloat_samples :
  parseFloat "12.50" = Finite (Qc_of_Z 25 / Qc_of_Z 2)%Qc ∧
  parseFloat "  -3" = Finite (Qc_of_Z (-3)) ∧
  parseFloat "1.5e2abc" = Finite (Qc_of_Z 150) ∧
  parseFloat ".5" = Finite (1 / Qc_of_Z 2)%Qc ∧
  parseFloat "5." = Finite (Qc_of_Z 5) ∧
  parseFloat "1e" = Finite (Qc_of_Z 1) ∧
  parseFloat "-Infinity" = Infinity true ∧
  parseFloat "abc" = NaN ∧
  parseFloat "." = NaN ∧
  parseFloat EmptyString = NaN.
Proof. split_and!; by apply (bool_decide_unpack _); vm_compute. Qed.

Example date_samples :
  JsDate.make 1970 0 1 = 0 ∧
  JsDate.civil_from_days (JsDate.make 2024 2 15) = (2024, 3, 15) ∧
  JsDate.getMonth (JsDate.make 2024 2 15) = 2 ∧
  JsDate.getDay (JsDate.make 2024 2 15) = 5 ∧
  JsDate.civil_from_days (JsDate.make 2024 (-1) 1) = (2023, 12, 1) ∧
  JsDate.civil_from_days (JsDate.make 2024 1 31) = (2024, 3, 2) ∧
  JsDate.civil_from_days (JsDate.make 2023 1 29) = (2023, 3, 1) ∧
  monthYear (JsDate.make 2024 2 15) = "Mar 2024" ∧
  DatabaseStorage.date_in "2024-03-15" = Some (JsDate.make 2024 2 15) ∧
  DatabaseStorage.date_in "2023-02-29" = None.
Proof. split_and!; by vm_compute. Qed.

Example Math_round_samples :
  round_half_up (Qc_of_Z 5 / Qc_of_Z 2)%Qc = 3 ∧
  round_half_up (Qc_of_Z (-5) / Qc_of_Z 2)%Qc = -2 ∧
  round_half_up (Qc_of_Z 7 / Qc_of_Z 3)%Qc = 2 ∧
  Math_round (js_div (Finite 0) (Finite 0)) = NaN ∧
  Math_round (js_div (Finite 1) (Finite 0)) = Infinity false.
Proof. split_and!; by vm_compute. Qed.

(** ** Sums of rationals *)

Lemma Qsum_nil : Qsum [] = 0%Qc.
Proof. reflexivity. Qed.

Lemma Qsum_cons x l : Qsum (x :: l) = (x + Qsum l)%Qc.
Proof. reflexivity. Qed.

Lemma foldl_Qcplus {A} (f : A → Qc) l acc :
  foldl (λ sum x, (sum + f x)%Qc) acc l = (acc + Qsum (f <$> l))%Qc.
Proof.
  revert acc. induction l as [|x l IH]; intros acc.
  - rewrite fmap_nil, Qsum_nil. simpl. ring.
  - rewrite fmap_cons, Qsum_cons. simpl. rewrite IH. ring.
Qed.

Lemma JsArray_sum_Qsum l : JsArray.sum l = Qsum l.
Proof.
  unfold JsArray.sum.
  change Qcplus with (λ sum x : Qc, (sum + id x)%Qc).
  rewrite (foldl_Qcplus id l 0%Qc), list_fmap_id. ring.
Qed.

Lemma Qsum_app l1 l2 : Qsum (l1 ++ l2) = (Qsum l1 + Qsum l2)%Qc.
Proof.
  induction l1 as [|x l1 IH].
  - rewrite Qsum_nil. simpl. ring.
  - rewrite <- app_comm_cons, !Qsum_cons, IH. ring.
Qed.

Lemma Qsum_perm l1 l2 : l1 ≡ₚ l2 → Qsum l1 = Qsum l2.
Proof.
  induction 1 as [|x l1 l2 _ IH|x y l|l1 l2 l3 _ IH1 _ IH2].
  - reflexivity.
  - rewrite !Qsum_cons, IH. reflexivity.
  - rewrite !Qsum_cons. ring.
  - congruence.
Qed.

(** ** The dictionary object *)

Lemma JsObject_get_Some o k : is_Some (JsObject.get o k) ↔ k ∈ o.*1.
Proof.
  induction o as [|[k' v] o IH]; csimpl.
  - split; [intros [? ?]; discriminate | intros H; inversion H].
  - rewrite elem_of_cons. case_bool_decide; subst.
    + split; [intros _; by left | eauto].
    + rewrite IH. split; [by right | by intros [->|?]].
Qed.

Lemma JsObject_get_None o k : JsObject.get o k = None ↔ k ∉ o.*1.
Proof. rewrite <- JsObject_get_Some, eq_None_not_Some. reflexivity. Qed.

Lemma JsObject_get_set o k v c :
  JsObject.get (JsObject.set o k v) c =
  if decide (k = c) then Some v else JsObject.get o c.
Proof.
  induction o as [|[k' v'] o IH]; csimpl.
  - key_cases; congruence.
  - case_bool_decide; csimpl; rewrite ?IH; key_cases; congruence.
Qed.

Lemma JsObject_keys_set o k v :
  (JsObject.set o k v).*1 = if decide (k ∈ o.*1) then o.*1 else o.*1 ++ [k].
Proof.
  induction o as [|[k' v'] o IH]; [reflexivity|].
  cbn [JsObject.set]. case_bool_decide; subst; rewrite !fmap_cons; cbn [fst].
  - rewrite decide_True by (by left). reflexivity.
  - rewrite IH. destruct (decide (k ∈ o.*1)).
    + rewrite decide_True by (by right). reflexivity.
    + rewrite decide_False; [reflexivity|].
      rewrite elem_of_cons. intros [?|?]; congruence.
Qed.

Lemma JsObject_get_add o k x c :
  JsObject.get (JsObject.add o k x) c =
  if decide (k = c) then (λ v, (v + x)%Qc) <$> JsObject.get o c
  else JsObject.get o c.
Proof.
  induction o as [|[k' v'] o IH]; csimpl.
  - destruct (decide (k = c)); reflexivity.
  - case_bool_decide; csimpl; rewrite ?IH; key_cases; congruence.
Qed.

Lemma JsObject_keys_add o k x : (JsObject.add o k x).*1 = o.*1.
Proof.
  induction o as [|[k' v'] o IH]; csimpl; [reflexivity|].
  case_bool_decide; csimpl; congruence.
Qed.

Lemma JsObject_values_set o k v :
  (Qsum (JsObject.set o k v).*2 + JsObject.read o k = Qsum o.*2 + v)%Qc.
Proof.
  unfold JsObject.read.
  induction o as [|[k' v'] o IH]; csimpl.
  - rewrite Qsum_cons, !Qsum_nil. ring.
  - case_bool_decide; csimpl; rewrite !Qsum_cons.
    + ring.
    + rewrite <- Qcplus_assoc, IH. ring.
Qed.

Lemma JsObject_values_add o k x :
  k ∈ o.*1 → NoDup o.*1 →
  Qsum (JsObject.add o k x).*2 = (Qsum o.*2 + x)%Qc.
Proof.
  induction o as [|[k' v'] o IH]; csimpl; intros Hin Hnd.
  - inversion Hin.
  - apply NoDup_cons in Hnd as [Hk' Hnd].
    case_bool_decide; csimpl; rewrite !Qsum_cons.
    + ring.
    + rewrite IH; [ring | | done].
      apply elem_of_cons in Hin as [?|?]; [congruence | done].
Qed.

(** ** Grouping by category *)

Lemma categorySum_cons e es c :
  categorySum (e :: es) c =
  ((if decide (Expense.category e = c) then Expense.amount e else 0)
   + categorySum es c)%Qc.
Proof.
  unfold categorySum. rewrite filter_cons.
  destruct (decide (Expense.category e = c)).
  - rewrite fmap_cons, Qsum_cons. reflexivity.
  - ring.
Qed.

Lemma categorySum_absent es c :
  c ∉ Expense.category <$> es → categorySum es c = 0%Qc.
Proof.
  induction es as [|e es IH]; [reflexivity|].
  rewrite fmap_cons, not_elem_of_cons. intros [Hne Hin].
  rewrite categorySum_cons, decide_False, IH by done. ring.
Qed.

Lemma ordinary_proto name :
  JsObject.ordinary name = true → name ≠ "__proto__".
Proof.
  intros Hname ->. by vm_compute in Hname.
Qed.

Lemma ordinary_categories (es : list Expense.t) :
  (∀ e, e ∈ es → JsObject.ordinary (Expense.category e) = true) →
  "__proto__" ∉ Expense.category <$> es.
Proof.
  intros Hes (e & Hc & He)%list_elem_of_fmap.
  by apply (ordinary_proto _ (Hes e He)).
Qed.

Lemma addToCategory_proto o e :
  Expense.category e = "__proto__" → InsightsCharts.addToCategory o e = o.
Proof.
  intros Hc. unfold InsightsCharts.addToCategory.
  by rewrite bool_decide_eq_true_2.
Qed.

Lemma addToCategory_get o e c :
  Expense.category e ≠ "__proto__" →
  JsObject.get (InsightsCharts.addToCategory o e) c =
  if decide (Expense.category e = c)
  then Some (JsObject.read o c + Expense.amount e)%Qc
  else JsObject.get o c.
Proof.
  intros Hproto.
  unfold InsightsCharts.addToCategory, JsObject.falsy, JsObject.read.
  rewrite (bool_decide_eq_false_2 _ Hproto).
  rewrite JsObject_get_add.
  destruct (decide (Expense.category e = c)) as [->|Hne]; [|
    destruct (JsObject.get o (Expense.category e)) as [v|];
    [destruct (bool_decide (v = 0%Qc))|];
    rewrite ?JsObject_get_set; try case_decide; congruence ].
  destruct (JsObject.get o c) as [v|] eqn:Hget.
  - case_bool_decide as Hv.
    + rewrite JsObject_get_set, decide_True by done. simpl. by subst.
    + rewrite Hget. reflexivity.
  - rewrite JsObject_get_set, decide_True by done. reflexivity.
Qed.

Lemma addToCategory_keys o e :
  Expense.category e ≠ "__proto__" →
  (InsightsCharts.addToCategory o e).*1 =
  if decide (Expense.category e ∈ o.*1) then o.*1
  else o.*1 ++ [Expense.category e].
Proof.
  intros Hproto.
  unfold InsightsCharts.addToCategory, JsObject.falsy.
  rewrite (bool_decide_eq_false_2 _ Hproto).
  rewrite JsObject_keys_add.
  destruct (JsObject.get o (Expense.category e)) as [v|] eqn:Hget.
  - assert (Expense.category e ∈ o.*1) as Hin
      by (apply JsObject_get_Some; eauto).
    rewrite decide_True by done.
    case_bool_decide; [|reflexivity].
    by rewrite JsObject_keys_set, decide_True.
  - apply JsObject_get_None in Hget.
    by rewrite JsObject_keys_set, !decide_False.
Qed.

Lemma addToCategory_values o e :
  Expense.category e ≠ "__proto__" →
  NoDup o.*1 →
  Qsum (InsightsCharts.addToCategory o e).*2 =
  (Qsum o.*2 + Expense.amount e)%Qc.
Proof.
  intros Hproto Hnd. unfold InsightsCharts.addToCategory, JsObject.falsy.
  rewrite (bool_decide_eq_false_2 _ Hproto).
  set (k := Expense.category e).
  destruct (JsObject.get o k) as [v|] eqn:Hget.
  - assert (k ∈ o.*1) as Hin by (apply JsObject_get_Some; eauto).
    case_bool_decide as Hv.
    + rewrite JsObject_values_add.
      * f_equal. pose proof (JsObject_values_set o k 0%Qc) as H.
        unfold JsObject.read in H. rewrite Hget, Hv in H. simpl in H.
        rewrite !Qcplus_0_r in H. done.
      * by rewrite JsObject_keys_set, decide_True.
      * by rewrite JsObject_keys_set, decide_True.
    + by apply JsObject_values_add.
  - assert (k ∉ o.*1) as Hout by (by apply JsObject_get_None).
    rewrite JsObject_values_add.
    + f_equal. pose proof (JsObject_values_set o k 0%Qc) as H.
      unfold JsObject.read in H. rewrite Hget in H. simpl in H.
      rewrite !Qcplus_0_r in H. done.
    + rewrite JsObject_keys_set, decide_False by done.
      apply elem_of_app. right. by apply list_elem_of_singleton.
    + rewrite JsObject_keys_set, decide_False by done.
      apply NoDup_app. split_and!; [done | | apply NoDup_singleton].
      intros x Hx ->%list_elem_of_singleton. done.
Qed.

Lemma foldl_addToCategory_keys es :
  "__proto__" ∉ Expense.category <$> es →
  ∀ o,
  NoDup o.*1 →
  NoDup (foldl InsightsCharts.addToCategory o es).*1 ∧
  ∀ c, c ∈ (foldl InsightsCharts.addToCategory o es).*1 ↔
       c ∈ o.*1 ∨ c ∈ Expense.category <$> es.
Proof.
  induction es as [|e es IH]; intros Hproto o Hnd; csimpl.
  - split; [done|]. intros c. rewrite elem_of_nil. tauto.
  - rewrite fmap_cons in Hproto.
    apply not_elem_of_cons in Hproto as [Hproto Hrest].
    assert (Expense.category e ≠ "__proto__") as He by congruence.
    assert (NoDup (InsightsCharts.addToCategory o e).*1) as Hnd'.
    { rewrite addToCategory_keys by done. case_decide; [done|].
      apply NoDup_app. split_and!; [done | | apply NoDup_singleton].
      intros x Hx ->%list_elem_of_singleton. done. }
    destruct (IH Hrest _ Hnd') as [Hnd'' Hin]. split; [done|].
    intros c. rewrite Hin, addToCategory_keys, elem_of_cons by done.
    case_decide as Hk.
    + split; [tauto|]. intros [?|[->|?]]; tauto.
    + rewrite elem_of_app, list_elem_of_singleton. tauto.
Qed.

Lemma foldl_addToCategory_get es :
  "__proto__" ∉ Expense.category <$> es →
  ∀ o c,
  JsObject.get (foldl InsightsCharts.addToCategory o es) c =
  if decide (c ∈ Expense.category <$> es)
  then Some (JsObject.read o c + categorySum es c)%Qc
  else JsObject.get o c.
Proof.
  induction es as [|e es IH]; intros Hproto o c; cbn [foldl].
  - rewrite fmap_nil, decide_False by apply not_elem_of_nil. reflexivity.
  - rewrite fmap_cons in Hproto.
    apply not_elem_of_cons in Hproto as [Hproto Hrest].
    assert (Expense.category e ≠ "__proto__") as He by congruence.
    rewrite fmap_cons, IH, categorySum_cons by done. unfold JsObject.read at 1.
    rewrite addToCategory_get by done.
    destruct (decide (Expense.category e = c)) as [->|Hne].
    + rewrite (decide_True (P := c ∈ c :: _)) by (by left).
      case_decide; csimpl; f_equal; [ring|].
      rewrite categorySum_absent by done. ring.
    + destruct (decide (c ∈ Expense.category <$> es)).
      * rewrite decide_True by (by right). unfold JsObject.read.
        f_equal. ring.
      * rewrite decide_False; [reflexivity|].
        rewrite elem_of_cons. intros [?|?]; congruence.
Qed.

Lemma foldl_addToCategory_values es :
  "__proto__" ∉ Expense.category <$> es →
  ∀ o,
  NoDup o.*1 →
  Qsum (foldl InsightsCharts.addToCategory o es).*2 =
  (Qsum o.*2 + Qsum (Expense.amount <$> es))%Qc.
Proof.
  induction es as [|e es IH]; intros Hproto o Hnd; csimpl.
  - rewrite Qsum_nil. ring.
  - rewrite fmap_cons in Hproto.
    apply not_elem_of_cons in Hproto as [Hproto Hrest].
    assert (Expense.category e ≠ "__proto__") as He by congruence.
    rewrite IH, addToCategory_values, Qsum_cons; [ring | done | done | done |].
    rewrite addToCategory_keys by done. case_decide; [done|].
    apply NoDup_app. split_and!; [done | | apply NoDup_singleton].
    intros x Hx ->%list_elem_of_singleton. done.
Qed.

(** The grouped totals: one property per category that occurs, holding
    the sum of the amounts of that category. *)
Lemma groupByCategory_keys es :
  "__proto__" ∉ Expense.category <$> es →
  NoDup (InsightsCharts.groupByCategory es).*1 ∧
  ∀ c, c ∈ (InsightsCharts.groupByCategory es).*1 ↔
       c ∈ Expense.category <$> es.
Proof.
  intros Hproto.
  destruct (foldl_addToCategory_keys es Hproto []) as [Hnd Hin];
    [apply NoDup_nil_2|].
  split; [done|]. intros c.
  unfold InsightsCharts.groupByCategory. rewrite Hin, elem_of_nil. tauto.
Qed.

Lemma groupByCategory_get es c :
  "__proto__" ∉ Expense.category <$> es →
  JsObject.get (InsightsCharts.groupByCategory es) c =
  if decide (c ∈ Expense.category <$> es) then Some (categorySum es c)
  else None.
Proof.
  intros Hproto.
  unfold InsightsCharts.groupByCategory. rewrite foldl_addToCategory_get by done.
  case_decide; [|reflexivity]. unfold JsObject.read. csimpl. f_equal. ring.
Qed.

Lemma groupByCategory_values es :
  "__proto__" ∉ Expense.category <$> es →
  Qsum (InsightsCharts.groupByCategory es).*2 = Qsum (Expense.amount <$> es).
Proof.
  intros Hproto. unfold InsightsCharts.groupByCategory.
  rewrite foldl_addToCategory_values by (done || apply NoDup_nil_2).
  csimpl. rewrite Qsum_nil. ring.
Qed.

(** ** Sorting *)

Lemma JsArray_insert_perm {A} (compare : A → A → Qc) x l :
  JsArray.insert compare x l ≡ₚ x :: l.
Proof.
  induction l as [|y l IH]; csimpl; [done|].
  case_bool_decide; [|done]. rewrite IH. apply Permutation_swap.
Qed.

Lemma JsArray_sort_perm {A} (compare : A → A → Qc) l :
  JsArray.sort compare l ≡ₚ l.
Proof.
  induction l as [|x l IH]; csimpl; [done|].
  rewrite JsArray_insert_perm. by f_equiv.
Qed.

Lemma by_total_pos a b : (0 < by_total a b)%Qc ↔ (a.2 < b.2)%Qc.
Proof.
  unfold by_total. rewrite (Qcplus_lt_mono_r 0 (b.2 - a.2) a.2).
  replace (b.2 - a.2 + a.2)%Qc with b.2 by ring.
  by rewrite Qcplus_0_l.
Qed.



Lemma JsObject_get_elem_of o k v :
  NoDup o.*1 → (k, v) ∈ o → JsObject.get o k = Some v.
Proof.
  induction o as [|[k' v'] o IH]; csimpl; intros Hnd Hin.
  - inversion Hin.
  - apply NoDup_cons in Hnd as [Hk' Hnd].
    apply elem_of_cons in Hin as [[= <- <-]|Hin].
    + by rewrite bool_decide_eq_true_2.
    + rewrite bool_decide_eq_false_2; [by apply IH|].
      intros ->. apply Hk'. by apply (list_elem_of_fmap_2 fst) in Hin.
Qed.

(** Reading the sorted labels back gives the sorted totals. *)
Lemma read_sorted_labels o l :
  NoDup o.*1 → l ≡ₚ o → JsObject.read o <$> l.*1 = l.*2.
Proof.
  intros Hnd Hp. rewrite <- list_fmap_compose.
  apply list_fmap_ext. intros i [k v] Hi. csimpl. unfold JsObject.read.
  rewrite (JsObject_get_elem_of o k v); [done | done |].
  rewrite <- Hp. by eapply list_elem_of_lookup_2.
Qed.

(** ** The category breakdown *)

Lemma sortedEntries_perm es :
  sortedEntries es ≡ₚ InsightsCharts.groupByCategory es.
Proof. apply JsArray_sort_perm. Qed.

Lemma getCategoryData_labels es :
  InsightsCharts.labels (InsightsCharts.getCategoryData es) =
  (sortedEntries es).*1.
Proof. reflexivity. Qed.

Lemma getCategoryData_data es :
  "__proto__" ∉ Expense.category <$> es →
  InsightsCharts.data (InsightsCharts.getCategoryData es) =
  (sortedEntries es).*2.
Proof.
  intros Hproto.
  apply read_sorted_labels;
    [by apply groupByCategory_keys | apply sortedEntries_perm].
Qed.

Lemma sortedEntries_sum es k v :
  "__proto__" ∉ Expense.category <$> es →
  (k, v) ∈ sortedEntries es → v = categorySum es k.
Proof.
  intros Hproto. rewrite sortedEntries_perm. intros Hin.
  pose proof (JsObject_get_elem_of _ k v
                (proj1 (groupByCategory_keys es Hproto)) Hin) as Hget.
  rewrite groupByCategory_get in Hget by done. case_decide; congruence.
Qed.


Lemma getCategoryData_total es :
  "__proto__" ∉ Expense.category <$> es →
  InsightsCharts.total (InsightsCharts.getCategoryData es) =
  Qsum (Expense.amount <$> es).
Proof.
  intros Hproto.
  change (InsightsCharts.total (InsightsCharts.getCategoryData es))
    with (JsArray.sum (InsightsCharts.data (InsightsCharts.getCategoryData es))).
  rewrite JsArray_sum_Qsum, getCategoryData_data by done.
  rewrite (Qsum_perm _ (InsightsCharts.groupByCategory es).*2)
    by (by rewrite sortedEntries_perm).
  by apply groupByCategory_values.
Qed.

Lemma getCategoryData_labels_spec es :
  "__proto__" ∉ Expense.category <$> es →
  NoDup (InsightsCharts.labels (InsightsCharts.getCategoryData es)) ∧
  ∀ c, c ∈ InsightsCharts.labels (InsightsCharts.getCategoryData es) ↔
       c ∈ Expense.category <$> es.
Proof.
  intros Hproto. rewrite getCategoryData_labels.
  destruct (groupByCategory_keys es Hproto) as [Hnd Hin]. split.
  - by rewrite sortedEntries_perm.
  - intros c. by rewrite sortedEntries_perm.
Qed.

(** ** Rounded percentages *)

Lemma round_half_up_bounds x :
  (Qc_of_Z (round_half_up x) ≤ x + 1 / 2)%Qc ∧
  (x - 1 / 2 < Qc_of_Z (round_half_up x))%Qc.
Proof.
  unfold round_half_up.
  pose proof (Qfloor_le (x + 1 / 2)%Qc) as Hle.
  pose proof (Qlt_floor (x + 1 / 2)%Qc) as Hlt.
  rewrite inject_Z_plus in Hlt. change (inject_Z 1) with 1%Q in Hlt.
  set (p := Qfloor (x + 1 / 2)%Qc) in *. clearbody p.
  split; qc_lra.
Qed.

Lemma percentage_finite value total :
  total ≠ 0%Qc →
  InsightsCharts.percentage value total
  = Finite (Qc_of_Z (round_half_up (value / total * Qc_of_Z 100))).
Proof.
  intros Hne. unfold InsightsCharts.percentage, js_div.
  rewrite bool_decide_eq_false_2 by done. reflexivity.
Qed.




(** ** Margins of rounding *)






Lemma getCategoryData_sums es :
  "__proto__" ∉ Expense.category <$> es →
  InsightsCharts.data (InsightsCharts.getCategoryData es) =
  categorySum es <$> InsightsCharts.labels (InsightsCharts.getCategoryData es).
Proof.
  intros Hproto.
  rewrite getCategoryData_data, getCategoryData_labels by done.
  rewrite <- list_fmap_compose. apply list_fmap_ext.
  intros i [k v] Hi. csimpl. apply sortedEntries_sum; [done|].
  by eapply list_elem_of_lookup_2.
Qed.

Lemma getCategoryData_percentages es :
  "__proto__" ∉ Expense.category <$> es →
  InsightsCharts.percentages (InsightsCharts.getCategoryData es) =
  (λ value, InsightsCharts.percentage value (Qsum (Expense.amount <$> es)))
    <$> InsightsCharts.data (InsightsCharts.getCategoryData es).
Proof. intros Hproto. rewrite <- getCategoryData_total by done. reflexivity. Qed.









(** ** Weekday averages *)

Lemma highest_snoc l x :
  highest (l ++ [x]) = InsightsCharts.higher (highest l) (length l, x).
Proof.
  unfold highest. rewrite imap_app, foldl_app. csimpl.
  by rewrite Nat.add_0_r.
Qed.

Lemma highest_scanned l : scanned l (highest l).
Proof.
  induction l as [|x l IH] using rev_ind.
  - split; [intros j a Hj; by rewrite lookup_nil in Hj | by left].
  - rewrite highest_snoc. destruct (highest l) as [i a].
    destruct IH as [Hmax Hpos]. unfold InsightsCharts.higher. csimpl in *.
    assert (0 ≤ a)%Qc as Ha.
    { destruct Hpos as [[-> _]|[? _]]; [done | by apply Qclt_le_weak]. }
    case_bool_decide as Hlt; csimpl.
    + split.
      * intros j y Hj. apply lookup_app_Some in Hj as [Hj|[_ Hj]].
        -- apply Qclt_le_weak. eapply Qcle_lt_trans; [by eapply Hmax | done].
        -- destruct (j - length l)%nat; csimpl in Hj; [|done].
           by injection Hj as ->.
      * right. split_and!.
        -- by eapply Qcle_lt_trans.
        -- by rewrite lookup_app_r, Nat.sub_diag.
        -- intros j y Hj Hy. csimpl in Hj. rewrite lookup_app_l in Hy by done.
           eapply Qcle_lt_trans; [by eapply Hmax | done].
    + apply Qcnot_lt_le in Hlt. split.
      * intros j y Hj. apply lookup_app_Some in Hj as [Hj|[_ Hj]].
        -- by eapply Hmax.
        -- destruct (j - length l)%nat; csimpl in Hj; [|done].
           by injection Hj as ->.
      * destruct Hpos as [?|(Hpos & Hi & Hbefore)]; [by left|]. right.
        split_and!; [done | by apply lookup_app_l_Some |].
        intros j y Hj Hy. csimpl in Hj. apply (Hbefore j y Hj).
        apply lookup_lt_Some in Hi.
        rewrite lookup_app_l in Hy by lia. done.
Qed.

(** On averages that are not negative the scan finds the first maximum. *)
Lemma highest_earliest_maximum l :
  l ≠ [] → Forall (λ a, 0 ≤ a)%Qc l →
  earliest_maximum l (highest l).1 ∧ l !! (highest l).1 = Some (highest l).2.
Proof.
  intros Hne Hnn. destruct (highest_scanned l) as [Hmax Hcases].
  destruct (highest l) as [i a]. csimpl in *.
  destruct Hcases as [[-> ->]|(Hpos & Hi & Hbefore)].
  - destruct l as [|x l]; [done|].
    assert (x = 0%Qc) as ->.
    { apply Qcle_antisym; [by apply (Hmax 0%nat) | by inversion Hnn]. }
    split; [|done]. exists 0%Qc. split_and!; [done | done | intros; lia].
  - split; [|done]. by exists a.
Qed.

Lemma getWeekdayData_highest zone es :
  let weekdayData := InsightsCharts.getWeekdayData zone es in
  InsightsCharts.highestDay weekdayData
    = InsightsCharts.weekdays
        !! (highest (InsightsCharts.weekdayAverages weekdayData)).1 ∧
  InsightsCharts.highestAvg weekdayData
    = (highest (InsightsCharts.weekdayAverages weekdayData)).2.
Proof.
  unfold InsightsCharts.getWeekdayData, highest.
  destruct (foldl (InsightsCharts.addToWeekday zone) _ es) as [totals counts].
  destruct (foldl InsightsCharts.higher _ _) as [i a] eqn:E.
  csimpl. by rewrite E.
Qed.

Lemma getWeekdayData_averages zone es :
  InsightsCharts.weekdayAverages (InsightsCharts.getWeekdayData zone es) =
  let acc := foldl (InsightsCharts.addToWeekday zone)
               (replicate 7 0%Qc, replicate 7 0) es in
  imap (InsightsCharts.average acc.2) acc.1.
Proof.
  unfold InsightsCharts.getWeekdayData.
  destruct (foldl (InsightsCharts.addToWeekday zone) _ es) as [totals counts].
  by destruct (foldl InsightsCharts.higher _ _) as [i a].
Qed.

Lemma foldl_addToWeekday_totals zone es : ∀ acc,
  Forall (λ e, 0 ≤ Expense.amount e)%Qc es →
  Forall (λ t, 0 ≤ t)%Qc acc.1 →
  let acc' := foldl (InsightsCharts.addToWeekday zone) acc es in
  Forall (λ t, 0 ≤ t)%Qc acc'.1 ∧ length acc'.1 = length acc.1.
Proof.
  induction es as [|e es IH]; intros acc Hes Hacc; csimpl; [done|].
  apply Forall_cons in Hes as [He Hes].
  destruct (IH (InsightsCharts.addToWeekday zone acc e)) as [Hnn Hlen]; [done | |].
  - csimpl. apply Forall_alter; [done|]. intros t _ Ht.
    by apply Qcplus_nonneg_nonneg.
  - split; [done|]. rewrite Hlen. csimpl. apply length_alter.
Qed.

Lemma foldl_addToWeekday_length zone es : ∀ acc,
  length (foldl (InsightsCharts.addToWeekday zone) acc es).1 = length acc.1.
Proof.
  induction es as [|e es IH]; intros acc; csimpl; [done|].
  rewrite IH. csimpl. apply length_alter.
Qed.

Lemma average_nonneg counts i t :
  (0 ≤ t)%Qc → (0 ≤ InsightsCharts.average counts i t)%Qc.
Proof.
  intros Ht. unfold InsightsCharts.average.
  destruct (counts !! i) as [c|]; [|done].
  case_bool_decide as Hc; [|done].
  apply Z2Qc_inj_lt in Hc. rewrite Z2Qc_inj_0 in Hc.
  unfold Qcdiv. apply Qcmult_nonneg_nonneg; [done|].
  by apply Qclt_le_weak, Qcinv_pos.
Qed.

Lemma getWeekdayData_length zone es :
  length (InsightsCharts.weekdayAverages (InsightsCharts.getWeekdayData zone es)) = 7%nat.
Proof.
  rewrite getWeekdayData_averages. csimpl.
  by rewrite length_imap, foldl_addToWeekday_length.
Qed.

Lemma getWeekdayData_nonneg zone es :
  Forall (λ e, 0 ≤ Expense.amount e)%Qc es →
  Forall (λ a, 0 ≤ a)%Qc
    (InsightsCharts.weekdayAverages (InsightsCharts.getWeekdayData zone es)).
Proof.
  intros Hes. rewrite getWeekdayData_averages. csimpl.
  destruct (foldl_addToWeekday_totals zone es (replicate 7 0%Qc, replicate 7 0) Hes)
    as [Hnn _]; [by apply Forall_replicate|].
  apply Forall_lookup. intros i a. rewrite list_lookup_imap.
  destruct (_ !! i) as [t|] eqn:Ht; [|done]. intros [= <-].
  apply average_nonneg. by eapply Forall_lookup_1.
Qed.

Lemma highest_all_zero l :
  (∀ a, a ∈ l → a = 0%Qc) → highest l = (0%nat, 0%Qc).
Proof.
  intros Hzero. destruct (highest_scanned l) as [_ Hcases].
  destruct (highest l) as [i a]. csimpl in *.
  destruct Hcases as [[-> ->]|(Hpos & Hi & _)]; [done|].
  apply list_elem_of_lookup_2, Hzero in Hi. subst a.
  by apply Qclt_not_eq in Hpos.
Qed.

(** C9 (as amended). When no expense amount is negative, the weekday
    reported as the highest is the earliest weekday, in Sunday-first
    order, whose average is the maximum of the seven averages, and the
    reported highest average is that maximum. When every weekday average
    is 0, as on the empty list, Sunday is reported with an average of 0. *)
Theorem C9_highest_weekday (zone : JsDate.Zone) (expenses : list Expense.t) :
  (∀ expense, expense ∈ expenses → (0 ≤ Expense.amount expense)%Qc) →
  let weekdayData := InsightsCharts.getWeekdayData zone expenses in
  let averages := InsightsCharts.weekdayAverages weekdayData in
  (∃ i, (i < 7)%nat ∧
     InsightsCharts.highestDay weekdayData = InsightsCharts.weekdays !! i ∧
     earliest_maximum averages i ∧
     averages !! i = Some (InsightsCharts.highestAvg weekdayData)) ∧
  ((∀ a, a ∈ averages → a = 0%Qc) →
     InsightsCharts.highestDay weekdayData = Some "Sunday" ∧
     InsightsCharts.highestAvg weekdayData = 0%Qc) ∧
  (expenses = [] → averages = replicate 7 0%Qc).
Proof.
  intros Hnn weekdayData averages.
  destruct (getWeekdayData_highest zone expenses) as [Hday Havg].
  fold weekdayData averages in Hday, Havg.
  assert (length averages = 7%nat) as Hlen by apply getWeekdayData_length.
  split_and!.
  - destruct (highest_earliest_maximum averages) as [Hmax Hat].
    + intros E. by rewrite E in Hlen.
    + apply getWeekdayData_nonneg, Forall_forall, Hnn.
    + exists (highest averages).1. split_and!; [|done|done|by rewrite Havg].
      rewrite <- Hlen. by eapply lookup_lt_Some.
  - intros Hzero. rewrite Hday, Havg, (highest_all_zero averages Hzero). done.
  - intros ->. reflexivity.
Qed.

(** A refund of 5 entered on Sunday 17 March 2024 and nothing else:
    Sunday's average is -5, every other average is 0, and Sunday is
    reported although Monday is the first weekday with the maximum. *)
Lemma C9_counterexample :
  let zone := JsDate.UTC in
  let expenses :=
    [Expense.mk 1 1 (Qc_of_Z (-5)) "Other" None None (JsDate.make 2024 2 17)] in
  InsightsCharts.highestDay (InsightsCharts.getWeekdayData zone expenses)
    = Some "Sunday" ∧
  InsightsCharts.weekdayAverages (InsightsCharts.getWeekdayData zone expenses)
    = [Qc_of_Z (-5); 0; 0; 0; 0; 0; 0]%Qc ∧
  ¬ reports_earliest_maximum zone expenses.
Proof.
  intros zone expenses.
  assert (InsightsCharts.highestDay (InsightsCharts.getWeekdayData zone expenses)
          = Some "Sunday") as Hday
    by (by apply (bool_decide_unpack _); vm_compute).
  assert (InsightsCharts.weekdayAverages (InsightsCharts.getWeekdayData zone expenses)
          = [Qc_of_Z (-5); 0; 0; 0; 0; 0; 0]%Qc) as Havg
    by (by apply (bool_decide_unpack _); vm_compute).
  split_and!; [done | done |].
  intros (i & Hi & avg & Hat & Hmax & _).
  rewrite Hday in Hi. rewrite Havg in Hat, Hmax.
  destruct i as [|i];
    [|do 6 (destruct i as [|i]; [discriminate Hi|]); discriminate Hi].
  injection Hat as <-.
  specialize (Hmax 1%nat 0%Qc eq_refl). by vm_compute in Hmax.
Qed.

(** ** Filters and sums *)

Lemma List_filter_perm {A} (f : A → bool) l l' :
  l ≡ₚ l' → List.filter f l ≡ₚ List.filter f l'.
Proof.
  induction 1 as [|x l l' _ IH|x y l|l l' l'' _ IH1 _ IH2]; csimpl.
  - done.
  - destruct (f x); by rewrite IH.
  - destruct (f x), (f y); try done. apply perm_swap.
  - by etrans.
Qed.

Lemma List_filter_filter {A} (f g : A → bool) l :
  List.filter g (List.filter f l) = List.filter (λ x, f x && g x) l.
Proof.
  induction l as [|x l IH]; csimpl; [done|].
  destruct (f x); csimpl; [|done]. destruct (g x); by rewrite IH.
Qed.

Lemma List_filter_elem_of {A} (f : A → bool) l x :
  x ∈ List.filter f l ↔ x ∈ l ∧ f x = true.
Proof. rewrite !list_elem_of_In. apply filter_In. Qed.

Lemma sumAmounts_Qsum expenses :
  sumAmounts expenses = Qsum (Expense.amount <$> expenses).
Proof. unfold sumAmounts. rewrite foldl_Qcplus. ring. Qed.

(** ** The calendar *)

Lemma days_from_civil_from_days t :
  let '(y, m, d) := JsDate.civil_from_days t in
  JsDate.days_from_civil y m d = t.
Proof.
  unfold JsDate.civil_from_days, JsDate.days_from_civil.
  set (z := t + 719468).
  set (era := z `div` 146097).
  set (doe := z - era * 146097).
  assert (0 ≤ doe < 146097) as Hdoe by (subst doe era; Z.div_mod_to_equations; lia).
  set (yoe := (doe - doe `div` 1460 + doe `div` 36524 - doe `div` 146096) `div` 365).
  assert (0 ≤ yoe < 400) as Hyoe by (subst yoe; Z.div_mod_to_equations; lia).
  set (doy := doe - (365 * yoe + yoe `div` 4 - yoe `div` 100)).
  assert (0 ≤ doy < 366) as Hdoy by (subst doy yoe; Z.div_mod_to_equations; lia).
  assert (doe = doy + (365 * yoe + yoe `div` 4 - yoe `div` 100)) as Hdoe' by (subst doy; lia).
  set (mp := (5 * doy + 2) `div` 153).
  assert (0 ≤ mp < 12) as Hmp by (subst mp; Z.div_mod_to_equations; lia).
  clearbody doy. clearbody yoe.
  assert (z = era * 146097 + doe) as Hz by (subst doe; lia).
  clearbody doe. clearbody era.
  repeat case_bool_decide; try lia.
  all: subst mp z; Z.div_mod_to_equations; lia.
Qed.

Lemma civil_from_days_range t :
  let '(y, m, d) := JsDate.civil_from_days t in
  1 ≤ m ≤ 12 ∧ 1 ≤ d ≤ 31 ∧ (0 ≤ t → 1970 ≤ y).
Proof.
  unfold JsDate.civil_from_days.
  set (z := t + 719468).
  set (era := z `div` 146097).
  set (doe := z - era * 146097).
  assert (0 ≤ doe < 146097) as Hdoe by (subst doe era; Z.div_mod_to_equations; lia).
  set (yoe := (doe - doe `div` 1460 + doe `div` 36524 - doe `div` 146096) `div` 365).
  assert (0 ≤ yoe < 400) as Hyoe by (subst yoe; Z.div_mod_to_equations; lia).
  set (doy := doe - (365 * yoe + yoe `div` 4 - yoe `div` 100)).
  assert (0 ≤ doy < 366) as Hdoy by (subst doy yoe; Z.div_mod_to_equations; lia).
  set (mp := (5 * doy + 2) `div` 153).
  assert (0 ≤ mp < 12) as Hmp by (subst mp; Z.div_mod_to_equations; lia).
  assert (1 ≤ doy - (153 * mp + 2) `div` 5 + 1 ≤ 31) as Hd
    by (subst mp; clearbody doy; Z.div_mod_to_equations; lia).
  split_and!.
  - case_bool_decide; lia.
  - case_bool_decide; lia.
  - lia.
  - lia.
  - intros Ht.
    assert (4 ≤ era) as Hera by (subst era z; Z.div_mod_to_equations; lia).
    assert (doe = z - era * 146097) as Hdoe' by done.
    assert (era = 4 → 369 ≤ yoe ∧ (yoe = 369 → 306 ≤ doy)) as Hy.
    { intros He. subst doy yoe. rewrite He in Hdoe'. subst z. clearbody doe.
      Z.div_mod_to_equations. lia. }
    assert (306 ≤ doy → 10 ≤ mp) as Hmp'
      by (subst mp; clearbody doy; Z.div_mod_to_equations; lia).
    clearbody mp doy yoe era.
    repeat case_bool_decide; lia.
Qed.

Lemma civil_from_days_from_civil y m :
  1 ≤ m ≤ 12 →
  JsDate.civil_from_days (JsDate.days_from_civil y m 1) = (y, m, 1).
Proof.
  intros Hm. unfold JsDate.civil_from_days, JsDate.days_from_civil.
  set (y' := if bool_decide (m ≤ 2) then y - 1 else y).
  set (mp := if bool_decide (2 < m) then m - 3 else m + 9).
  assert (0 ≤ mp < 12) as Hmp by (subst mp; case_bool_decide; lia).
  set (era := y' `div` 400).
  set (yoe := y' - era * 400).
  assert (0 ≤ yoe < 400) as Hyoe by (subst yoe era; Z.div_mod_to_equations; lia).
  set (doy := (153 * mp + 2) `div` 5 + 1 - 1).
  assert (0 ≤ doy < 366) as Hdoy by (subst doy; Z.div_mod_to_equations; lia).
  set (doe := yoe * 365 + yoe `div` 4 - yoe `div` 100 + doy).
  assert (0 ≤ doe < 146097) as Hdoe by (subst doe; clearbody doy; Z.div_mod_to_equations; lia).
  replace (era * 146097 + doe - 719468 + 719468) with (era * 146097 + doe) by lia.
  assert ((era * 146097 + doe) `div` 146097 = era) as ->
    by (clearbody doe era; Z.div_mod_to_equations; lia).
  replace (era * 146097 + doe - era * 146097) with doe by lia.
  assert ((doe - doe `div` 1460 + doe `div` 36524 - doe `div` 146096) `div` 365 = yoe) as ->.
  { subst doe. clearbody yoe. subst doy. clearbody mp. Z.div_mod_to_equations. lia. }
  replace (doe - (365 * yoe + yoe `div` 4 - yoe `div` 100)) with doy by (subst doe; lia).
  assert ((5 * doy + 2) `div` 153 = mp) as ->
    by (subst doy; clearbody mp; Z.div_mod_to_equations; lia).
  subst doy. 
  assert (yoe + era * 400 = y') as -> by (subst yoe; lia).
  subst y' mp. repeat case_bool_decide; f_equal; try f_equal; lia.
Qed.

Lemma getMonth_range t : 0 ≤ JsDate.getMonth t ≤ 11.
Proof.
  pose proof (civil_from_days_range t) as H. unfold JsDate.getMonth.
  destruct (JsDate.civil_from_days t) as [[y m] d]. csimpl. lia.
Qed.

Lemma getFullYear_epoch t : 0 ≤ t → 1970 ≤ JsDate.getFullYear t.
Proof.
  pose proof (civil_from_days_range t) as H. unfold JsDate.getFullYear.
  destruct (JsDate.civil_from_days t) as [[y m] d]. csimpl. lia.
Qed.

(** [new Date(y, m, d - n)] for the fields [y], [m], [d] of a day is the
    day [n] days before. *)
Lemma make_days_before t n :
  0 ≤ t →
  JsDate.make (JsDate.getFullYear t) (JsDate.getMonth t) (JsDate.getDate t - n)
  = t - n.
Proof.
  intros Ht. pose proof (getFullYear_epoch t Ht) as Hy.
  pose proof (getMonth_range t) as Hm.
  pose proof (days_from_civil_from_days t) as Hround.
  unfold JsDate.make, JsDate.getFullYear, JsDate.getMonth, JsDate.getDate in *.
  destruct (JsDate.civil_from_days t) as [[y m] d]. csimpl in *.
  rewrite bool_decide_eq_false_2 by lia.
  rewrite Z.div_small, Z.mod_small by lia.
  replace (m - 1 + 1) with m by lia. rewrite Z.add_0_r.
  rewrite <- Hround. unfold JsDate.days_from_civil. lia.
Qed.

(** The first day of the month that lies [monthIndex] months after
    January of [year] has the year and month that count gives. *)
Lemma make_first_of_month year monthIndex :
  ¬ 0 ≤ year ≤ 99 →
  JsDate.getFullYear (JsDate.make year monthIndex 1) = year + monthIndex `div` 12 ∧
  JsDate.getMonth (JsDate.make year monthIndex 1) = monthIndex `mod` 12.
Proof.
  intros Hyear. unfold JsDate.make, JsDate.getFullYear, JsDate.getMonth.
  rewrite bool_decide_eq_false_2 by done.
  replace (1 - 1) with 0 by lia. rewrite Z.add_0_r.
  rewrite civil_from_days_from_civil by (Z.div_mod_to_equations; lia).
  csimpl. split; lia.
Qed.

Lemma days_from_civil_mono y1 m1 y2 m2 :
  1 ≤ m1 ≤ 12 → 1 ≤ m2 ≤ 12 → 12 * y1 + m1 ≤ 12 * y2 + m2 →
  JsDate.days_from_civil y1 m1 1 ≤ JsDate.days_from_civil y2 m2 1.
Proof.
  intros Hm1 Hm2 Hle. unfold JsDate.days_from_civil.
  set (a1 := if bool_decide (m1 ≤ 2) then y1 - 1 else y1).
  set (a2 := if bool_decide (m2 ≤ 2) then y2 - 1 else y2).
  set (p1 := if bool_decide (2 < m1) then m1 - 3 else m1 + 9).
  set (p2 := if bool_decide (2 < m2) then m2 - 3 else m2 + 9).
  assert (0 ≤ p1 < 12 ∧ 0 ≤ p2 < 12 ∧ 12 * a1 + p1 ≤ 12 * a2 + p2) as (Hp1 & Hp2 & Hap)
    by (subst a1 a2 p1 p2; repeat case_bool_decide; lia).
  clearbody a1 a2 p1 p2. clear Hm1 Hm2 Hle.
  assert (∀ a, (a `div` 400) * 146097 + ((a - a `div` 400 * 400) * 365
            + (a - a `div` 400 * 400) `div` 4 - (a - a `div` 400 * 400) `div` 100)
          = 365 * a + a `div` 4 - a `div` 100 + a `div` 400) as Hyear.
  { intros a. Z.div_mod_to_equations. lia. }
  pose proof (Hyear a1) as H1. pose proof (Hyear a2) as H2.
  assert (a1 = a2 ∨ a1 + 1 ≤ a2) as [->|Hlt] by lia.
  - assert (p1 ≤ p2) by lia. Z.div_mod_to_equations. lia.
  - assert (365 * a1 + a1 `div` 4 - a1 `div` 100 + a1 `div` 400 + 365
            ≤ 365 * a2 + a2 `div` 4 - a2 `div` 100 + a2 `div` 400) as Hyy.
    { clear H1 H2. Z.div_mod_to_equations. lia. }
    assert (0 ≤ (153 * p1 + 2) `div` 5 ≤ 337) by (Z.div_mod_to_equations; lia).
    assert (0 ≤ (153 * p2 + 2) `div` 5 ≤ 337) by (Z.div_mod_to_equations; lia).
    lia.
Qed.

(** [new Date(year, monthIndex, day)] is no earlier for a later month. *)
Lemma make_mono year monthIndex1 monthIndex2 day :
  monthIndex1 ≤ monthIndex2 →
  JsDate.make year monthIndex1 day ≤ JsDate.make year monthIndex2 day.
Proof.
  intros Hle. unfold JsDate.make.
  apply Z.add_le_mono_r, days_from_civil_mono; Z.div_mod_to_equations; lia.
Qed.

Lemma make_year_before year monthIndex day :
  ¬ 0 ≤ year ≤ 99 → ¬ 0 ≤ year - 1 ≤ 99 →
  JsDate.make (year - 1) monthIndex day = JsDate.make year (monthIndex - 12) day.
Proof.
  intros Hyear Hbefore. unfold JsDate.make.
  rewrite !bool_decide_eq_false_2 by done.
  replace (monthIndex - 12) with (monthIndex + (-1) * 12) by lia.
  rewrite Z.div_add, Z.mod_add by lia.
  by replace (year - 1 + monthIndex `div` 12)
    with (year + (monthIndex `div` 12 + -1)) by lia.
Qed.

Lemma same_month a b :
  JsDate.getMonth a = JsDate.getMonth b ∧
  JsDate.getFullYear a = JsDate.getFullYear b
  ↔ monthNumber a = monthNumber b.
Proof.
  unfold monthNumber.
  pose proof (getMonth_range a). pose proof (getMonth_range b). lia.
Qed.

Lemma monthNumber_make today i :
  0 ≤ today →
  monthNumber (JsDate.make (JsDate.getFullYear today) (JsDate.getMonth today - i) 1)
  = monthNumber today - i.
Proof.
  intros Htoday. pose proof (getFullYear_epoch today Htoday) as Hyear.
  unfold monthNumber at 1.
  destruct (make_first_of_month (JsDate.getFullYear today)
              (JsDate.getMonth today - i)) as [-> ->]; [lia|].
  unfold monthNumber. Z.div_mod_to_equations. lia.
Qed.

Lemma days_from_civil_day y m d :
  JsDate.days_from_civil y m d = JsDate.days_from_civil y m 1 + (d - 1).
Proof. unfold JsDate.days_from_civil. lia. Qed.

(** Two months on, the first of the month is at least 59 days later. *)
Lemma days_from_civil_two_months y1 m1 y2 m2 :
  1 ≤ m1 ≤ 12 → 1 ≤ m2 ≤ 12 → 12 * y1 + m1 + 2 ≤ 12 * y2 + m2 →
  JsDate.days_from_civil y1 m1 1 + 59 ≤ JsDate.days_from_civil y2 m2 1.
Proof.
  intros Hm1 Hm2 Hle.
  set (y := if bool_decide (m1 ≤ 10) then y1 else y1 + 1).
  set (m := if bool_decide (m1 ≤ 10) then m1 + 2 else m1 - 10).
  trans (JsDate.days_from_civil y m 1).
  - subst y m.
    assert (m1 = 1 ∨ m1 = 2 ∨ m1 = 3 ∨ m1 = 4 ∨ m1 = 5 ∨ m1 = 6 ∨ m1 = 7 ∨
            m1 = 8 ∨ m1 = 9 ∨ m1 = 10 ∨ m1 = 11 ∨ m1 = 12) as Hcases by lia.
    clear Hm1 Hle.
    destruct_or!; subst m1; unfold JsDate.days_from_civil;
      repeat case_bool_decide; try lia; Z.div_mod_to_equations; lia.
  - apply days_from_civil_mono; subst y m; try case_bool_decide; lia.
Qed.

(** A day of the second month after the month of
    [new Date(year, monthIndex, 1)], or of a later month, is not before
    [new Date(year, monthIndex, day)], whatever day of a month [day] is. *)
Lemma make_before_month year monthIndex day t :
  ¬ 0 ≤ year ≤ 99 → day ≤ 31 →
  12 * year + monthIndex + 2 ≤ monthNumber t →
  JsDate.make year monthIndex day ≤ t.
Proof.
  intros Hyear Hday Hmonth.
  pose proof (civil_from_days_range t) as Hrange.
  pose proof (days_from_civil_from_days t) as Hround.
  unfold monthNumber, JsDate.getFullYear, JsDate.getMonth in Hmonth.
  destruct (JsDate.civil_from_days t) as [[y m] d]. csimpl in *.
  destruct Hrange as (Hm & Hd & _).
  unfold JsDate.make. rewrite bool_decide_eq_false_2 by done.
  rewrite days_from_civil_day in Hround.
  pose proof (days_from_civil_two_months (year + monthIndex `div` 12)
                (monthIndex `mod` 12 + 1) y m) as Htwo.
  assert (1 ≤ monthIndex `mod` 12 + 1 ≤ 12) as Hmn
    by (Z.div_mod_to_equations; lia).
  assert (12 * (year + monthIndex `div` 12) + (monthIndex `mod` 12 + 1) + 2
          ≤ 12 * y + m) as Hle by (Z.div_mod_to_equations; lia).
  specialize (Htwo Hmn Hm Hle). lia.
Qed.

Lemma getDate_range t : 1 ≤ JsDate.getDate t ≤ 31.
Proof.
  pose proof (civil_from_days_range t) as H. unfold JsDate.getDate.
  destruct (JsDate.civil_from_days t) as [[y m] d]. csimpl. lia.
Qed.

(** ** Months *)

Lemma monthTotal_totalOfMonth zone expenses d :
  monthTotal zone expenses d = totalOfMonth zone expenses (monthNumber d).
Proof.
  unfold monthTotal, totalOfMonth, expensesOfMonth.
  f_equal. apply filter_ext. intros expense.
  apply eq_true_iff_eq. cbn zeta.
  by rewrite andb_true_iff, !bool_decide_eq_true, same_month.
Qed.

Lemma moderate_nonneg amount : moderate amount → (0 ≤ amount)%Qc.
Proof.
  intros [-> | [Hlo _]]; [done|].
  etrans; [|exact Hlo]. by vm_compute.
Qed.

Lemma Qsum_nonneg l : Forall (λ x, 0 ≤ x)%Qc l → (0 ≤ Qsum l)%Qc.
Proof.
  induction 1 as [|x l Hx _ IH]; [by vm_compute|].
  rewrite Qsum_cons. by apply Qcplus_nonneg_nonneg.
Qed.

Lemma monthTotal_nonneg zone expenses d :
  (∀ expense, expense ∈ expenses → (0 ≤ Expense.amount expense)%Qc) →
  (0 ≤ monthTotal zone expenses d)%Qc.
Proof.
  intros Hpos. unfold monthTotal. rewrite sumAmounts_Qsum.
  apply Qsum_nonneg, Forall_fmap, Forall_forall. intros expense Hin.
  apply Hpos. unfold expensesOfMonth in Hin.
  by apply List_filter_elem_of in Hin as [? _].
Qed.

(** The time filter of the insights page passes every expense of the
    months of the trend other than the oldest: it can leave out days of
    the oldest month only. *)
Lemma filteredExpenses_later_months zone timeFilter today expenses expense :
  0 ≤ today →
  expense ∈ expenses →
  monthNumber today - Z.of_nat (InsightsCharts.monthsToShow timeFilter) + 2
  ≤ monthNumber (JsDate.localDay zone (Expense.date expense)) →
  expense ∈ InsightsCharts.filteredExpenses zone timeFilter today expenses.
Proof.
  intros Htoday Hin Hmonth.
  unfold InsightsCharts.filteredExpenses. cbn zeta.
  apply List_filter_elem_of. split; [done|].
  pose proof (getFullYear_epoch today Htoday) as Hyear.
  pose proof (getDate_range today) as Hday.
  unfold monthNumber at 1 in Hmonth.
  destruct timeFilter; csimpl in Hmonth; [..|done].
  4: rewrite make_year_before by lia.
  all: apply bool_decide_eq_true_2, make_before_month; lia.
Qed.

Lemma filteredExpenses_totalOfMonth zone timeFilter today expenses month :
  0 ≤ today →
  monthNumber today - Z.of_nat (InsightsCharts.monthsToShow timeFilter) + 2
  ≤ month →
  totalOfMonth zone
    (InsightsCharts.filteredExpenses zone timeFilter today expenses) month
  = totalOfMonth zone expenses month.
Proof.
  intros Htoday Hmonth. unfold totalOfMonth.
  f_equal. unfold InsightsCharts.filteredExpenses. cbn zeta.
  rewrite List_filter_filter. apply filter_ext. intros expense.
  destruct (bool_decide
              (monthNumber (JsDate.localDay zone (Expense.date expense)) = month))
    eqn:Hin; [|by rewrite andb_false_r].
  apply bool_decide_eq_true in Hin. rewrite andb_true_r.
  assert (expense ∈ InsightsCharts.filteredExpenses zone timeFilter today
                      [expense]) as Hkept.
  { apply filteredExpenses_later_months;
      [done | by apply list_elem_of_singleton | lia]. }
  unfold InsightsCharts.filteredExpenses in Hkept. cbn zeta in Hkept.
  cbn [List.filter] in Hkept.
  destruct timeFilter; try done;
    match goal with
    | |- bool_decide ?P = true => destruct (bool_decide P); [done|]
    end; by apply elem_of_nil in Hkept.
Qed.

(** ** Month-over-month comparison *)



Lemma getMonthlyData_change zone timeFilter today es :
  (InsightsCharts.change (InsightsCharts.getMonthlyData zone timeFilter today es),
   InsightsCharts.changePercentage
     (InsightsCharts.getMonthlyData zone timeFilter today es))
  = InsightsCharts.monthOverMonth
      (InsightsCharts.monthlyTotals
         (InsightsCharts.getMonthlyData zone timeFilter today es)).
Proof.
  unfold InsightsCharts.getMonthlyData.
  destruct (InsightsCharts.monthOverMonth _) as [c p] eqn:E.
  csimpl. by rewrite E.
Qed.

Lemma getMonthlyData_totals zone timeFilter today es :
  InsightsCharts.monthlyTotals
    (InsightsCharts.getMonthlyData zone timeFilter today es)
  = (λ i, monthTotal zone es
            (JsDate.make (JsDate.getFullYear today)
                         (JsDate.getMonth today - i) 1))
      <$> countdown (InsightsCharts.monthsToShow timeFilter).
Proof.
  unfold InsightsCharts.getMonthlyData.
  destruct (InsightsCharts.monthOverMonth _) as [c p]. csimpl.
  by rewrite <- list_fmap_compose.
Qed.

Lemma SummaryCards_totals zone today es goals :
  let summary := SummaryCards.compute zone today es goals in
  let lastMonthDate :=
    JsDate.make (JsDate.getFullYear today) (JsDate.getMonth today - 1) 1 in
  SummaryCards.currentMonthTotal summary = monthTotal zone es today ∧
  SummaryCards.lastMonthTotal summary = monthTotal zone es lastMonthDate ∧
  SummaryCards.spendingDifference summary =
    if bool_decide (monthTotal zone es lastMonthDate ≠ 0%Qc)
    then ((monthTotal zone es today - monthTotal zone es lastMonthDate)
          / monthTotal zone es lastMonthDate * Qc_of_Z 100)%Qc
    else 0%Qc.
Proof.
  unfold SummaryCards.compute.
  by destruct (foldl SummaryCards.higher _ _) as [c a].
Qed.



(** ** The empty list *)

(** C6. On the empty expense list every aggregation returns zero totals or
    empty sequences and no top category: the monthly total, the
    month-over-month comparison, the category breakdown, the monthly
    trend, the weekday averages and the dashboard summary. Each result is a
    finite number; no division by zero is made. *)
Theorem C6_empty_list (zone : JsDate.Zone) (timeFilter : InsightsCharts.TimeFilter)
    (today : JsDate.Date) (goals : option (list Goal.t)) :
  InsightsCharts.filteredExpenses zone timeFilter today [] = [] ∧
  (∀ d, monthTotal zone [] d = 0%Qc) ∧
  InsightsCharts.getCategoryData []
    = InsightsCharts.mkCategoryData [] [] [] [] 0%Qc ∧
  InsightsCharts.topSpendingCategory (InsightsCharts.getCategoryData []) = None ∧
  SpendingChart.getCategoryData [] = SpendingChart.mkCategoryData [] [] [] ∧
  (let monthly := InsightsCharts.getMonthlyData zone timeFilter today [] in
   InsightsCharts.monthlyTotals monthly
     = replicate (InsightsCharts.monthsToShow timeFilter) 0%Qc ∧
   InsightsCharts.change monthly = 0%Qc ∧
   InsightsCharts.changePercentage monthly = 0) ∧
  SpendingChart.monthlyTotals (SpendingChart.getMonthlyData zone today [])
    = replicate 6 0%Qc ∧
  InsightsCharts.getWeekdayData zone []
    = InsightsCharts.mkWeekdayData InsightsCharts.weekdays (replicate 7 0%Qc)
        (Some "Sunday") 0%Qc ∧
  (let summary := SummaryCards.compute zone today [] goals in
   SummaryCards.currentMonthTotal summary = 0%Qc ∧
   SummaryCards.lastMonthTotal summary = 0%Qc ∧
   SummaryCards.spendingDifference summary = 0%Qc ∧
   SummaryCards.shownDifference summary = 0 ∧
   SummaryCards.topCategory summary = EmptyString ∧
   SummaryCards.shownTopCategory summary = "No data" ∧
   SummaryCards.topCategoryAmount summary = 0%Qc ∧
   SummaryCards.topCategoryPercentage summary = 0) ∧
  SummaryCards.goalsProgress (SummaryCards.compute zone today [] None) = 0 ∧
  SummaryCards.goalsProgress (SummaryCards.compute zone today [] (Some [])) = 0.
Proof.
  split_and!; try reflexivity; by destruct timeFilter.
Qed.

(** ** Adding funds to a goal *)


(** The sum is the sum of doubles: 0.7 and 0.1 are submitted as a number
    below 0.8, so that a goal of 0.8 stays in progress, while 200 and 800
    are submitted as 1000 and complete a goal of 1000. A form value that
    doubles read as 0 submits nothing. *)
Example add_funds_samples :
  let tenths n := (Qc_of_Z n / Qc_of_Z 10)%Qc in
  let goal := Goal.mk 1 2 "Holiday" (tenths 8) (tenths 7) None "in_progress" in
  Qcplus (tenths 7) (tenths 1) = tenths 8 ∧
  (∃ request,
     Binary64.onAddFundsSubmit goal "0.1" = Some request ∧
     PrimFloat.ltb (Binary64.currentAmount (Binary64.body request))
       (Binary64.ofRational (tenths 8)) = true ∧
     Binary64.status (Binary64.body request) = "in_progress") ∧
  Binary64.onAddFundsSubmit
    (Goal.mk 1 2 "Holiday" (Qc_of_Z 1000) (Qc_of_Z 200) None "in_progress") "800"
  = Some (Binary64.mkApiRequest "PUT" "/api/goals/1"
            (Binary64.mkFunds 1000%float "completed")) ∧
  Binary64.onAddFundsSubmit goal "1e-400" = None ∧
  Binary64.onAddFundsSubmit goal "-5" = None ∧
  Binary64.onAddFundsSubmit goal EmptyString = None.
Proof.
  intros tenths goal. split_and!.
  - by apply (bool_decide_unpack _); vm_compute.
  - eexists. split_and!; [by vm_compute | by vm_compute | by vm_compute].
  - by vm_compute.
  - by vm_compute.
  - by vm_compute.
  - by vm_compute.
Qed.

(** [Math.round] of a quotient of doubles: 0.29 of 2.00 is shown as 14%,
    153.23 of 154.00 as 99%, and the change from 200 to 229 as 14%, each
    ratio being a tie in exact arithmetic that [Math.round] would take
    up. *)
Example rounding_samples :
  Binary64.percentage (Binary64.parseFloat "0.29") (Binary64.parseFloat "2.00")
    = 14%float ∧
  round_half_up (Qc_of_Z 29 / Qc_of_Z 100 / Qc_of_Z 2 * Qc_of_Z 100)%Qc = 15 ∧
  Binary64.percentage (Binary64.parseFloat "153.23")
    (Binary64.parseFloat "154.00") = 99%float ∧
  Binary64.percentage (PrimFloat.sub 229%float 200%float) 200%float
    = 14%float ∧
  round_half_up ((Qc_of_Z 229 - Qc_of_Z 200) / Qc_of_Z 200 * Qc_of_Z 100)%Qc
    = 15 ∧
  Binary64.percentage 80%float 100%float = 80%float.
Proof. split_and!; by vm_compute. Qed.

(** ** Routes *)

Lemma authenticated_route session userId route :
  isAuthenticated session = true → user session = Some userId → userId ≠ 0 →
  Routes.authenticated session route = route userId.
Proof.
  intros Hauth Huser Hid. unfold Routes.authenticated.
  by rewrite Hauth, Huser, bool_decide_eq_false_2.
Qed.

(** Whatever the storage, a route that finds no record answers 404 and a
    route that finds the record of another user answers 403, having made
    the one call that loads the record. *)
Section AnyStorage.

Variable storage : Storage.
Variables (session : Session) (userId : Z).
Hypothesis Hauth : isAuthenticated session = true.
Hypothesis Huser : user session = Some userId.
Hypothesis Hid : userId ≠ 0.

Lemma putExpense_missing id body db db' :
  storage _ (GetExpenseById id) db = (db', Ok None) →
  run storage (Routes.putExpense session id body) db
  = (db', mkResponse 404 (Message "Expense not found"),
     [existT _ (GetExpenseById id)]).
Proof.
  intros Hget. unfold Routes.putExpense.
  rewrite (authenticated_route _ userId) by done. csimpl. by rewrite Hget.
Qed.

Lemma putExpense_foreign id body db db' expense :
  storage _ (GetExpenseById id) db = (db', Ok (Some expense)) →
  Expense.userId expense ≠ userId →
  run storage (Routes.putExpense session id body) db
  = (db', mkResponse 403 (Message "Not authorized to update this expense"),
     [existT _ (GetExpenseById id)]).
Proof.
  intros Hget Hother. unfold Routes.putExpense.
  rewrite (authenticated_route _ userId) by done. csimpl.
  by rewrite Hget, bool_decide_eq_true_2.
Qed.

Lemma deleteExpense_missing id db db' :
  storage _ (GetExpenseById id) db = (db', Ok None) →
  run storage (Routes.deleteExpense session id) db
  = (db', mkResponse 404 (Message "Expense not found"),
     [existT _ (GetExpenseById id)]).
Proof.
  intros Hget. unfold Routes.deleteExpense.
  rewrite (authenticated_route _ userId) by done. csimpl. by rewrite Hget.
Qed.

Lemma deleteExpense_foreign id db db' expense :
  storage _ (GetExpenseById id) db = (db', Ok (Some expense)) →
  Expense.userId expense ≠ userId →
  run storage (Routes.deleteExpense session id) db
  = (db', mkResponse 403 (Message "Not authorized to delete this expense"),
     [existT _ (GetExpenseById id)]).
Proof.
  intros Hget Hother. unfold Routes.deleteExpense.
  rewrite (authenticated_route _ userId) by done. csimpl.
  by rewrite Hget, bool_decide_eq_true_2.
Qed.

Lemma putGoal_missing id body db db' :
  storage _ (GetGoalById id) db = (db', Ok None) →
  run storage (Routes.putGoal session id body) db
  = (db', mkResponse 404 (Message "Goal not found"),
     [existT _ (GetGoalById id)]).
Proof.
  intros Hget. unfold Routes.putGoal.
  rewrite (authenticated_route _ userId) by done. csimpl. by rewrite Hget.
Qed.

Lemma putGoal_foreign id body db db' goal :
  storage _ (GetGoalById id) db = (db', Ok (Some goal)) →
  Goal.userId goal ≠ userId →
  run storage (Routes.putGoal session id body) db
  = (db', mkResponse 403 (Message "Not authorized to update this goal"),
     [existT _ (GetGoalById id)]).
Proof.
  intros Hget Hother. unfold Routes.putGoal.
  rewrite (authenticated_route _ userId) by done. csimpl.
  by rewrite Hget, bool_decide_eq_true_2.
Qed.

Lemma deleteGoal_missing id db db' :
  storage _ (GetGoalById id) db = (db', Ok None) →
  run storage (Routes.deleteGoal session id) db
  = (db', mkResponse 404 (Message "Goal not found"),
     [existT _ (GetGoalById id)]).
Proof.
  intros Hget. unfold Routes.deleteGoal.
  rewrite (authenticated_route _ userId) by done. csimpl. by rewrite Hget.
Qed.

Lemma deleteGoal_foreign id db db' goal :
  storage _ (GetGoalById id) db = (db', Ok (Some goal)) →
  Goal.userId goal ≠ userId →
  run storage (Routes.deleteGoal session id) db
  = (db', mkResponse 403 (Message "Not authorized to delete this goal"),
     [existT _ (GetGoalById id)]).
Proof.
  intros Hget Hother. unfold Routes.deleteGoal.
  rewrite (authenticated_route _ userId) by done. csimpl.
  by rewrite Hget, bool_decide_eq_true_2.
Qed.

End AnyStorage.

(** C2. For an update or a delete request on an expense or a goal, made
    in an authenticated session: when no record has the given id the
    response is 404; when the record exists and belongs to another user the
    response is 403. In both cases the one call that reaches the data layer
    is the load of the record, and the tables are left as they were. The
    404 answer does not depend on the user: existence is checked first. *)
Theorem C2_ownership (db : Db) (session : Session) (userId id : Z)
    (expenseBody : ExpensePatch.t) (goalBody : GoalPatch.t) :
  isAuthenticated session = true → user session = Some userId → userId ≠ 0 →
  (expenses db !! id = None →
   run DatabaseStorage.storage (Routes.putExpense session id expenseBody) db
   = (db, mkResponse 404 (Message "Expense not found"),
      [existT _ (GetExpenseById id)]) ∧
   run DatabaseStorage.storage (Routes.deleteExpense session id) db
   = (db, mkResponse 404 (Message "Expense not found"),
      [existT _ (GetExpenseById id)])) ∧
  (∀ expense, expenses db !! id = Some expense →
   Expense.userId expense ≠ userId →
   run DatabaseStorage.storage (Routes.putExpense session id expenseBody) db
   = (db, mkResponse 403 (Message "Not authorized to update this expense"),
      [existT _ (GetExpenseById id)]) ∧
   run DatabaseStorage.storage (Routes.deleteExpense session id) db
   = (db, mkResponse 403 (Message "Not authorized to delete this expense"),
      [existT _ (GetExpenseById id)])) ∧
  (goals db !! id = None →
   run DatabaseStorage.storage (Routes.putGoal session id goalBody) db
   = (db, mkResponse 404 (Message "Goal not found"),
      [existT _ (GetGoalById id)]) ∧
   run DatabaseStorage.storage (Routes.deleteGoal session id) db
   = (db, mkResponse 404 (Message "Goal not found"),
      [existT _ (GetGoalById id)])) ∧
  (∀ goal, goals db !! id = Some goal →
   Goal.userId goal ≠ userId →
   run DatabaseStorage.storage (Routes.putGoal session id goalBody) db
   = (db, mkResponse 403 (Message "Not authorized to update this goal"),
      [existT _ (GetGoalById id)]) ∧
   run DatabaseStorage.storage (Routes.deleteGoal session id) db
   = (db, mkResponse 403 (Message "Not authorized to delete this goal"),
      [existT _ (GetGoalById id)])).
Proof.
  intros Hauth Huser Hid. split_and!.
  - intros Hnone. split.
    + eapply putExpense_missing; [done..|].
      csimpl. unfold DatabaseStorage.getExpenseById. by rewrite Hnone.
    + eapply deleteExpense_missing; [done..|].
      csimpl. unfold DatabaseStorage.getExpenseById. by rewrite Hnone.
  - intros expense Hsome Hother. split.
    + eapply putExpense_foreign; [done..| |done].
      csimpl. unfold DatabaseStorage.getExpenseById. by rewrite Hsome.
    + eapply deleteExpense_foreign; [done..| |done].
      csimpl. unfold DatabaseStorage.getExpenseById. by rewrite Hsome.
  - intros Hnone. split.
    + eapply putGoal_missing; [done..|].
      csimpl. unfold DatabaseStorage.getGoalById. by rewrite Hnone.
    + eapply deleteGoal_missing; [done..|].
      csimpl. unfold DatabaseStorage.getGoalById. by rewrite Hnone.
  - intros goal Hsome Hother. split.
    + eapply putGoal_foreign; [done..| |done].
      csimpl. unfold DatabaseStorage.getGoalById. by rewrite Hsome.
    + eapply deleteGoal_foreign; [done..| |done].
      csimpl. unfold DatabaseStorage.getGoalById. by rewrite Hsome.
Qed.

(** ** Validation of expenses *)

Lemma one_cent_pos : (0 < one_cent)%Qc.
Proof. by vm_compute. Qed.

Lemma insertExpenseSchema_amount data validated :
  insertExpenseSchema data = Some validated →
  (∀ s, ExpenseInput.amount data ≠ JString s) →
  ∃ n, ExpenseInput.amount data = JNumber n ∧
       InsertExpense.amount validated = AmountNumber n ∧
       js_ge n (Finite one_cent) = true.
Proof.
  unfold insertExpenseSchema. intros Hparse Hnot.
  destruct (Zod.string_ (ExpenseInput.category data)) as [c|]; [|done].
  destruct (Zod.optional_string (ExpenseInput.description data)) as [d|]; [|done].
  destruct (Zod.optional_string (ExpenseInput.note data)) as [n|]; [|done].
  destruct (Zod.string_ (ExpenseInput.date data)) as [t|]; [|done].
  csimpl in Hparse.
  destruct (ExpenseInput.amount data) as [| |b|x|s|] eqn:Hamount;
    csimpl in Hparse; try done; [|by destruct (Hnot s)].
  destruct (negb (isNaN x) && js_ge x (Finite one_cent)) eqn:Hx;
    csimpl in Hparse; [|done].
  apply andb_prop in Hx as [_ Hge]. injection Hparse as <-. by exists x.
Qed.

Lemma insertExpenseSchema_category data validated :
  insertExpenseSchema data = Some validated →
  ExpenseInput.category data = JString (InsertExpense.category validated).
Proof.
  unfold insertExpenseSchema. intros Hparse.
  destruct (ExpenseInput.category data) as [| |b|x|s|]; try done.
  csimpl in Hparse.
  destruct (Zod.optional_string (ExpenseInput.description data)) as [d|]; [|done].
  destruct (Zod.optional_string (ExpenseInput.note data)) as [n|]; [|done].
  destruct (Zod.string_ (ExpenseInput.date data)) as [t|]; [|done].
  csimpl in Hparse.
  destruct (match Zod.number_min one_cent (ExpenseInput.amount data) with
            | Some n => Some (AmountNumber n)
            | None => _ end) as [a|]; [|done].
  by injection Hparse as <-.
Qed.

Lemma requestData_amount userId body s :
  ExpenseInput.amount (Routes.requestData userId body) ≠ JString s.
Proof. unfold Routes.requestData. csimpl. by destruct (ExpenseBody.amount body). Qed.

(** C3 (as amended). Creation validates the amount: POST /api/expenses
    answers 400 "Invalid data", without a call to the data layer, when the
    amount (a string amount being read with [parseFloat] first) is not a
    number of at least 0.01, and also when the category is not a string.
    Every expense it creates therefore has an amount that is positive, and
    carries the category string of the request, whatever that string is. *)
Theorem C3_creation_validates (session : Session) (userId : Z)
    (body : ExpenseBody.t) (db : Db) :
  isAuthenticated session = true → user session = Some userId → userId ≠ 0 →
  let amount := ExpenseInput.amount (Routes.requestData userId body) in
  let outcome := run DatabaseStorage.storage (Routes.postExpense session body) db in
  ((¬ ∃ n, amount = JNumber n ∧ js_ge n (Finite one_cent) = true) →
   outcome = (db, mkResponse 400 InvalidData, [])) ∧
  ((¬ ∃ category, ExpenseBody.category body = JString category) →
   outcome = (db, mkResponse 400 InvalidData, [])) ∧
  (∀ expense,
     outcome.1.2 = mkResponse 201 (ExpenseJson (Some expense)) →
     (one_cent ≤ Expense.amount expense)%Qc ∧
     (0 < Expense.amount expense)%Qc ∧
     ExpenseBody.category body = JString (Expense.category expense) ∧
     expenses outcome.1.1 !! Expense.id expense = Some expense).
Proof.
  intros Hauth Huser Hid amount outcome. subst amount outcome.
  unfold Routes.postExpense. rewrite (authenticated_route _ userId) by done.
  destruct (insertExpenseSchema (Routes.requestData userId body))
    as [validated|] eqn:Hparse.
  - destruct (insertExpenseSchema_amount _ _ Hparse
                (requestData_amount userId body)) as (n & Hn & Hvalid & Hge).
    pose proof (insertExpenseSchema_category _ _ Hparse) as Hcat.
    split_and!.
    + intros Hnot. destruct Hnot. by exists n.
    + intros Hnot. destruct Hnot. by eexists.
    + intros expense. csimpl. unfold DatabaseStorage.createExpense.
      rewrite Hvalid. destruct n as [|s|q]; csimpl; try done.
      destruct (DatabaseStorage.date_in _) as [date|]; csimpl; [|done].
      intros [= <-]. csimpl. apply bool_decide_eq_true_1 in Hge.
      split_and!; [done | | done | by rewrite lookup_insert_eq].
      eapply Qclt_le_trans; [apply one_cent_pos | done].
  - split_and!; done.
Qed.

(** User 1 owns expense 1 (10.00, Food). Their PUT with amount -5 and
    category "Gambling" is applied as it is, and their POST with amount 5
    and category "Gambling" creates the record. *)
Lemma C3_counterexample :
  let db :=
    mkDb {[ 1 := Expense.mk 1 1 (Qc_of_Z 10) "Food" None None
                   (JsDate.make 2024 2 15) ]} ∅ 1 0 in
  let session := mkSession true (Some 1) in
  let updated :=
    Expense.mk 1 1 (Qc_of_Z (-5)) "Gambling" None None (JsDate.make 2024 2 15) in
  let created :=
    Expense.mk 2 1 (Qc_of_Z 5) "Gambling" None None (JsDate.make 2024 2 15) in
  (run DatabaseStorage.storage
     (Routes.putExpense session 1
        (ExpensePatch.mk None (Some (Qc_of_Z (-5))) (Some "Gambling")
           None None None)) db).1
  = (mkDb {[ 1 := updated ]} ∅ 1 0,
     mkResponse 200 (ExpenseJson (Some updated))) ∧
  ¬ expense_invariant updated ∧
  (run DatabaseStorage.storage
     (Routes.postExpense session
        (ExpenseBody.mk (JString "Gambling") JUndefined JUndefined
           (JString "2024-03-15") (JNumber (Finite (Qc_of_Z 5))))) db).1.2
  = mkResponse 201 (ExpenseJson (Some created)) ∧
  "Gambling" ∉ EXPENSE_CATEGORIES.
Proof.
  intros db session updated created. split_and!.
  - by apply (bool_decide_unpack _); vm_compute.
  - intros [Hpos _]. by vm_compute in Hpos.
  - by apply (bool_decide_unpack _); vm_compute.
  - by apply (bool_decide_unpack _); vm_compute.
Qed.

(** ** The theorems at concrete inputs *)

Lemma scenario_ordinary expense :
  expense ∈ scenario → JsObject.ordinary (Expense.category expense) = true.
Proof.
  revert expense. apply Forall_forall. repeat constructor.
Qed.

Lemma scenario_moderate expense :
  expense ∈ scenario →
  (0 < Expense.amount expense)%Qc ∧ moderate (Expense.amount expense).
Proof.
  revert expense. apply Forall_forall.
  repeat (apply Forall_cons; split;
          [split; [by vm_compute | right; split; by vm_compute]|]).
  apply Forall_nil_2.
Qed.





Lemma C9_highest_weekday_witness :
  (∀ expense, expense ∈ scenario → (0 ≤ Expense.amount expense)%Qc) ∧
  ∃ i, (i < 7)%nat ∧
    InsightsCharts.highestDay (InsightsCharts.getWeekdayData JsDate.UTC scenario)
      = InsightsCharts.weekdays !! i ∧
    earliest_maximum
      (InsightsCharts.weekdayAverages
         (InsightsCharts.getWeekdayData JsDate.UTC scenario)) i.
Proof.
  assert (∀ expense, expense ∈ scenario → (0 ≤ Expense.amount expense)%Qc)
    as Hnn.
  { apply Forall_forall. repeat constructor; by vm_compute. }
  split; [exact Hnn|].
  destruct (C9_highest_weekday JsDate.UTC scenario Hnn)
    as [(i & Hi & Hday & Hmax & _) _].
  exists i. split_and!; [exact Hi | exact Hday | exact Hmax].
Defined.


Lemma C2_ownership_witness :
  let session := mkSession true (Some 1) in
  isAuthenticated session = true ∧ user session = Some 1 ∧ 1 ≠ 0 ∧
  expenses sample_db !! 7 = None ∧
  run DatabaseStorage.storage (Routes.deleteExpense session 7) sample_db
  = (sample_db, mkResponse 404 (Message "Expense not found"),
     [existT _ (GetExpenseById 7)]) ∧
  (∃ goal, goals sample_db !! 1 = Some goal ∧ Goal.userId goal ≠ 1) ∧
  run DatabaseStorage.storage
    (Routes.putGoal session 1
       (GoalPatch.mk None None None (Some (Qc_of_Z 1000)) None
          (Some "completed"))) sample_db
  = (sample_db, mkResponse 403 (Message "Not authorized to update this goal"),
     [existT _ (GetGoalById 1)]).
Proof.
  intros session.
  assert (isAuthenticated session = true) as Hauth by reflexivity.
  assert (user session = Some 1) as Huser by reflexivity.
  assert (1 ≠ 0) as Hid by lia.
  assert (expenses sample_db !! 7 = None) as Hnone by (by vm_compute).
  set (goal := Goal.mk 1 2 "Holiday" (Qc_of_Z 1000) (Qc_of_Z 200) None
                 "in_progress").
  assert (goals sample_db !! 1 = Some goal) as Hsome by (by vm_compute).
  assert (Goal.userId goal ≠ 1) as Hother by (by vm_compute).
  set (expenseBody := ExpensePatch.mk None None None None None None).
  set (goalBody := GoalPatch.mk None None None (Some (Qc_of_Z 1000)) None
                     (Some "completed")).
  split_and!; [exact Hauth | exact Huser | exact Hid | exact Hnone | |
               by exists goal |].
  - destruct (C2_ownership sample_db session 1 7 expenseBody goalBody
                Hauth Huser Hid) as (Hmissing & _).
    exact (proj2 (Hmissing Hnone)).
  - destruct (C2_ownership sample_db session 1 1 expenseBody goalBody
                Hauth Huser Hid) as (_ & _ & _ & Hforeign).
    exact (proj1 (Hforeign goal Hsome Hother)).
Defined.

Lemma C3_creation_validates_witness :
  let session := mkSession true (Some 1) in
  let body := ExpenseBody.mk (JString "Food") JUndefined JUndefined
                (JString "2024-03-15") (JString "0.001") in
  isAuthenticated session = true ∧ user session = Some 1 ∧ 1 ≠ 0 ∧
  (¬ ∃ n, ExpenseInput.amount (Routes.requestData 1 body) = JNumber n ∧
          js_ge n (Finite one_cent) = true) ∧
  run DatabaseStorage.storage (Routes.postExpense session body) sample_db
  = (sample_db, mkResponse 400 InvalidData, []).
Proof.
  intros session body.
  assert (isAuthenticated session = true) as Hauth by reflexivity.
  assert (user session = Some 1) as Huser by reflexivity.
  assert (1 ≠ 0) as Hid by lia.
  assert (¬ ∃ n, ExpenseInput.amount (Routes.requestData 1 body) = JNumber n ∧
                 js_ge n (Finite one_cent) = true) as Hsmall.
  { intros (n & Hn & Hge). injection Hn as <-. by vm_compute in Hge. }
  split_and!; [exact Hauth | exact Huser | exact Hid | exact Hsmall |].
  exact (proj1 (C3_creation_validates session 1 body sample_db
                  Hauth Huser Hid) Hsmall).
Defined.

(** * Further properties of the code *)

(** ** Routes: sessions without a user *)

Lemma authenticated_refused session route :
  no_user session →
  ∃ message, (message = "Unauthorized" ∨ message = "User not found") ∧
    Routes.authenticated session route
    = Respond (mkResponse 401 (Message message)).
Proof.
  unfold Routes.authenticated. intros [Hauth | [Huser | Huser]].
  - rewrite Hauth. eauto.
  - rewrite Huser. destruct (isAuthenticated session); eauto.
  - rewrite Huser. destruct (isAuthenticated session); eauto.
Qed.

Lemma listing_refused {A} session (route : Z → Listing A) :
  no_user session →
  ∃ message, (message = "Unauthorized" ∨ message = "User not found") ∧
    ReadRoutes.authenticated session route = Refused 401 message.
Proof.
  unfold ReadRoutes.authenticated. intros [Hauth | [Huser | Huser]].
  - rewrite Hauth. eauto.
  - rewrite Huser. destruct (isAuthenticated session); eauto.
  - rewrite Huser. destruct (isAuthenticated session); eauto.
Qed.

(** X1. A request whose session is not authenticated, or carries no user
    or the user id 0, is answered 401 by every write route, whatever the
    storage: no storage call is made and the tables are left as they
    were. *)
Theorem X1_no_user_no_storage_call (storage : Storage) (db : Db)
    (session : Session) (id : Z) (body : ExpenseBody.t)
    (expensePatch : ExpensePatch.t) (goalPatch : GoalPatch.t) :
  no_user session →
  ∃ message, (message = "Unauthorized" ∨ message = "User not found") ∧
    let refused := (db, mkResponse 401 (Message message), []) in
    run storage (Routes.postExpense session body) db = refused ∧
    run storage (Routes.putExpense session id expensePatch) db = refused ∧
    run storage (Routes.deleteExpense session id) db = refused ∧
    run storage (Routes.putGoal session id goalPatch) db = refused ∧
    run storage (Routes.deleteGoal session id) db = refused.
Proof.
  intros Hno.
  destruct (authenticated_refused session (λ _, Respond (mkResponse 0 Empty)) Hno)
    as (message & Hmessage & Hrefused).
  exists message. split; [done|].
  assert (∀ route, Routes.authenticated session route
                   = Respond (mkResponse 401 (Message message))) as Hall.
  { intros route. revert Hrefused. unfold Routes.authenticated.
    destruct (isAuthenticated session); [|done].
    destruct (user session) as [userId|]; [|done].
    case_bool_decide; [done|]. intros; simplify_eq. }
  unfold Routes.postExpense, Routes.putExpense, Routes.deleteExpense,
    Routes.putGoal, Routes.deleteGoal.
  by rewrite !Hall.
Qed.

Lemma X1_no_user_no_storage_call_witness :
  let session := mkSession true (Some 0) in
  no_user session ∧
  ∃ message, (message = "Unauthorized" ∨ message = "User not found") ∧
    run DatabaseStorage.storage (Routes.deleteExpense session 1) sample_db
    = (sample_db, mkResponse 401 (Message message), []).
Proof.
  intros session.
  assert (no_user session) as Hno by (right; right; reflexivity).
  split; [exact Hno|].
  destruct (X1_no_user_no_storage_call DatabaseStorage.storage sample_db session 1
              (ExpenseBody.mk JNull JNull JNull JNull JNull)
              (ExpensePatch.mk None None None None None None)
              (GoalPatch.mk None None None None None None) Hno)
    as (message & Hmessage & _ & _ & Hdelete & _).
  exists message. split; [exact Hmessage | exact Hdelete].
Defined.

(** ** Routes: requests of the owner *)

Lemma run_Await storage {X} (call : StorageCall X) next catch db :
  run storage (Await call next catch) db
  = match storage _ call db with
    | (db', Ok x) =>
        let '(db'', response, calls) := run storage (next x) db' in
        (db'', response, existT _ call :: calls)
    | (db', Throw) => (db', catch, [existT _ call])
    end.
Proof. reflexivity. Qed.

Lemma run_Respond storage response db :
  run storage (Respond response) db = (db, response, []).
Proof. reflexivity. Qed.

Lemma bool_decide_owner (owner userId : Z) :
  owner = userId → bool_decide (owner ≠ userId) = false.
Proof. intros ->. by apply bool_decide_eq_false_2; intros Hne. Qed.

(** Whatever the storage, the request of the owner makes the load and
    then the one write, and answers according to the outcome of the
    write. *)
Section OwnerRequests.

Variable storage : Storage.
Variables (session : Session) (userId : Z).
Hypothesis Hauth : isAuthenticated session = true.
Hypothesis Huser : user session = Some userId.
Hypothesis Hid : userId ≠ 0.

Lemma deleteExpense_owner id db db1 db2 expense outcome :
  storage _ (GetExpenseById id) db = (db1, Ok (Some expense)) →
  Expense.userId expense = userId →
  storage _ (DeleteExpense id) db1 = (db2, outcome) →
  run storage (Routes.deleteExpense session id) db
  = (db2,
     match outcome with
     | Ok true => mkResponse 204 Empty
     | _ => mkResponse 500 (Message "Failed to delete expense")
     end,
     [existT _ (GetExpenseById id); existT _ (DeleteExpense id)]).
Proof.
  intros Hget Howner Hdelete. unfold Routes.deleteExpense.
  rewrite (authenticated_route _ userId) by done.
  rewrite run_Await, Hget, (bool_decide_owner _ _ Howner), run_Await, Hdelete.
  by destruct outcome as [[]|].
Qed.

Lemma putExpense_owner id body db db1 db2 expense outcome :
  storage _ (GetExpenseById id) db = (db1, Ok (Some expense)) →
  Expense.userId expense = userId →
  storage _ (UpdateExpense id body) db1 = (db2, outcome) →
  run storage (Routes.putExpense session id body) db
  = (db2,
     match outcome with
     | Ok updatedExpense => mkResponse 200 (ExpenseJson updatedExpense)
     | Throw => mkResponse 500 (Message "Failed to update expense")
     end,
     [existT _ (GetExpenseById id); existT _ (UpdateExpense id body)]).
Proof.
  intros Hget Howner Hupdate. unfold Routes.putExpense.
  rewrite (authenticated_route _ userId) by done.
  rewrite run_Await, Hget, (bool_decide_owner _ _ Howner), run_Await, Hupdate.
  by destruct outcome.
Qed.

Lemma deleteGoal_owner id db db1 db2 goal outcome :
  storage _ (GetGoalById id) db = (db1, Ok (Some goal)) →
  Goal.userId goal = userId →
  storage _ (DeleteGoal id) db1 = (db2, outcome) →
  run storage (Routes.deleteGoal session id) db
  = (db2,
     match outcome with
     | Ok true => mkResponse 204 Empty
     | _ => mkResponse 500 (Message "Failed to delete goal")
     end,
     [existT _ (GetGoalById id); existT _ (DeleteGoal id)]).
Proof.
  intros Hget Howner Hdelete. unfold Routes.deleteGoal.
  rewrite (authenticated_route _ userId) by done.
  rewrite run_Await, Hget, (bool_decide_owner _ _ Howner), run_Await, Hdelete.
  by destruct outcome as [[]|].
Qed.

Lemma putGoal_owner id body db db1 db2 goal outcome :
  storage _ (GetGoalById id) db = (db1, Ok (Some goal)) →
  Goal.userId goal = userId →
  storage _ (UpdateGoal id body) db1 = (db2, outcome) →
  run storage (Routes.putGoal session id body) db
  = (db2,
     match outcome with
     | Ok updatedGoal => mkResponse 200 (GoalJson updatedGoal)
     | Throw => mkResponse 500 (Message "Failed to update goal")
     end,
     [existT _ (GetGoalById id); existT _ (UpdateGoal id body)]).
Proof.
  intros Hget Howner Hupdate. unfold Routes.putGoal.
  rewrite (authenticated_route _ userId) by done.
  rewrite run_Await, Hget, (bool_decide_owner _ _ Howner), run_Await, Hupdate.
  by destruct outcome.
Qed.

End OwnerRequests.

(** X2. DELETE /api/expenses/:id by the owner of the record answers 204
    after two storage calls (the load and the deletion). The record is
    gone, every other expense and every goal is as it was, and the same
    request made again answers 404. *)
Theorem X2_owner_deletes_expense (db : Db) (session : Session)
    (userId id : Z) (expense : Expense.t) :
  isAuthenticated session = true → user session = Some userId → userId ≠ 0 →
  expenses db !! id = Some expense → Expense.userId expense = userId →
  ∃ db',
    run DatabaseStorage.storage (Routes.deleteExpense session id) db
    = (db', mkResponse 204 Empty,
       [existT _ (GetExpenseById id); existT _ (DeleteExpense id)]) ∧
    expenses db' !! id = None ∧
    (∀ other, other ≠ id → expenses db' !! other = expenses db !! other) ∧
    goals db' = goals db ∧
    run DatabaseStorage.storage (Routes.deleteExpense session id) db'
    = (db', mkResponse 404 (Message "Expense not found"),
       [existT _ (GetExpenseById id)]).
Proof.
  intros Hauth Huser Hid Hsome Howner.
  exists (mkDb (delete id (expenses db)) (goals db)
            (expenses_id_seq db) (goals_id_seq db)).
  split_and!.
  - erewrite (deleteExpense_owner _ _ userId Hauth Huser Hid id db db _ expense (Ok true));
      [done | | done |].
    + csimpl. unfold DatabaseStorage.getExpenseById. by rewrite Hsome.
    + csimpl. unfold DatabaseStorage.deleteExpense. by rewrite Hsome.
  - apply lookup_delete_eq.
  - intros other Hother. by apply lookup_delete_ne.
  - done.
  - eapply deleteExpense_missing; [done..|].
    csimpl. unfold DatabaseStorage.getExpenseById. csimpl.
    by rewrite lookup_delete_eq.
Qed.

Lemma X2_owner_deletes_expense_witness :
  let session := mkSession true (Some 2) in
  let expense := Expense.mk 1 2 (Qc_of_Z 10) "Food" None None
                   (JsDate.make 2024 2 15) in
  isAuthenticated session = true ∧ user session = Some 2 ∧ 2 ≠ 0 ∧
  expenses sample_db !! 1 = Some expense ∧ Expense.userId expense = 2 ∧
  ∃ db',
    run DatabaseStorage.storage (Routes.deleteExpense session 1) sample_db
    = (db', mkResponse 204 Empty,
       [existT _ (GetExpenseById 1); existT _ (DeleteExpense 1)]) ∧
    expenses db' !! 1 = None.
Proof.
  intros session expense.
  assert (isAuthenticated session = true) as Hauth by reflexivity.
  assert (user session = Some 2) as Huser by reflexivity.
  assert (2 ≠ 0) as Hid by lia.
  assert (expenses sample_db !! 1 = Some expense) as Hsome by (by vm_compute).
  assert (Expense.userId expense = 2) as Howner by reflexivity.
  split_and!; [exact Hauth | exact Huser | exact Hid | exact Hsome | exact Howner |].
  destruct (X2_owner_deletes_expense sample_db session 2 1 expense
              Hauth Huser Hid Hsome Howner) as (db' & Hrun & Hgone & _).
  exists db'. split; [exact Hrun | exact Hgone].
Defined.

Lemma ExpensePatch_apply_twice patch expense :
  ExpensePatch.apply patch (ExpensePatch.apply patch expense)
  = ExpensePatch.apply patch expense.
Proof.
  destruct patch as [[?|] [?|] [?|] [?|] [?|] [?|]]; by destruct expense.
Qed.

Lemma getExpenseById_found db id expense :
  expenses db !! id = Some expense →
  DatabaseStorage.storage _ (GetExpenseById id) db = (db, Ok (Some expense)).
Proof.
  intros Hsome. csimpl. unfold DatabaseStorage.getExpenseById. by rewrite Hsome.
Qed.

Lemma getGoalById_found db id goal :
  goals db !! id = Some goal →
  DatabaseStorage.storage _ (GetGoalById id) db = (db, Ok (Some goal)).
Proof.
  intros Hsome. csimpl. unfold DatabaseStorage.getGoalById. by rewrite Hsome.
Qed.

Lemma updateExpense_found db id expense patch :
  expenses db !! id = Some expense → ExpensePatch.is_empty patch = false →
  DatabaseStorage.storage _ (UpdateExpense id patch) db
  = (mkDb (<[id := ExpensePatch.apply patch expense]> (expenses db)) (goals db)
       (expenses_id_seq db) (goals_id_seq db),
     Ok (Some (ExpensePatch.apply patch expense))).
Proof.
  intros Hsome Hpatch. csimpl. unfold DatabaseStorage.updateExpense.
  by rewrite Hpatch, Hsome.
Qed.

Lemma updateGoal_found db id goal patch :
  goals db !! id = Some goal → GoalPatch.is_empty patch = false →
  DatabaseStorage.storage _ (UpdateGoal id patch) db
  = (mkDb (expenses db) (<[id := GoalPatch.apply patch goal]> (goals db))
       (expenses_id_seq db) (goals_id_seq db),
     Ok (Some (GoalPatch.apply patch goal))).
Proof.
  intros Hsome Hpatch. csimpl. unfold DatabaseStorage.updateGoal.
  by rewrite Hpatch, Hsome.
Qed.

Lemma deleteExpense_found db id expense :
  expenses db !! id = Some expense →
  DatabaseStorage.storage _ (DeleteExpense id) db
  = (mkDb (delete id (expenses db)) (goals db)
       (expenses_id_seq db) (goals_id_seq db), Ok true).
Proof.
  intros Hsome. csimpl. unfold DatabaseStorage.deleteExpense. by rewrite Hsome.
Qed.

Lemma deleteGoal_found db id goal :
  goals db !! id = Some goal →
  DatabaseStorage.storage _ (DeleteGoal id) db
  = (mkDb (expenses db) (delete id (goals db))
       (expenses_id_seq db) (goals_id_seq db), Ok true).
Proof.
  intros Hsome. csimpl. unfold DatabaseStorage.deleteGoal. by rewrite Hsome.
Qed.

(** X3. PUT /api/expenses/:id by the owner, with a body that sets at
    least one of the columns [userId], amount, category, description,
    note and date, whose [userId], when it is set, is the owner, and that
    names neither the primary key nor [createdAt]: the request answers
    200 with the record as changed by the body. That record is stored in
    place of the old one, every other expense and every goal is as it
    was, and the same request made again gives the same answer and the
    same tables. *)
Theorem X3_owner_updates_expense (db : Db) (session : Session)
    (userId id : Z) (expense : Expense.t) (patch : ExpensePatch.t) :
  isAuthenticated session = true → user session = Some userId → userId ≠ 0 →
  expenses db !! id = Some expense → Expense.userId expense = userId →
  ExpensePatch.is_empty patch = false →
  ExpensePatch.userId patch = None ∨ ExpensePatch.userId patch = Some userId →
  let updated := ExpensePatch.apply patch expense in
  let calls := [existT _ (GetExpenseById id); existT _ (UpdateExpense id patch)] in
  ∃ db',
    run DatabaseStorage.storage (Routes.putExpense session id patch) db
    = (db', mkResponse 200 (ExpenseJson (Some updated)), calls) ∧
    expenses db' !! id = Some updated ∧
    (∀ other, other ≠ id → expenses db' !! other = expenses db !! other) ∧
    goals db' = goals db ∧
    Expense.userId updated = userId ∧
    run DatabaseStorage.storage (Routes.putExpense session id patch) db'
    = (db', mkResponse 200 (ExpenseJson (Some updated)), calls).
Proof.
  intros Hauth Huser Hid Hsome Howner Hpatch Hsame updated calls.
  set (db' := mkDb (<[id := updated]> (expenses db)) (goals db)
                (expenses_id_seq db) (goals_id_seq db)).
  assert (expenses db' !! id = Some updated) as Hstored
    by apply lookup_insert_eq.
  exists db'. split_and!.
  - by rewrite (putExpense_owner _ _ userId Hauth Huser Hid id patch db db db'
                  expense (Ok (Some updated)) (getExpenseById_found _ _ _ Hsome)
                  Howner (updateExpense_found _ _ _ _ Hsome Hpatch)).
  - done.
  - intros other Hother. by apply lookup_insert_ne.
  - done.
  - subst updated. destruct patch as [owner ? ? ? ? ?]; csimpl in *.
    destruct Hsame as [-> | ->]; done.
  - assert (Expense.userId updated = userId) as Howner'.
    { subst updated. destruct patch as [owner ? ? ? ? ?]; csimpl in *.
      destruct Hsame as [-> | ->]; done. }
    rewrite (putExpense_owner _ _ userId Hauth Huser Hid id patch db' db' db'
               updated (Ok (Some updated)) (getExpenseById_found _ _ _ Hstored)
               Howner'); [done|].
    rewrite (updateExpense_found _ _ _ _ Hstored Hpatch).
    subst updated db'. csimpl.
    by rewrite ExpensePatch_apply_twice, insert_insert_eq.
Qed.

Lemma X3_owner_updates_expense_witness :
  let session := mkSession true (Some 2) in
  let expense := Expense.mk 1 2 (Qc_of_Z 10) "Food" None None
                   (JsDate.make 2024 2 15) in
  let patch := ExpensePatch.mk None (Some (Qc_of_Z 12)) None None
                 (Some (Some "lunch")) None in
  let updated := Expense.mk 1 2 (Qc_of_Z 12) "Food" None (Some "lunch")
                   (JsDate.make 2024 2 15) in
  isAuthenticated session = true ∧ user session = Some 2 ∧ 2 ≠ 0 ∧
  expenses sample_db !! 1 = Some expense ∧ Expense.userId expense = 2 ∧
  ExpensePatch.is_empty patch = false ∧
  (ExpensePatch.userId patch = None ∨ ExpensePatch.userId patch = Some 2) ∧
  ExpensePatch.apply patch expense = updated ∧
  ∃ db',
    run DatabaseStorage.storage (Routes.putExpense session 1 patch) sample_db
    = (db', mkResponse 200 (ExpenseJson (Some (ExpensePatch.apply patch expense))),
       [existT _ (GetExpenseById 1); existT _ (UpdateExpense 1 patch)]) ∧
    expenses db' !! 1 = Some (ExpensePatch.apply patch expense).
Proof.
  intros session expense patch updated.
  assert (isAuthenticated session = true) as Hauth by reflexivity.
  assert (user session = Some 2) as Huser by reflexivity.
  assert (2 ≠ 0) as Hid by lia.
  assert (expenses sample_db !! 1 = Some expense) as Hsome by (by vm_compute).
  assert (Expense.userId expense = 2) as Howner by reflexivity.
  assert (ExpensePatch.is_empty patch = false) as Hpatch by (by vm_compute).
  assert (ExpensePatch.userId patch = None
          ∨ ExpensePatch.userId patch = Some 2) as Hsame by (by left).
  split_and!; [exact Hauth | exact Huser | exact Hid | exact Hsome |
               exact Howner | exact Hpatch | exact Hsame | reflexivity |].
  destruct (X3_owner_updates_expense sample_db session 2 1 expense patch
              Hauth Huser Hid Hsome Howner Hpatch Hsame)
    as (db' & Hrun & Hstored & _).
  exists db'. split; [exact Hrun | exact Hstored].
Defined.

(** X4. PUT /api/expenses/:id lets the owner give the record away: when
    the body names another user as [userId], the request answers 200,
    after which the former owner is refused with 403 on that record and a
    DELETE by the user named in the body answers 204. *)
Theorem X4_put_changes_the_owner (db : Db) (session session' : Session)
    (userId newOwner id : Z) (expense : Expense.t) (patch : ExpensePatch.t) :
  isAuthenticated session = true → user session = Some userId → userId ≠ 0 →
  expenses db !! id = Some expense → Expense.userId expense = userId →
  ExpensePatch.userId patch = Some newOwner → newOwner ≠ userId →
  isAuthenticated session' = true → user session' = Some newOwner →
  newOwner ≠ 0 →
  ∃ db' updated,
    (run DatabaseStorage.storage (Routes.putExpense session id patch) db).1
    = (db', mkResponse 200 (ExpenseJson (Some updated))) ∧
    Expense.userId updated = newOwner ∧
    run DatabaseStorage.storage (Routes.putExpense session id patch) db'
    = (db', mkResponse 403 (Message "Not authorized to update this expense"),
       [existT _ (GetExpenseById id)]) ∧
    run DatabaseStorage.storage (Routes.deleteExpense session id) db'
    = (db', mkResponse 403 (Message "Not authorized to delete this expense"),
       [existT _ (GetExpenseById id)]) ∧
    (run DatabaseStorage.storage (Routes.deleteExpense session' id) db').1.2
    = mkResponse 204 Empty.
Proof.
  intros Hauth Huser Hid Hsome Howner Hpatch Hnew Hauth' Huser' Hid'.
  set (updated := ExpensePatch.apply patch expense).
  set (db' := mkDb (<[id := updated]> (expenses db)) (goals db)
                (expenses_id_seq db) (goals_id_seq db)).
  assert (ExpensePatch.is_empty patch = false) as Hnonempty.
  { apply bool_decide_eq_false_2. intros [Hnone _]. congruence. }
  assert (expenses db' !! id = Some updated) as Hstored
    by apply lookup_insert_eq.
  assert (Expense.userId updated = newOwner) as Howner'.
  { subst updated. destruct patch; csimpl in *. by subst. }
  exists db', updated. split_and!.
  - by rewrite (putExpense_owner _ _ userId Hauth Huser Hid id patch db db db'
                  expense (Ok (Some updated)) (getExpenseById_found _ _ _ Hsome)
                  Howner (updateExpense_found _ _ _ _ Hsome Hnonempty)).
  - done.
  - eapply putExpense_foreign; [done.. | by apply getExpenseById_found | congruence].
  - eapply deleteExpense_foreign; [done.. | by apply getExpenseById_found | congruence].
  - by rewrite (deleteExpense_owner _ _ newOwner Hauth' Huser' Hid' id db' db' _
                  updated (Ok true) (getExpenseById_found _ _ _ Hstored)
                  Howner' (deleteExpense_found _ _ _ Hstored)).
Qed.

Lemma X4_put_changes_the_owner_witness :
  let session := mkSession true (Some 2) in
  let session' := mkSession true (Some 3) in
  let expense := Expense.mk 1 2 (Qc_of_Z 10) "Food" None None
                   (JsDate.make 2024 2 15) in
  let patch := ExpensePatch.mk (Some 3) None None None None None in
  isAuthenticated session = true ∧ user session = Some 2 ∧ 2 ≠ 0 ∧
  expenses sample_db !! 1 = Some expense ∧ Expense.userId expense = 2 ∧
  ExpensePatch.userId patch = Some 3 ∧ 3 ≠ 2 ∧
  isAuthenticated session' = true ∧ user session' = Some 3 ∧ 3 ≠ 0 ∧
  ∃ db' updated,
    (run DatabaseStorage.storage (Routes.putExpense session 1 patch) sample_db).1
    = (db', mkResponse 200 (ExpenseJson (Some updated))) ∧
    run DatabaseStorage.storage (Routes.deleteExpense session 1) db'
    = (db', mkResponse 403 (Message "Not authorized to delete this expense"),
       [existT _ (GetExpenseById 1)]).
Proof.
  intros session session' expense patch.
  assert (isAuthenticated session = true) as Hauth by reflexivity.
  assert (user session = Some 2) as Huser by reflexivity.
  assert (2 ≠ 0) as Hid by lia.
  assert (expenses sample_db !! 1 = Some expense) as Hsome by (by vm_compute).
  assert (Expense.userId expense = 2) as Howner by reflexivity.
  assert (ExpensePatch.userId patch = Some 3) as Hpatch by reflexivity.
  assert (3 ≠ 2) as Hnew by lia.
  assert (isAuthenticated session' = true) as Hauth' by reflexivity.
  assert (user session' = Some 3) as Huser' by reflexivity.
  assert (3 ≠ 0) as Hid' by lia.
  split_and!; [exact Hauth | exact Huser | exact Hid | exact Hsome |
               exact Howner | exact Hpatch | exact Hnew | exact Hauth' |
               exact Huser' | exact Hid' |].
  destruct (X4_put_changes_the_owner sample_db session session' 2 3 1 expense
              patch Hauth Huser Hid Hsome Howner Hpatch Hnew Hauth' Huser' Hid')
    as (db' & updated & Hrun & _ & _ & Hdelete & _).
  exists db', updated. split; [exact Hrun | exact Hdelete].
Defined.

(** X5. The goal routes serve the owner of a goal: PUT /api/goals/:id
    with a body that sets at least one of the columns [userId], name,
    target amount, current amount, target date and status, whose
    [userId], when it is set, is the owner, and that names neither the
    primary key nor [createdAt], answers 200 with the goal as changed by
    the body and stores it; DELETE /api/goals/:id answers 204 and removes
    the goal, and made again it answers 404; either way every other goal
    and every expense is as it was. *)
Theorem X5_owner_changes_goal (db : Db) (session : Session)
    (userId id : Z) (goal : Goal.t) (patch : GoalPatch.t) :
  isAuthenticated session = true → user session = Some userId → userId ≠ 0 →
  goals db !! id = Some goal → Goal.userId goal = userId →
  GoalPatch.is_empty patch = false →
  GoalPatch.userId patch = None ∨ GoalPatch.userId patch = Some userId →
  let updated := GoalPatch.apply patch goal in
  (∃ db',
     run DatabaseStorage.storage (Routes.putGoal session id patch) db
     = (db', mkResponse 200 (GoalJson (Some updated)),
        [existT _ (GetGoalById id); existT _ (UpdateGoal id patch)]) ∧
     goals db' !! id = Some updated ∧
     Goal.userId updated = userId ∧
     (∀ other, other ≠ id → goals db' !! other = goals db !! other) ∧
     expenses db' = expenses db) ∧
  (∃ db',
     run DatabaseStorage.storage (Routes.deleteGoal session id) db
     = (db', mkResponse 204 Empty,
        [existT _ (GetGoalById id); existT _ (DeleteGoal id)]) ∧
     goals db' !! id = None ∧
     (∀ other, other ≠ id → goals db' !! other = goals db !! other) ∧
     expenses db' = expenses db ∧
     run DatabaseStorage.storage (Routes.deleteGoal session id) db'
     = (db', mkResponse 404 (Message "Goal not found"),
        [existT _ (GetGoalById id)])).
Proof.
  intros Hauth Huser Hid Hsome Howner Hpatch Hsame updated. split.
  - exists (mkDb (expenses db) (<[id := updated]> (goals db))
              (expenses_id_seq db) (goals_id_seq db)).
    split_and!.
    + by rewrite (putGoal_owner _ _ userId Hauth Huser Hid id patch db db _
                    goal (Ok (Some updated)) (getGoalById_found _ _ _ Hsome)
                    Howner (updateGoal_found _ _ _ _ Hsome Hpatch)).
    + apply lookup_insert_eq.
    + subst updated. destruct patch as [owner ? ? ? ? ?]; csimpl in *.
      destruct Hsame as [-> | ->]; done.
    + intros other Hother. by apply lookup_insert_ne.
    + done.
  - exists (mkDb (expenses db) (delete id (goals db))
              (expenses_id_seq db) (goals_id_seq db)).
    split_and!.
    + by rewrite (deleteGoal_owner _ _ userId Hauth Huser Hid id db db _
                    goal (Ok true) (getGoalById_found _ _ _ Hsome)
                    Howner (deleteGoal_found _ _ _ Hsome)).
    + apply lookup_delete_eq.
    + intros other Hother. by apply lookup_delete_ne.
    + done.
    + eapply deleteGoal_missing; [done..|].
      csimpl. unfold DatabaseStorage.getGoalById. csimpl.
      by rewrite lookup_delete_eq.
Qed.

Lemma X5_owner_changes_goal_witness :
  let session := mkSession true (Some 2) in
  let goal := Goal.mk 1 2 "Holiday" (Qc_of_Z 1000) (Qc_of_Z 200) None
                "in_progress" in
  let patch := GoalPatch.mk None None None (Some (Qc_of_Z 1000)) None
                 (Some "completed") in
  let updated := Goal.mk 1 2 "Holiday" (Qc_of_Z 1000) (Qc_of_Z 1000) None
                   "completed" in
  isAuthenticated session = true ∧ user session = Some 2 ∧ 2 ≠ 0 ∧
  goals sample_db !! 1 = Some goal ∧ Goal.userId goal = 2 ∧
  GoalPatch.is_empty patch = false ∧
  (GoalPatch.userId patch = None ∨ GoalPatch.userId patch = Some 2) ∧
  GoalPatch.apply patch goal = updated ∧
  ∃ db',
    run DatabaseStorage.storage (Routes.putGoal session 1 patch) sample_db
    = (db', mkResponse 200 (GoalJson (Some (GoalPatch.apply patch goal))),
       [existT _ (GetGoalById 1); existT _ (UpdateGoal 1 patch)]) ∧
    goals db' !! 1 = Some (GoalPatch.apply patch goal).
Proof.
  intros session goal patch updated.
  assert (isAuthenticated session = true) as Hauth by reflexivity.
  assert (user session = Some 2) as Huser by reflexivity.
  assert (2 ≠ 0) as Hid by lia.
  assert (goals sample_db !! 1 = Some goal) as Hsome by (by vm_compute).
  assert (Goal.userId goal = 2) as Howner by reflexivity.
  assert (GoalPatch.is_empty patch = false) as Hpatch by (by vm_compute).
  assert (GoalPatch.userId patch = None ∨ GoalPatch.userId patch = Some 2)
    as Hsame by (by left).
  split_and!; [exact Hauth | exact Huser | exact Hid | exact Hsome |
               exact Howner | exact Hpatch | exact Hsame | reflexivity |].
  destruct (X5_owner_changes_goal sample_db session 2 1 goal patch
              Hauth Huser Hid Hsome Howner Hpatch Hsame)
    as ((db' & Hrun & Hstored & _) & _).
  exists db'. split; [exact Hrun | exact Hstored].
Defined.

(** ** Routes: failures of the storage *)

(** X6. Whatever the storage, a rejected storage call ends the request
    with 500 and the message of the route, and no further call is made:
    the creation of POST /api/expenses, the load that opens the PUT and
    DELETE routes, and the write the owner's request goes on to. A
    deletion that reports no deleted row is answered 500 as well. *)
Theorem X6_storage_failure (storage : Storage) (session : Session)
    (userId id : Z) (body : ExpenseBody.t) (expensePatch : ExpensePatch.t)
    (goalPatch : GoalPatch.t) (db db1 : Db) :
  isAuthenticated session = true → user session = Some userId → userId ≠ 0 →
  (∀ validated,
     insertExpenseSchema (Routes.requestData userId body) = Some validated →
     storage _ (CreateExpense validated) db = (db1, Throw) →
     run storage (Routes.postExpense session body) db
     = (db1, mkResponse 500 (Message "Failed to create expense"),
        [existT _ (CreateExpense validated)])) ∧
  (storage _ (GetExpenseById id) db = (db1, Throw) →
   run storage (Routes.putExpense session id expensePatch) db
   = (db1, mkResponse 500 (Message "Failed to update expense"),
      [existT _ (GetExpenseById id)]) ∧
   run storage (Routes.deleteExpense session id) db
   = (db1, mkResponse 500 (Message "Failed to delete expense"),
      [existT _ (GetExpenseById id)])) ∧
  (storage _ (GetGoalById id) db = (db1, Throw) →
   run storage (Routes.putGoal session id goalPatch) db
   = (db1, mkResponse 500 (Message "Failed to update goal"),
      [existT _ (GetGoalById id)]) ∧
   run storage (Routes.deleteGoal session id) db
   = (db1, mkResponse 500 (Message "Failed to delete goal"),
      [existT _ (GetGoalById id)])) ∧
  (∀ expense db2,
     storage _ (GetExpenseById id) db = (db1, Ok (Some expense)) →
     Expense.userId expense = userId →
     (storage _ (UpdateExpense id expensePatch) db1 = (db2, Throw) →
      run storage (Routes.putExpense session id expensePatch) db
      = (db2, mkResponse 500 (Message "Failed to update expense"),
         [existT _ (GetExpenseById id);
          existT _ (UpdateExpense id expensePatch)])) ∧
     (storage _ (DeleteExpense id) db1 = (db2, Throw) ∨
      storage _ (DeleteExpense id) db1 = (db2, Ok false) →
      run storage (Routes.deleteExpense session id) db
      = (db2, mkResponse 500 (Message "Failed to delete expense"),
         [existT _ (GetExpenseById id); existT _ (DeleteExpense id)]))) ∧
  (∀ goal db2,
     storage _ (GetGoalById id) db = (db1, Ok (Some goal)) →
     Goal.userId goal = userId →
     (storage _ (UpdateGoal id goalPatch) db1 = (db2, Throw) →
      run storage (Routes.putGoal session id goalPatch) db
      = (db2, mkResponse 500 (Message "Failed to update goal"),
         [existT _ (GetGoalById id); existT _ (UpdateGoal id goalPatch)])) ∧
     (storage _ (DeleteGoal id) db1 = (db2, Throw) ∨
      storage _ (DeleteGoal id) db1 = (db2, Ok false) →
      run storage (Routes.deleteGoal session id) db
      = (db2, mkResponse 500 (Message "Failed to delete goal"),
         [existT _ (GetGoalById id); existT _ (DeleteGoal id)]))).
Proof.
  intros Hauth Huser Hid. split_and!.
  - intros validated Hvalid Hcreate. unfold Routes.postExpense.
    rewrite (authenticated_route _ userId) by done.
    by rewrite Hvalid, run_Await, Hcreate.
  - intros Hget. unfold Routes.putExpense, Routes.deleteExpense.
    rewrite !(authenticated_route _ userId) by done.
    by rewrite !run_Await, Hget.
  - intros Hget. unfold Routes.putGoal, Routes.deleteGoal.
    rewrite !(authenticated_route _ userId) by done.
    by rewrite !run_Await, Hget.
  - intros expense db2 Hget Howner. split.
    + intros Hupdate.
      by rewrite (putExpense_owner _ _ userId Hauth Huser Hid id expensePatch
                    db db1 db2 expense Throw Hget Howner Hupdate).
    + intros [Hdelete | Hdelete].
      * by rewrite (deleteExpense_owner _ _ userId Hauth Huser Hid id
                      db db1 db2 expense Throw Hget Howner Hdelete).
      * by rewrite (deleteExpense_owner _ _ userId Hauth Huser Hid id
                      db db1 db2 expense (Ok false) Hget Howner Hdelete).
  - intros goal db2 Hget Howner. split.
    + intros Hupdate.
      by rewrite (putGoal_owner _ _ userId Hauth Huser Hid id goalPatch
                    db db1 db2 goal Throw Hget Howner Hupdate).
    + intros [Hdelete | Hdelete].
      * by rewrite (deleteGoal_owner _ _ userId Hauth Huser Hid id
                      db db1 db2 goal Throw Hget Howner Hdelete).
      * by rewrite (deleteGoal_owner _ _ userId Hauth Huser Hid id
                      db db1 db2 goal (Ok false) Hget Howner Hdelete).
Qed.

Lemma X6_storage_failure_witness :
  let session := mkSession true (Some 2) in
  isAuthenticated session = true ∧ user session = Some 2 ∧ 2 ≠ 0 ∧
  unavailable _ (GetExpenseById 1) sample_db = (sample_db, Throw) ∧
  run unavailable (Routes.deleteExpense session 1) sample_db
  = (sample_db, mkResponse 500 (Message "Failed to delete expense"),
     [existT _ (GetExpenseById 1)]).
Proof.
  intros session.
  assert (isAuthenticated session = true) as Hauth by reflexivity.
  assert (user session = Some 2) as Huser by reflexivity.
  assert (2 ≠ 0) as Hid by lia.
  assert (unavailable _ (GetExpenseById 1) sample_db = (sample_db, Throw))
    as Hget by reflexivity.
  split_and!; [exact Hauth | exact Huser | exact Hid | exact Hget |].
  destruct (X6_storage_failure unavailable session 2 1
              (ExpenseBody.mk JNull JNull JNull JNull JNull)
              (ExpensePatch.mk None None None None None None)
              (GoalPatch.mk None None None None None None)
              sample_db sample_db Hauth Huser Hid) as (_ & Hload & _).
  exact (proj2 (Hload Hget)).
Defined.

(** ** Queries of the storage *)

Lemma rows_elem_of {A} (table : gmap Z A) row :
  row ∈ DatabaseQueries.rows table ↔ ∃ id, table !! id = Some row.
Proof.
  unfold DatabaseQueries.rows. rewrite list_elem_of_fmap. split.
  - intros ([id row'] & -> & Hin). exists id. by apply elem_of_map_to_list.
  - intros (id & Hsome). exists (id, row). split; [done|].
    by apply elem_of_map_to_list.
Qed.

Lemma rows_insert {A} (table : gmap Z A) id row :
  table !! id = None →
  DatabaseQueries.rows (<[id := row]> table) ≡ₚ row :: DatabaseQueries.rows table.
Proof.
  intros Hfresh. unfold DatabaseQueries.rows.
  by rewrite map_to_list_insert.
Qed.

Lemma getExpenses_elem_of userId db expense :
  expense ∈ DatabaseQueries.getExpenses userId db
  ↔ (∃ id, expenses db !! id = Some expense) ∧ Expense.userId expense = userId.
Proof.
  unfold DatabaseQueries.getExpenses.
  by rewrite List_filter_elem_of, rows_elem_of, bool_decide_eq_true.
Qed.

Lemma getGoals_elem_of userId db goal :
  goal ∈ DatabaseQueries.getGoals userId db
  ↔ (∃ id, goals db !! id = Some goal) ∧ Goal.userId goal = userId.
Proof.
  unfold DatabaseQueries.getGoals.
  by rewrite List_filter_elem_of, rows_elem_of, bool_decide_eq_true.
Qed.

(** X7. The queries of the storage serve one user: [getExpenses] and
    [getGoals] return exactly the stored records of that user, and the
    queries by category and by date range return, up to the order of the
    rows, the records of [getExpenses] that have the category, and those
    dated from the start day to the end day, both included. *)
Theorem X7_queries_serve_one_user (db : Db) (userId : Z) (category : string)
    (startDate endDate : JsDate.Date) :
  (∀ expense, expense ∈ DatabaseQueries.getExpenses userId db
     ↔ (∃ id, expenses db !! id = Some expense) ∧
       Expense.userId expense = userId) ∧
  (∀ goal, goal ∈ DatabaseQueries.getGoals userId db
     ↔ (∃ id, goals db !! id = Some goal) ∧ Goal.userId goal = userId) ∧
  DatabaseQueries.getExpensesByCategory userId category db
  ≡ₚ List.filter (λ expense, bool_decide (Expense.category expense = category))
       (DatabaseQueries.getExpenses userId db) ∧
  DatabaseQueries.getExpensesByDateRange userId startDate endDate db
  ≡ₚ List.filter (λ expense, bool_decide (startDate ≤ Expense.date expense ≤ endDate))
       (DatabaseQueries.getExpenses userId db).
Proof.
  split_and!.
  - intros expense. apply getExpenses_elem_of.
  - intros goal. apply getGoals_elem_of.
  - unfold DatabaseQueries.getExpensesByCategory, DatabaseQueries.getExpenses.
    by rewrite List_filter_filter.
  - unfold DatabaseQueries.getExpensesByDateRange, DatabaseQueries.getExpenses.
    rewrite List_filter_filter.
    erewrite filter_ext; [done|]. intros expense. csimpl.
    rewrite <- andb_assoc. f_equal.
    apply eq_true_iff_eq. rewrite andb_true_iff, !bool_decide_eq_true. done.
Qed.

(** X8. The GET routes over the database never list a record of another
    user: the answer is 401 for a session without a user, and otherwise
    the list of the storage query for the user of the session, each of
    whose records belongs to that user. *)
Theorem X8_listings_are_the_users_own (db : Db) (session : Session)
    (category : string) :
  let expensesRoute :=
    ReadRoutes.getExpenses (λ userId db, Ok (DatabaseQueries.getExpenses userId db)) in
  let categoryRoute :=
    ReadRoutes.getExpensesByCategory
      (λ userId category db, Ok (DatabaseQueries.getExpensesByCategory userId category db)) in
  let goalsRoute :=
    ReadRoutes.getGoals (λ userId db, Ok (DatabaseQueries.getGoals userId db)) in
  (no_user session ∧
   ∃ message, (message = "Unauthorized" ∨ message = "User not found") ∧
     expensesRoute session db = Refused 401 message ∧
     categoryRoute session category db = Refused 401 message ∧
     goalsRoute session db = Refused 401 message) ∨
  (∃ userId, isAuthenticated session = true ∧ user session = Some userId ∧
     userId ≠ 0 ∧
     expensesRoute session db = Listed (DatabaseQueries.getExpenses userId db) ∧
     categoryRoute session category db
     = Listed (DatabaseQueries.getExpensesByCategory userId category db) ∧
     goalsRoute session db = Listed (DatabaseQueries.getGoals userId db) ∧
     (∀ expense, expense ∈ DatabaseQueries.getExpenses userId db →
        Expense.userId expense = userId) ∧
     (∀ expense,
        expense ∈ DatabaseQueries.getExpensesByCategory userId category db →
        Expense.userId expense = userId ∧ Expense.category expense = category) ∧
     (∀ goal, goal ∈ DatabaseQueries.getGoals userId db →
        Goal.userId goal = userId)).
Proof.
  intros expensesRoute categoryRoute goalsRoute.
  subst expensesRoute categoryRoute goalsRoute.
  unfold ReadRoutes.getExpenses, ReadRoutes.getExpensesByCategory,
    ReadRoutes.getGoals, ReadRoutes.authenticated, no_user.
  destruct (isAuthenticated session) eqn:Hauth; [|left; eauto 10].
  destruct (user session) as [userId|] eqn:Huser; [|left; eauto 10].
  case_bool_decide as Hid; [subst; left; eauto 10|].
  right. exists userId. split_and!; try done.
  - intros expense Hin. by apply getExpenses_elem_of in Hin as [_ ?].
  - intros expense Hin. unfold DatabaseQueries.getExpensesByCategory in Hin.
    apply List_filter_elem_of in Hin as [_ Hin].
    apply andb_true_iff in Hin as [Huserid Hcat].
    by apply bool_decide_eq_true in Huserid, Hcat.
  - intros goal Hin. by apply getGoals_elem_of in Hin as [_ ?].
Qed.

(** ** Creation followed by a listing *)

Lemma insertExpenseSchema_userId data validated :
  insertExpenseSchema data = Some validated →
  InsertExpense.userId validated = ExpenseInput.userId data.
Proof.
  unfold insertExpenseSchema. intros Hparse.
  destruct (Zod.string_ (ExpenseInput.category data)) as [c|]; [|done].
  destruct (Zod.optional_string (ExpenseInput.description data)) as [d|]; [|done].
  destruct (Zod.optional_string (ExpenseInput.note data)) as [n|]; [|done].
  destruct (Zod.string_ (ExpenseInput.date data)) as [t|]; [|done].
  csimpl in Hparse.
  destruct (match Zod.number_min one_cent (ExpenseInput.amount data) with
            | Some n => Some (AmountNumber n)
            | None => _ end) as [a|]; [|done].
  by injection Hparse as <-.
Qed.

(** X9. When POST /api/expenses answers 201, the expense created belongs
    to the user of the session and carries the next value of the id
    sequence. With no row stored under that id before, the listing of
    that user is the former listing with the new expense added, the
    listing of every other user is as it was, up to the order of the
    rows, and the goals are untouched. *)
Theorem X9_created_expense_is_listed (db : Db) (session : Session)
    (userId : Z) (body : ExpenseBody.t) (expense : Expense.t) :
  isAuthenticated session = true → user session = Some userId → userId ≠ 0 →
  expenses db !! (expenses_id_seq db + 1) = None →
  let outcome := run DatabaseStorage.storage (Routes.postExpense session body) db in
  outcome.1.2 = mkResponse 201 (ExpenseJson (Some expense)) →
  Expense.userId expense = userId ∧
  Expense.id expense = expenses_id_seq db + 1 ∧
  expenses_id_seq outcome.1.1 = Expense.id expense ∧
  DatabaseQueries.getExpenses userId outcome.1.1
  ≡ₚ expense :: DatabaseQueries.getExpenses userId db ∧
  (∀ other, other ≠ userId →
     DatabaseQueries.getExpenses other outcome.1.1
     ≡ₚ DatabaseQueries.getExpenses other db) ∧
  goals outcome.1.1 = goals db.
Proof.
  intros Hauth Huser Hid Hfresh outcome. subst outcome.
  unfold Routes.postExpense. rewrite (authenticated_route _ userId) by done.
  destruct (insertExpenseSchema (Routes.requestData userId body))
    as [validated|] eqn:Hparse; [|done].
  pose proof (insertExpenseSchema_userId _ _ Hparse) as Hvalidated.
  csimpl in Hvalidated.
  rewrite run_Await. csimpl. unfold DatabaseStorage.createExpense.
  destruct (DatabaseStorage.numeric_in _) as [amount|]; [|done].
  destruct (DatabaseStorage.date_in _) as [date|]; [|done].
  csimpl. intros [= <-]. csimpl. split_and!; try done.
  - unfold DatabaseQueries.getExpenses. csimpl.
    rewrite (List_filter_perm _ _ _ (rows_insert _ _ _ Hfresh)). csimpl.
    by rewrite Hvalidated, bool_decide_eq_true_2.
  - intros other Hother. unfold DatabaseQueries.getExpenses. csimpl.
    rewrite (List_filter_perm _ _ _ (rows_insert _ _ _ Hfresh)). csimpl.
    by rewrite Hvalidated, bool_decide_eq_false_2.
Qed.

Lemma X9_created_expense_is_listed_witness :
  let session := mkSession true (Some 2) in
  let body := ExpenseBody.mk (JString "Transport") JUndefined (JString "bus")
                (JString "2024-03-16") (JString "2.50") in
  let expense := Expense.mk 2 2 (Qc_of_Z 5 / Qc_of_Z 2)%Qc "Transport" None
                   (Some "bus") (JsDate.make 2024 2 16) in
  isAuthenticated session = true ∧ user session = Some 2 ∧ 2 ≠ 0 ∧
  expenses sample_db !! (expenses_id_seq sample_db + 1) = None ∧
  (run DatabaseStorage.storage (Routes.postExpense session body) sample_db).1.2
  = mkResponse 201 (ExpenseJson (Some expense)) ∧
  DatabaseQueries.getExpenses 2
    (run DatabaseStorage.storage (Routes.postExpense session body) sample_db).1.1
  ≡ₚ expense :: DatabaseQueries.getExpenses 2 sample_db.
Proof.
  intros session body expense.
  assert (isAuthenticated session = true) as Hauth by reflexivity.
  assert (user session = Some 2) as Huser by reflexivity.
  assert (2 ≠ 0) as Hid by lia.
  assert (expenses sample_db !! (expenses_id_seq sample_db + 1) = None)
    as Hfresh by (by vm_compute).
  assert ((run DatabaseStorage.storage (Routes.postExpense session body)
             sample_db).1.2
          = mkResponse 201 (ExpenseJson (Some expense))) as Hcreated
    by (by apply (bool_decide_unpack _); vm_compute).
  split_and!; [exact Hauth | exact Huser | exact Hid | exact Hfresh |
               exact Hcreated |].
  destruct (X9_created_expense_is_listed sample_db session 2 body expense
              Hauth Huser Hid Hfresh Hcreated) as (_ & _ & _ & Hlisted & _).
  exact Hlisted.
Defined.

(** ** The two groupings by category *)

Lemma addToCategory_agree o expense :
  SummaryCards.addToCategory o expense = InsightsCharts.addToCategory o expense.
Proof.
  unfold SummaryCards.addToCategory, InsightsCharts.addToCategory.
  unfold JsObject.falsy, JsObject.read.
  set (k := Expense.category expense). set (x := Expense.amount expense).
  clearbody k x. destruct (bool_decide (k = "__proto__")); [done|].
  induction o as [|[k' v] o IH]; csimpl.
  - rewrite bool_decide_eq_true_2 by done. done.
  - case_bool_decide as Hk; csimpl.
    + case_bool_decide as Hv; csimpl; rewrite bool_decide_eq_true_2 by done.
      * subst v. done.
      * done.
    + destruct (JsObject.get o k) as [w|] eqn:Hget; csimpl in *.
      * case_bool_decide as Hw; csimpl; rewrite bool_decide_eq_false_2 by done;
          by rewrite IH.
      * rewrite bool_decide_eq_false_2 by done. by rewrite IH.
Qed.

Lemma categorySpending_groupByCategory expenses :
  foldl SummaryCards.addToCategory [] expenses
  = InsightsCharts.groupByCategory expenses.
Proof.
  unfold InsightsCharts.groupByCategory. generalize ([] : JsObject.t).
  induction expenses as [|expense expenses IH]; intros o; csimpl; [done|].
  by rewrite addToCategory_agree, IH.
Qed.

Lemma JsArray_sort_head l :
  head (JsArray.sort by_total l) = firstMax l.
Proof.
  induction l as [|x l IH]; csimpl; [done|].
  rewrite <- IH. fold (JsArray.sort by_total l).
  destruct (JsArray.sort by_total l) as [|y s]; csimpl; [done|].
  case_bool_decide as Hlt.
  - apply by_total_pos in Hlt. by rewrite bool_decide_eq_true_2.
  - rewrite by_total_pos in Hlt. by rewrite bool_decide_eq_false_2.
Qed.

Lemma foldl_higher_firstMax l : ∀ top,
  foldl SummaryCards.higher top l
  = match firstMax l with
    | Some best => if bool_decide (top.2 < best.2)%Qc then best else top
    | None => top
    end.
Proof.
  induction l as [|[k v] l IH]; intros top; csimpl; [done|].
  rewrite IH. destruct (firstMax l) as [best|]; csimpl; [|done].
  repeat case_bool_decide; csimpl in *; try done; exfalso; qc_lra.
Qed.

Lemma expensesOfMonth_elem_of zone expenses d expense :
  expense ∈ expensesOfMonth zone expenses d → expense ∈ expenses.
Proof.
  unfold expensesOfMonth. rewrite List_filter_elem_of. by intros [? _].
Qed.

Lemma expensesOfMonth_ordinary zone expenses d :
  (∀ expense, expense ∈ expenses →
     JsObject.ordinary (Expense.category expense) = true) →
  "__proto__" ∉ Expense.category <$> expensesOfMonth zone expenses d.
Proof.
  intros Hordinary. apply ordinary_categories.
  intros expense Hin%expensesOfMonth_elem_of. by apply Hordinary.
Qed.

Lemma SummaryCards_top zone today expenses goals :
  let summary := SummaryCards.compute zone today expenses goals in
  ∃ top,
    SummaryCards.topCategory summary = top.1 ∧
    SummaryCards.topCategoryAmount summary = top.2 ∧
    top = match head (sortedEntries (expensesOfMonth zone expenses today)) with
          | Some best => if bool_decide (0 < best.2)%Qc then best
                         else (EmptyString, 0%Qc)
          | None => (EmptyString, 0%Qc)
          end.
Proof.
  intros summary. subst summary. unfold SummaryCards.compute.
  rewrite categorySpending_groupByCategory.
  unfold sortedEntries. rewrite JsArray_sort_head.
  unfold JsObject.entries.
  rewrite foldl_higher_firstMax.
  destruct (firstMax _) as [best|]; csimpl.
  - destruct (bool_decide (0 < best.2)%Qc).
    + destruct best as [k v]. by exists (k, v).
    + by exists (EmptyString, 0%Qc).
  - by exists (EmptyString, 0%Qc).
Qed.

(** X10. The dashboard and the insights page agree on the top category
    of a month, for expenses whose categories are ordinary property names
    and whose amounts are moderate. The dashboard groups the expenses of
    the current month into the same totals as the insights page would;
    when the first total of the sorted breakdown of those expenses is
    positive, the top category and amount of the dashboard are the first
    label and total of that breakdown; when there is no total or the
    first one is not positive, the dashboard has the empty name (shown as
    "No data") and the amount 0. *)
Theorem X10_dashboard_top_category (zone : JsDate.Zone) (today : JsDate.Date)
    (expenses : list Expense.t) (goals : option (list Goal.t)) :
  (∀ expense, expense ∈ expenses →
     JsObject.ordinary (Expense.category expense) = true) →
  (∀ expense, expense ∈ expenses → moderate (Expense.amount expense)) →
  let summary := SummaryCards.compute zone today expenses goals in
  let currentMonthExpenses := expensesOfMonth zone expenses today in
  let breakdown := InsightsCharts.getCategoryData currentMonthExpenses in
  foldl SummaryCards.addToCategory [] currentMonthExpenses
  = InsightsCharts.groupByCategory currentMonthExpenses ∧
  (∀ label value,
     head (InsightsCharts.labels breakdown) = Some label →
     head (InsightsCharts.data breakdown) = Some value →
     (0 < value)%Qc →
     SummaryCards.topCategory summary = label ∧
     SummaryCards.topCategoryAmount summary = value) ∧
  (head (InsightsCharts.data breakdown) = None ∨
   (∃ value, head (InsightsCharts.data breakdown) = Some value ∧
             (value ≤ 0)%Qc) →
   SummaryCards.topCategory summary = EmptyString ∧
   SummaryCards.topCategoryAmount summary = 0%Qc ∧
   SummaryCards.shownTopCategory summary = "No data").
Proof.
  intros Hordinary _ summary currentMonthExpenses breakdown.
  split; [apply categorySpending_groupByCategory|].
  destruct (SummaryCards_top zone today expenses goals)
    as (top & Hname & Hamount & Htop).
  fold summary currentMonthExpenses in Hname, Hamount, Htop.
  subst breakdown.
  rewrite getCategoryData_labels, getCategoryData_data
    by (by apply expensesOfMonth_ordinary).
  unfold SummaryCards.shownTopCategory. rewrite Hname, Hamount, Htop.
  destruct (sortedEntries currentMonthExpenses) as [|[k v] s]; csimpl.
  - split; [done|]. by intros _.
  - split.
    + intros label value [= <-] [= <-] Hpos.
      by rewrite bool_decide_eq_true_2.
    + intros [|(value & [= <-] & Hle)]; [done|].
      rewrite bool_decide_eq_false_2; [done|].
      by apply Qcle_not_lt.
Qed.

(** ** Percentages *)

Lemma round_half_up_ge n x :
  n ≤ round_half_up x ↔ (Qc_of_Z n - 1 / 2 ≤ x)%Qc.
Proof.
  destruct (round_half_up_bounds x) as [Hle Hlt]. split.
  - intros Hn. apply Z2Qc_inj_le in Hn.
    set (p := Qc_of_Z (round_half_up x)) in *. set (q := Qc_of_Z n) in *.
    clearbody p q. qc_lra.
  - intros Hx. assert (n - 1 < round_half_up x) as Hn; [|lia].
    apply Z2Qc_inj_lt. rewrite Z2Qc_inj_sub.
    set (p := Qc_of_Z (round_half_up x)) in *. set (q := Qc_of_Z n) in *.
    clearbody p q. qc_lra.
Qed.

Lemma round_half_up_range lo hi x :
  (Qc_of_Z lo ≤ x)%Qc → (x ≤ Qc_of_Z hi)%Qc → lo ≤ round_half_up x ≤ hi.
Proof.
  intros Hlo Hhi. split.
  - apply round_half_up_ge. set (q := Qc_of_Z lo) in *. clearbody q. qc_lra.
  - assert (¬ hi + 1 ≤ round_half_up x) as Hn; [|lia].
    rewrite round_half_up_ge, Z2Qc_inj_add.
    set (q := Qc_of_Z hi) in *. clearbody q. intros Hx. qc_lra.
Qed.

Lemma share_range v t :
  (0 ≤ v)%Qc → (v ≤ t)%Qc → (0 < t)%Qc →
  (Qc_of_Z 0 ≤ v / t * Qc_of_Z 100)%Qc ∧ (v / t * Qc_of_Z 100 ≤ Qc_of_Z 100)%Qc.
Proof.
  intros Hv Hvt Ht.
  assert (0 ≤ Qc_of_Z 100)%Qc as H100 by (by vm_compute).
  assert (0 ≤ / t)%Qc as Hinv by (by apply Qclt_le_weak, Qcinv_pos).
  assert (0 ≤ v / t)%Qc as Hr by (by apply Qcmult_nonneg_nonneg).
  assert (v / t ≤ 1)%Qc as Hr1.
  { replace 1%Qc with (t / t)%Qc by (field; by apply Qclt_not_eq in Ht).
    by apply Qcmult_le_mono_nonneg_r. }
  split.
  - rewrite Z2Qc_inj_0. by apply Qcmult_nonneg_nonneg.
  - rewrite <- (Qcmult_1_l (Qc_of_Z 100)) at 2.
    by apply Qcmult_le_mono_nonneg_r.
Qed.

Lemma categorySum_range es c :
  (∀ e, e ∈ es → (0 ≤ Expense.amount e)%Qc) →
  (0 ≤ categorySum es c)%Qc ∧ (categorySum es c ≤ Qsum (Expense.amount <$> es))%Qc.
Proof.
  induction es as [|e es IH]; intros Hpos.
  - split; by vm_compute.
  - rewrite categorySum_cons, fmap_cons, Qsum_cons.
    destruct IH as [IH1 IH2]; [intros e' He'; apply Hpos; by right|].
    pose proof (Hpos e (list_elem_of_here _ _)) as He.
    set (s := categorySum es c) in *. set (t := Qsum _) in *.
    set (a := Expense.amount e) in *. clearbody s t a.
    case_decide; split; qc_lra.
Qed.

(** X11. For expenses whose categories are ordinary property names and
    whose amounts are moderate, every percentage of the category breakdown
    is an integer from 0 to 100 when the total of the breakdown is
    positive, and every percentage is NaN when that total is 0 (each
    category sum is then 0, and the quotient is 0 / 0). *)
Theorem X11_percentages_in_range (expenses : list Expense.t) :
  (∀ expense, expense ∈ expenses →
     JsObject.ordinary (Expense.category expense) = true) →
  (∀ expense, expense ∈ expenses → moderate (Expense.amount expense)) →
  let breakdown := InsightsCharts.getCategoryData expenses in
  ((0 < InsightsCharts.total breakdown)%Qc →
   ∀ p, p ∈ InsightsCharts.percentages breakdown →
        ∃ z, p = Finite (Qc_of_Z z) ∧ 0 ≤ z ≤ 100) ∧
  (InsightsCharts.total breakdown = 0%Qc →
   ∀ p, p ∈ InsightsCharts.percentages breakdown → p = NaN).
Proof.
  intros Hproto%ordinary_categories Hmoderate breakdown. subst breakdown.
  assert (∀ e, e ∈ expenses → (0 ≤ Expense.amount e)%Qc) as Hpos
    by (intros e He; by apply moderate_nonneg, Hmoderate).
  rewrite getCategoryData_percentages, getCategoryData_total,
    getCategoryData_sums by done.
  set (total := Qsum (Expense.amount <$> expenses)).
  split.
  - intros Htotal p Hp.
    apply list_elem_of_fmap in Hp as (value & -> & Hvalue).
    apply list_elem_of_fmap in Hvalue as (c & -> & _).
    destruct (categorySum_range expenses c Hpos) as [H0 Hle].
    rewrite percentage_finite by (by apply Qclt_not_eq in Htotal).
    eexists. split; [done|].
    apply round_half_up_range; by apply share_range.
  - intros Htotal p Hp.
    apply list_elem_of_fmap in Hp as (value & -> & Hvalue).
    apply list_elem_of_fmap in Hvalue as (c & -> & _).
    destruct (categorySum_range expenses c Hpos) as [H0 Hle].
    fold total in Hle. rewrite Htotal in *.
    assert (categorySum expenses c = 0%Qc) as -> by (by apply Qcle_antisym).
    reflexivity.
Qed.

Lemma X11_percentages_in_range_witness :
  (∀ expense, expense ∈ scenario →
     JsObject.ordinary (Expense.category expense) = true) ∧
  (∀ expense, expense ∈ scenario → moderate (Expense.amount expense)) ∧
  (0 < InsightsCharts.total (InsightsCharts.getCategoryData scenario))%Qc ∧
  ∀ p, p ∈ InsightsCharts.percentages (InsightsCharts.getCategoryData scenario) →
       ∃ z, p = Finite (Qc_of_Z z) ∧ 0 ≤ z ≤ 100.
Proof.
  assert (∀ expense, expense ∈ scenario → moderate (Expense.amount expense))
    as Hmoderate by (intros e He; exact (proj2 (scenario_moderate e He))).
  assert (0 < InsightsCharts.total (InsightsCharts.getCategoryData scenario))%Qc
    as Htotal by (by vm_compute).
  split_and!; [exact scenario_ordinary | exact Hmoderate | exact Htotal |].
  exact (proj1 (X11_percentages_in_range scenario scenario_ordinary Hmoderate)
           Htotal).
Defined.

Lemma SummaryCards_percentages zone today expenses goals :
  let summary := SummaryCards.compute zone today expenses goals in
  SummaryCards.topCategoryPercentage summary
  = (if bool_decide (SummaryCards.currentMonthTotal summary ≠ 0%Qc)
     then round_half_up (SummaryCards.topCategoryAmount summary
                         / SummaryCards.currentMonthTotal summary
                         * Qc_of_Z 100)%Qc
     else 0) ∧
  SummaryCards.goalsProgress summary
  = (if bool_decide (0 < SummaryCards.sumGoals Goal.targetAmount goals)%Qc
     then round_half_up (SummaryCards.sumGoals Goal.currentAmount goals
                         / SummaryCards.sumGoals Goal.targetAmount goals
                         * Qc_of_Z 100)%Qc
     else 0) ∧
  SummaryCards.monthlySavings summary
  = SummaryCards.sumGoals Goal.currentAmount goals.
Proof.
  unfold SummaryCards.compute.
  by destruct (foldl SummaryCards.higher _ _) as [c a].
Qed.

Lemma sumGoals_Qsum f goals :
  SummaryCards.sumGoals f (Some goals) = Qsum (f <$> goals).
Proof. unfold SummaryCards.sumGoals. rewrite foldl_Qcplus. ring. Qed.

Lemma Qsum_le {A} (f g : A → Qc) l :
  (∀ x, x ∈ l → (f x ≤ g x)%Qc) → (Qsum (f <$> l) ≤ Qsum (g <$> l))%Qc.
Proof.
  induction l as [|x l IH]; intros Hle; [by vm_compute|].
  rewrite !fmap_cons, !Qsum_cons. apply Qcplus_le_compat.
  - apply Hle. by left.
  - apply IH. intros y Hy. apply Hle. by right.
Qed.

(** X12. The percentages of the dashboard cards stay between 0 and 100,
    in every time zone: the share of the top category, for expenses whose
    categories are ordinary property names and whose amounts are moderate,
    and the progress of the goals when every goal has saved a moderate
    amount of at most its moderate target. Without goals, or before they
    are loaded, the savings and the progress are 0. *)
Theorem X12_dashboard_percentages (zone : JsDate.Zone) (today : JsDate.Date)
    (expenses : list Expense.t) (goals : option (list Goal.t)) :
  (∀ expense, expense ∈ expenses →
     JsObject.ordinary (Expense.category expense) = true) →
  (∀ expense, expense ∈ expenses → moderate (Expense.amount expense)) →
  (∀ goal, goal ∈ default [] goals →
     moderate (Goal.currentAmount goal) ∧ moderate (Goal.targetAmount goal) ∧
     (Goal.currentAmount goal ≤ Goal.targetAmount goal)%Qc) →
  let summary := SummaryCards.compute zone today expenses goals in
  (0 ≤ SummaryCards.topCategoryAmount summary)%Qc ∧
  0 ≤ SummaryCards.topCategoryPercentage summary ≤ 100 ∧
  0 ≤ SummaryCards.goalsProgress summary ≤ 100 ∧
  (default [] goals = [] →
   SummaryCards.goalsProgress summary = 0 ∧
   SummaryCards.monthlySavings summary = 0%Qc).
Proof.
  intros Hordinary Hmoderate Hgoals summary.
  assert (∀ e, e ∈ expenses → (0 ≤ Expense.amount e)%Qc) as Hpos
    by (intros e He; by apply moderate_nonneg, Hmoderate).
  destruct (SummaryCards_top zone today expenses goals)
    as (top & _ & Hamount & Hbest).
  destruct (SummaryCards_totals zone today expenses goals) as (Htotal & _).
  fold summary in Hamount, Htotal.
  pose proof (expensesOfMonth_ordinary zone expenses today Hordinary) as Hproto.
  set (month := expensesOfMonth zone expenses today) in *.
  assert (∀ e, e ∈ month → (0 ≤ Expense.amount e)%Qc) as Hmonth.
  { intros e He. apply Hpos. subst month.
    by apply expensesOfMonth_elem_of in He. }
  assert (0 ≤ monthTotal zone expenses today)%Qc as Htotal0.
  { unfold monthTotal. rewrite sumAmounts_Qsum. apply Qsum_nonneg.
    apply Forall_fmap, Forall_forall. exact Hmonth. }
  assert ((0 ≤ top.2)%Qc ∧ (top.2 ≤ monthTotal zone expenses today)%Qc)
    as [Htop0 Htop1].
  { destruct (sortedEntries month) as [|[k v] s] eqn:Hs; csimpl in Hbest.
    - by subst top.
    - destruct (bool_decide (0 < v)%Qc) eqn:Hv; subst top; csimpl; [|done].
      apply bool_decide_eq_true_1 in Hv.
      assert (v = categorySum month k) as Hsum.
      { apply sortedEntries_sum; [done|]. rewrite Hs. by left. }
      split; [by apply Qclt_le_weak|]. rewrite Hsum.
      unfold monthTotal. rewrite sumAmounts_Qsum.
      by apply categorySum_range. }
  clear Hbest.
  destruct (SummaryCards_percentages zone today expenses goals)
    as (Htop & Hprogress & Hsavings).
  fold summary in Htop, Hprogress, Hsavings.
  rewrite Htotal, Hamount in *.
  split; [done|]. split; [|split].
  - rewrite Htop. clear Htop Hprogress. case_bool_decide as Hne; [|lia].
    assert (0 < monthTotal zone expenses today)%Qc as Hlt.
    { destruct (Qcle_lt_or_eq _ _ Htotal0) as [?|Heq]; [done|]. by destruct Hne. }
    apply round_half_up_range; by apply share_range.
  - rewrite Hprogress. clear Htop Hprogress. case_bool_decide as Hlt; [|lia].
    destruct goals as [goals|]; [|by vm_compute in Hlt].
    rewrite !sumGoals_Qsum in *. csimpl in Hgoals.
    assert (0 ≤ Qsum (Goal.currentAmount <$> goals))%Qc as Hsaved.
    { apply Qsum_nonneg, Forall_fmap, Forall_forall.
      intros goal Hgoal. by apply moderate_nonneg, Hgoals. }
    assert (Qsum (Goal.currentAmount <$> goals)
            ≤ Qsum (Goal.targetAmount <$> goals))%Qc as Hle.
    { apply Qsum_le. intros goal Hgoal. by apply Hgoals. }
    apply round_half_up_range; by apply share_range.
  - intros Hnone. rewrite Hprogress, Hsavings.
    destruct goals as [goals|]; csimpl in Hnone; [subst goals|]; done.
Qed.

Lemma X12_dashboard_percentages_witness :
  let bogota : JsDate.Zone := λ _, -18000000 in
  let today := JsDate.make 2024 2 15 in
  let goals := Some [Goal.mk 1 1 "Holiday" (Qc_of_Z 1000) (Qc_of_Z 200) None
                       "in_progress"] in
  let summary := SummaryCards.compute bogota today scenario goals in
  (∀ expense, expense ∈ scenario →
     JsObject.ordinary (Expense.category expense) = true) ∧
  (∀ expense, expense ∈ scenario → moderate (Expense.amount expense)) ∧
  (∀ goal, goal ∈ default [] goals →
     moderate (Goal.currentAmount goal) ∧ moderate (Goal.targetAmount goal) ∧
     (Goal.currentAmount goal ≤ Goal.targetAmount goal)%Qc) ∧
  0 ≤ SummaryCards.topCategoryPercentage summary ≤ 100 ∧
  0 ≤ SummaryCards.goalsProgress summary ≤ 100 ∧
  SummaryCards.topCategoryPercentage summary = 80 ∧
  SummaryCards.goalsProgress summary = 20.
Proof.
  intros bogota today goals summary.
  assert (∀ expense, expense ∈ scenario → moderate (Expense.amount expense))
    as Hmoderate by (intros e He; exact (proj2 (scenario_moderate e He))).
  assert (∀ goal, goal ∈ default [] goals →
            moderate (Goal.currentAmount goal) ∧
            moderate (Goal.targetAmount goal) ∧
            (Goal.currentAmount goal ≤ Goal.targetAmount goal)%Qc) as Hgoals.
  { intros goal Hin. subst goals. csimpl in Hin.
    apply elem_of_cons in Hin as [-> | Hin];
      [split_and!; [right; split; by vm_compute .. | by vm_compute]|].
    inversion Hin. }
  destruct (X12_dashboard_percentages bogota today scenario goals
              scenario_ordinary Hmoderate Hgoals)
    as (_ & Htop & Hprogress & _).
  split_and!; [exact scenario_ordinary | exact Hmoderate | exact Hgoals |
               exact (proj1 Htop) | exact (proj2 Htop) |
               exact (proj1 Hprogress) | exact (proj2 Hprogress) |
               by vm_compute | by vm_compute].
Defined.

(** ** Progress of a goal *)





(** ** Sorting by a key *)

(** A comparator that is positive exactly when its second argument has
    the smaller key sorts by that key, smallest first, and keeps the
    elements of equal key in their order. *)
Section SortByRank.

Context {A : Type} (compare : A → A → Qc) (key : A → Qc).
Hypothesis compare_key : ∀ a b, (0 < compare a b)%Qc ↔ (key b < key a)%Qc.

Lemma JsArray_insert_by_key x l :
  StronglySorted (λ a b, key a ≤ key b)%Qc l →
  StronglySorted (λ a b, key a ≤ key b)%Qc (JsArray.insert compare x l).
Proof.
  induction 1 as [|y l Hs IH Hy]; csimpl.
  - repeat constructor.
  - case_bool_decide as Hlt.
    + apply compare_key in Hlt. constructor; [done|].
      rewrite JsArray_insert_perm. constructor; [|done].
      by apply Qclt_le_weak.
    + rewrite compare_key in Hlt. apply Qcnot_lt_le in Hlt.
      constructor; [by constructor|]. constructor; [done|].
      eapply Forall_impl; [done|]. intros z Hz. csimpl in *. by etrans.
Qed.

Lemma JsArray_sort_by_key l :
  StronglySorted (λ a b, key a ≤ key b)%Qc (JsArray.sort compare l).
Proof.
  induction l as [|x l IH]; csimpl; [constructor|].
  by apply JsArray_insert_by_key.
Qed.



End SortByRank.

Lemma StronglySorted_app_elim {A} (R : A → A → Prop) l1 l2 :
  StronglySorted R (l1 ++ l2) →
  StronglySorted R l1 ∧ ∀ x y, x ∈ l1 → y ∈ l2 → R x y.
Proof.
  induction l1 as [|a l1 IH]; csimpl; intros Hs.
  - split; [constructor|]. intros x y Hx. inversion Hx.
  - apply StronglySorted_inv in Hs as [Hs Ha].
    destruct (IH Hs) as [Hs1 Hcross]. split.
    + constructor; [done|]. apply Forall_app in Ha. by destruct Ha.
    + intros x y Hx Hy. apply elem_of_cons in Hx as [->|Hx]; [|by apply Hcross].
      rewrite Forall_forall in Ha. apply Ha, elem_of_app. by right.
Qed.

Lemma StronglySorted_weaken {A} (R R' : A → A → Prop) l :
  (∀ a b, R a b → R' a b) → StronglySorted R l → StronglySorted R' l.
Proof.
  intros Himpl. induction 1 as [|a l _ IH Ha]; constructor; [done|].
  eapply Forall_impl; [done|]. intros b. apply Himpl.
Qed.

Lemma compare_rank sortOption a b :
  (0 < ExpensesPage.compare sortOption a b)%Qc
  ↔ (rank sortOption b < rank sortOption a)%Qc.
Proof.
  unfold ExpensesPage.compare, rank, getTime, msPerDay.
  destruct sortOption.
  - rewrite <- Z2Qc_inj_0, <- !Z2Qc_inj_lt. lia.
  - rewrite <- Z2Qc_inj_0, <- !Z2Qc_inj_lt. lia.
  - set (x := Expense.amount a). set (y := Expense.amount b). clearbody x y.
    split; intros H; qc_lra.
  - set (x := Expense.amount a). set (y := Expense.amount b). clearbody x y.
    split; intros H; qc_lra.
Qed.

Lemma newestFirst_rank a b :
  (0 < RecentTransactions.newestFirst a b)%Qc
  ↔ (rank ExpensesPage.Newest b < rank ExpensesPage.Newest a)%Qc.
Proof. apply (compare_rank ExpensesPage.Newest). Qed.

Lemma rank_newest_le a b :
  (rank ExpensesPage.Newest a ≤ rank ExpensesPage.Newest b)%Qc
  ↔ Expense.date b ≤ Expense.date a.
Proof. unfold rank. rewrite <- Z2Qc_inj_le. lia. Qed.

(** ** Recent transactions *)

(** X15. The recent transactions of the dashboard are the five newest
    expenses: at most five (all of them when there are fewer), taken from
    the expenses, in order of date with the newest first, and no expense
    left out is dated after one that is shown. *)
Theorem X15_recent_transactions (expenses : list Expense.t) :
  let recent := RecentTransactions.recentExpenses expenses in
  length recent = (5 `min` length expenses)%nat ∧
  StronglySorted (λ a b, Expense.date b ≤ Expense.date a) recent ∧
  ∃ rest,
    recent ++ rest ≡ₚ expenses ∧
    ∀ shown hidden, shown ∈ recent → hidden ∈ rest →
      Expense.date hidden ≤ Expense.date shown.
Proof.
  intros recent. subst recent. unfold RecentTransactions.recentExpenses.
  set (sorted := JsArray.sort RecentTransactions.newestFirst expenses).
  assert (sorted ≡ₚ expenses) as Hperm by apply JsArray_sort_perm.
  pose proof (JsArray_sort_by_key _ _ newestFirst_rank expenses) as Hsorted.
  fold sorted in Hsorted. rewrite <- (take_drop 5 sorted) in Hsorted.
  apply StronglySorted_app_elim in Hsorted as [Hrecent Hcross].
  split_and!.
  - by rewrite length_take, Hperm.
  - eapply StronglySorted_weaken; [|exact Hrecent].
    intros a b. apply rank_newest_le.
  - exists (drop 5 sorted). split; [by rewrite take_drop|].
    intros shown hidden Hshown Hhidden. by apply rank_newest_le, Hcross.
Qed.

(** ** The expenses page *)

Lemma passesDate_inPeriod zone utc dateFilter today timeOfDay expense :
  0 ≤ today →
  ExpensesPage.passesDate zone utc dateFilter today timeOfDay expense = true
  ↔ inPeriod zone utc dateFilter today timeOfDay (Expense.date expense).
Proof.
  intros Htoday.
  unfold ExpensesPage.passesDate, inPeriod, ExpensesPage.daysAgo, getTime.
  destruct dateFilter.
  - by rewrite make_days_before, negb_true_iff, bool_decide_eq_false,
      Z.nlt_ge by done.
  - by rewrite make_days_before, negb_true_iff, bool_decide_eq_false,
      Z.nlt_ge by done.
  - rewrite negb_true_iff, orb_false_iff, !bool_decide_eq_false.
    split; intros [H1 H2]; split; first [by apply dec_stable | by intros ?].
  - rewrite negb_true_iff, bool_decide_eq_false.
    split; [apply dec_stable | by intros ? ?].
  - done.
Qed.

(** In a browser on UTC the moment [n] days ago lets through the days
    after the day [n] days before today, and that day at midnight. *)
Lemma firstDayShown_spec today timeOfDay n day :
  0 ≤ timeOfDay < msPerDay →
  (today - n) * msPerDay + timeOfDay ≤ day * msPerDay
  ↔ firstDayShown today timeOfDay n ≤ day.
Proof.
  unfold firstDayShown, msPerDay. intros Htime. case_bool_decide; lia.
Qed.

Lemma passesSearch_matchesSearch toLowerCase searchTerm expense :
  ExpensesPage.passesSearch toLowerCase searchTerm expense = true
  ↔ matchesSearch toLowerCase searchTerm expense.
Proof.
  unfold ExpensesPage.passesSearch, matchesSearch.
  case_bool_decide as Hterm; [by split; [left|]|].
  rewrite negb_true_iff, !andb_false_iff, !negb_false_iff. split.
  - intros [[Hd | Hc] | Hn]; right.
    + destruct (Expense.description expense) as [d|] eqn:Hdesc; [|done].
      exists d. split; [by right; left | done].
    + exists (Expense.category expense). split; [by left | done].
    + destruct (Expense.note expense) as [n|] eqn:Hnote; [|done].
      exists n. split; [by right; right | done].
  - intros [? | (text & [-> | [Hd | Hn]] & Hin)]; [done | | |].
    + left; by right.
    + left; left. by rewrite Hd.
    + right. by rewrite Hn.
Qed.

Lemma keeps_spec toLowerCase zone utc categoryFilter dateFilter searchTerm
    today timeOfDay expense :
  0 ≤ today →
  ExpensesPage.keeps toLowerCase zone utc categoryFilter dateFilter searchTerm
    today timeOfDay expense = true
  ↔ (categoryFilter = "all" ∨ Expense.category expense = categoryFilter) ∧
    inPeriod zone utc dateFilter today timeOfDay (Expense.date expense) ∧
    matchesSearch toLowerCase searchTerm expense.
Proof.
  intros Htoday. unfold ExpensesPage.keeps.
  rewrite <- passesDate_inPeriod, <- passesSearch_matchesSearch by done.
  destruct (ExpensesPage.passesDate _ _ _ _ _ _);
    destruct (ExpensesPage.passesSearch _ _ _);
    repeat case_bool_decide; csimpl;
    (split; [intros Hk; try discriminate Hk; split_and!; auto;
             by right; apply dec_stable
            | intros ([?|?] & ? & ?); done]).
Qed.

(** X16. What the expenses page shows, in any time zone, for a local day
    [today] since 1970 and a local clock [timeOfDay] milliseconds after
    midnight: exactly the expenses that have the category chosen (any
    category for "all"), pass the date filter and match the search term.
    "This month" and "this year" let through the expenses whose date the
    browser reads in the month, or the year, of today; "last 7 days" and
    "last 30 days" let through the expenses whose date opens, as a UTC
    midnight, at or after the moment 7 (30) days ago. In a browser on UTC
    these are the expenses dated after the day 7 (30) days before today,
    that day itself only at midnight, and the expenses dated in the
    future. Nothing is shown twice or invented, and with no filter set
    every expense is shown. *)
Theorem X16_expense_filters (toLowerCase : string → string)
    (zone : JsDate.Zone) (utc : Z → Z)
    (categoryFilter : string) (dateFilter : ExpensesPage.DateFilter)
    (sortOption : ExpensesPage.SortOption) (searchTerm : string)
    (today timeOfDay : Z) (expenses : list Expense.t) :
  0 ≤ today →
  let shown :=
    ExpensesPage.filteredExpenses toLowerCase zone utc categoryFilter dateFilter
      sortOption searchTerm today timeOfDay expenses in
  (∀ expense,
     expense ∈ shown
     ↔ expense ∈ expenses ∧
       (categoryFilter = "all" ∨ Expense.category expense = categoryFilter) ∧
       inPeriod zone utc dateFilter today timeOfDay (Expense.date expense) ∧
       matchesSearch toLowerCase searchTerm expense) ∧
  ((∀ t, utc t = t) → 0 ≤ timeOfDay < msPerDay →
   ∀ day,
     (inPeriod zone utc ExpensesPage.SevenDays today timeOfDay day
      ↔ firstDayShown today timeOfDay 7 ≤ day) ∧
     (inPeriod zone utc ExpensesPage.ThirtyDays today timeOfDay day
      ↔ firstDayShown today timeOfDay 30 ≤ day)) ∧
  (length shown ≤ length expenses)%nat ∧
  (categoryFilter = "all" → dateFilter = ExpensesPage.AllDates →
   searchTerm = EmptyString → shown ≡ₚ expenses).
Proof.
  intros Htoday shown. subst shown. unfold ExpensesPage.filteredExpenses.
  split_and!.
  - intros expense.
    rewrite JsArray_sort_perm, List_filter_elem_of, keeps_spec by done. done.
  - intros Hutc Htime day. unfold inPeriod. rewrite !Hutc.
    split; by apply firstDayShown_spec.
  - rewrite JsArray_sort_perm. apply filter_length_le.
  - intros -> -> ->. rewrite JsArray_sort_perm.
    induction expenses as [|expense expenses IH]; csimpl; [done|].
    by rewrite IH.
Qed.

Lemma X16_expense_filters_witness :
  let bogota : JsDate.Zone := λ _, -18000000 in
  let utc := λ t, t + 18000000 in
  let today := JsDate.make 2024 3 1 in
  let expenses :=
    [Expense.mk 1 1 (Qc_of_Z 10) "Food" None None (JsDate.make 2024 3 1);
     Expense.mk 2 1 (Qc_of_Z 20) "Food" None None (JsDate.make 2024 3 2)] in
  let shown :=
    ExpensesPage.filteredExpenses asciiLower bogota utc "all"
      ExpensesPage.ThisMonth ExpensesPage.Newest EmptyString today 43200000
      expenses in
  0 ≤ today ∧
  (∀ expense,
     expense ∈ shown
     ↔ expense ∈ expenses ∧
       ("all" = "all" ∨ Expense.category expense = "all") ∧
       inPeriod bogota utc ExpensesPage.ThisMonth today 43200000
         (Expense.date expense) ∧
       matchesSearch asciiLower EmptyString expense) ∧
  shown = [Expense.mk 2 1 (Qc_of_Z 20) "Food" None None (JsDate.make 2024 3 2)].
Proof.
  intros bogota utc today expenses shown.
  assert (0 ≤ today) as Htoday by (by vm_compute).
  split_and!; [exact Htoday | | by apply (bool_decide_unpack _); vm_compute].
  exact (proj1 (X16_expense_filters asciiLower bogota utc "all"
                  ExpensesPage.ThisMonth ExpensesPage.Newest EmptyString today
                  43200000 expenses Htoday)).
Defined.


(** ** The time filter of the insights page *)

(** X18. The time filters of the insights page nest, in every time
    zone: for a day [today] since 1970, an expense shown under "1 month"
    is shown under "3 months", one shown under "3 months" is shown under
    "6 months", one shown under "6 months" is shown under "1 year"; every
    filter shows expenses of the list only, and "all time" shows the list
    as it is. *)
Theorem X18_time_filters_nest (zone : JsDate.Zone) (today : JsDate.Date)
    (expenses : list Expense.t) :
  0 ≤ today →
  let shown timeFilter :=
    InsightsCharts.filteredExpenses zone timeFilter today expenses in
  shown InsightsCharts.AllTime = expenses ∧
  (∀ timeFilter expense, expense ∈ shown timeFilter → expense ∈ expenses) ∧
  (∀ expense, expense ∈ shown InsightsCharts.OneMonth →
              expense ∈ shown InsightsCharts.ThreeMonths) ∧
  (∀ expense, expense ∈ shown InsightsCharts.ThreeMonths →
              expense ∈ shown InsightsCharts.SixMonths) ∧
  (∀ expense, expense ∈ shown InsightsCharts.SixMonths →
              expense ∈ shown InsightsCharts.OneYear).
Proof.
  intros Htoday shown. subst shown. csimpl.
  unfold InsightsCharts.filteredExpenses.
  pose proof (getFullYear_epoch today Htoday) as Hyear.
  set (year := JsDate.getFullYear today) in *.
  set (month := JsDate.getMonth today). set (day := JsDate.getDate today).
  split_and!.
  - induction expenses as [|expense expenses IH]; csimpl; [done|].
    by rewrite IH.
  - intros timeFilter expense Hin. by apply List_filter_elem_of in Hin as [? _].
  - intros expense. rewrite !List_filter_elem_of, !bool_decide_eq_true.
    intros [Hin Hle]. split; [done|]. etrans; [|exact Hle].
    apply make_mono. lia.
  - intros expense. rewrite !List_filter_elem_of, !bool_decide_eq_true.
    intros [Hin Hle]. split; [done|]. etrans; [|exact Hle].
    apply make_mono. lia.
  - intros expense. rewrite !List_filter_elem_of, !bool_decide_eq_true.
    intros [Hin Hle]. split; [done|]. etrans; [|exact Hle].
    rewrite make_year_before by lia. apply make_mono. lia.
Qed.

Lemma X18_time_filters_nest_witness :
  let today := JsDate.make 2024 2 31 in
  0 ≤ today ∧
  ∀ expense,
    expense ∈ InsightsCharts.filteredExpenses JsDate.UTC InsightsCharts.OneMonth
                today scenario →
    expense ∈ InsightsCharts.filteredExpenses JsDate.UTC
                InsightsCharts.ThreeMonths today scenario.
Proof.
  intros today.
  assert (0 ≤ today) as Htoday by (by vm_compute).
  split; [exact Htoday|].
  destruct (X18_time_filters_nest JsDate.UTC today scenario Htoday)
    as (_ & _ & Hnest & _).
  exact Hnest.
Defined.

(** ** The monthly trend *)

Lemma expensesOfMonth_monthNumber zone expenses d :
  expensesOfMonth zone expenses d
  = List.filter (λ expense,
      bool_decide (monthNumber (JsDate.localDay zone (Expense.date expense))
                   = monthNumber d)) expenses.
Proof.
  unfold expensesOfMonth. apply filter_ext. intros expense.
  apply eq_true_iff_eq. cbn zeta.
  by rewrite andb_true_iff, !bool_decide_eq_true, same_month.
Qed.

Lemma filter_disjoint_perm {A} (p q : A → bool) l :
  (∀ x, p x = true → q x = true → False) →
  List.filter (λ x, p x || q x) l ≡ₚ List.filter p l ++ List.filter q l.
Proof.
  intros Hdisjoint. induction l as [|x l IH]; csimpl; [done|].
  destruct (p x) eqn:Hp, (q x) eqn:Hq; csimpl.
  - destruct (Hdisjoint x Hp Hq).
  - by rewrite IH.
  - rewrite IH. apply Permutation_middle.
  - done.
Qed.

Lemma filter_by_key_perm {A} (key : A → Z) (keys : list Z) l :
  NoDup keys →
  concat ((λ k, List.filter (λ x, bool_decide (key x = k)) l) <$> keys)
  ≡ₚ List.filter (λ x, bool_decide (key x ∈ keys)) l.
Proof.
  induction 1 as [|k keys Hk _ IH].
  - csimpl. induction l as [|x l IHl]; done.
  - rewrite fmap_cons. cbn [concat]. rewrite IH, <- filter_disjoint_perm.
    + assert (List.filter (λ x, bool_decide (key x ∈ k :: keys)) l
              = List.filter (λ x, bool_decide (key x = k)
                                  || bool_decide (key x ∈ keys)) l) as ->; [|done].
      apply filter_ext. intros x. apply eq_true_iff_eq.
      by rewrite orb_true_iff, !bool_decide_eq_true, elem_of_cons.
    + intros x Hx Hin. apply bool_decide_eq_true in Hx, Hin. by subst k.
Qed.

Lemma countdown_spec n i : i ∈ countdown n ↔ 0 ≤ i < Z.of_nat n.
Proof.
  unfold countdown. rewrite elem_of_reverse, elem_of_seqZ. lia.
Qed.

Lemma countdown_NoDup n : NoDup (countdown n).
Proof. unfold countdown. rewrite reverse_Permutation. apply NoDup_seqZ. Qed.

Lemma trend_totals zone today expenses :
  0 ≤ today →
  ∀ n,
    monthTotal zone expenses <$>
      ((λ i, JsDate.make (JsDate.getFullYear today) (JsDate.getMonth today - i) 1)
         <$> countdown n)
    = (λ i, totalOfMonth zone expenses (monthNumber today - i)) <$> countdown n.
Proof.
  intros Htoday n. rewrite <- list_fmap_compose. apply list_fmap_ext.
  intros _ i _. csimpl.
  by rewrite monthTotal_totalOfMonth, monthNumber_make.
Qed.

(** X19. The monthly trend of the insights page is computed from the
    expenses that pass the time filter of the page, and counts each of
    them in the month the browser reads its date in. In every time zone,
    for a day [today] since 1970, the totals of the trend are the sums of
    the amounts of those expenses, added up in the order of the list, for
    each of the months that end with the month of today, the oldest month
    first; a year turns over where it must. Every month of the trend but the oldest is whole: its total is
    that of all the expenses of the month, while the filter can leave days
    of the oldest month out. The six totals of the dashboard chart, which
    has no filter, are those of all the expenses. No expense is counted in
    two months: the expenses counted by the trend, month after month, are
    the filtered expenses of the months shown, each once. *)
Theorem X19_monthly_trend (zone : JsDate.Zone)
    (timeFilter : InsightsCharts.TimeFilter)
    (today : JsDate.Date) (expenses : list Expense.t) :
  0 ≤ today →
  let months := InsightsCharts.monthsToShow timeFilter in
  let shown := InsightsCharts.filteredExpenses zone timeFilter today expenses in
  let trend := InsightsCharts.getMonthlyData zone timeFilter today shown in
  let monthOf := λ expense,
    monthNumber (JsDate.localDay zone (Expense.date expense)) in
  InsightsCharts.monthlyTotals trend
  = (λ i, totalOfMonth zone shown (monthNumber today - i)) <$> countdown months ∧
  (∀ i, 0 ≤ i < Z.of_nat months - 1 →
     totalOfMonth zone shown (monthNumber today - i)
     = totalOfMonth zone expenses (monthNumber today - i)) ∧
  SpendingChart.monthlyTotals (SpendingChart.getMonthlyData zone today expenses)
  = (λ i, totalOfMonth zone expenses (monthNumber today - i)) <$> countdown 6 ∧
  concat ((λ i, expensesOfMonth zone shown
                  (JsDate.make (JsDate.getFullYear today)
                     (JsDate.getMonth today - i) 1)) <$> countdown months)
  ≡ₚ List.filter (λ expense,
       bool_decide (monthNumber today - Z.of_nat months < monthOf expense
                    ≤ monthNumber today)) shown.
Proof.
  intros Htoday months shown trend monthOf.
  split_and!.
  - subst trend. unfold InsightsCharts.getMonthlyData.
    destruct (InsightsCharts.monthOverMonth _) as [c p]. csimpl.
    apply (trend_totals zone today shown Htoday).
  - intros i Hi. apply filteredExpenses_totalOfMonth; [done|]. fold months. lia.
  - apply (trend_totals zone today expenses Htoday).
  - assert ((λ i, expensesOfMonth zone shown
                    (JsDate.make (JsDate.getFullYear today)
                       (JsDate.getMonth today - i) 1)) <$> countdown months
            = (λ k, List.filter (λ expense, bool_decide (monthOf expense = k))
                      shown)
                <$> ((λ i, monthNumber today - i) <$> countdown months)) as ->.
    { rewrite <- list_fmap_compose. apply list_fmap_ext. intros _ i _. csimpl.
      by rewrite expensesOfMonth_monthNumber, monthNumber_make. }
    rewrite filter_by_key_perm.
    + assert (List.filter (λ x, bool_decide
                (monthOf x ∈ (λ i, monthNumber today - i) <$> countdown months))
                shown
              = List.filter (λ expense,
                  bool_decide (monthNumber today - Z.of_nat months
                               < monthOf expense ≤ monthNumber today)) shown)
        as ->; [|done].
      apply filter_ext. intros expense. apply bool_decide_ext.
      rewrite list_elem_of_fmap. split.
      * intros (i & -> & Hi%countdown_spec). lia.
      * intros Hrange. exists (monthNumber today - monthOf expense).
        split; [lia|]. apply countdown_spec. lia.
    + apply NoDup_fmap_2; [|apply countdown_NoDup]. intros i j. lia.
Qed.

(** On 31 May 2024 the three-month filter starts at [new Date(2024, 1, 31)],
    which is 2 March: the expense of 1 March is left out of the total of
    March, the oldest month of the trend. *)
Lemma X19_monthly_trend_witness :
  let zone := JsDate.UTC in
  let today := JsDate.make 2024 4 31 in
  let expenses :=
    [Expense.mk 1 1 (Qc_of_Z 40) "Food" None None (JsDate.make 2024 2 1);
     Expense.mk 2 1 (Qc_of_Z 60) "Food" None None (JsDate.make 2024 2 20);
     Expense.mk 3 1 (Qc_of_Z 100) "Bills" None None (JsDate.make 2024 3 30);
     Expense.mk 4 1 (Qc_of_Z 70) "Food" None None (JsDate.make 2024 4 1)] in
  let shown :=
    InsightsCharts.filteredExpenses zone InsightsCharts.ThreeMonths today
      expenses in
  0 ≤ today ∧
  InsightsCharts.monthlyTotals
    (InsightsCharts.getMonthlyData zone InsightsCharts.ThreeMonths today shown)
  = (λ i, totalOfMonth zone shown (monthNumber today - i)) <$> countdown 3 ∧
  (λ i, totalOfMonth zone shown (monthNumber today - i)) <$> countdown 3
  = [Qc_of_Z 60; Qc_of_Z 100; Qc_of_Z 70] ∧
  (λ i, totalOfMonth zone expenses (monthNumber today - i)) <$> countdown 3
  = [Qc_of_Z 100; Qc_of_Z 100; Qc_of_Z 70].
Proof.
  intros zone today expenses shown.
  assert (0 ≤ today) as Htoday by (by vm_compute).
  split; [exact Htoday|]. split_and!.
  - exact (proj1 (X19_monthly_trend zone InsightsCharts.ThreeMonths today
                    expenses Htoday)).
  - by apply (bool_decide_unpack _); vm_compute.
  - by apply (bool_decide_unpack _); vm_compute.
Defined.

Lemma change_percentage_bounds previous current :
  (0 < previous)%Qc → (0 ≤ current)%Qc →
  let p := round_half_up ((current - previous) / previous * Qc_of_Z 100)%Qc in
  -100 ≤ p ∧ ((0 ≤ current - previous)%Qc → 0 ≤ p) ∧
  ((current - previous ≤ 0)%Qc → p ≤ 0).
Proof.
  intros Hprevious Hcurrent p. subst p.
  set (k := (/ previous * Qc_of_Z 100)%Qc).
  assert (0 ≤ k)%Qc as Hk.
  { apply Qcmult_nonneg_nonneg; [by apply Qclt_le_weak, Qcinv_pos | by vm_compute]. }
  assert (previous * k = Qc_of_Z 100)%Qc as Hpk.
  { subst k. field. by apply Qclt_not_eq in Hprevious. }
  replace ((current - previous) / previous * Qc_of_Z 100)%Qc
    with (current * k - Qc_of_Z 100)%Qc
    by (rewrite <- Hpk; subst k; field; by apply Qclt_not_eq in Hprevious).
  assert (0 ≤ current * k)%Qc as Hck by (by apply Qcmult_nonneg_nonneg).
  assert (Qc_of_Z (-100) = - Qc_of_Z 100)%Qc as Hneg by exact (Z2Qc_inj_opp 100).
  set (x := (current * k)%Qc) in *. set (h := Qc_of_Z 100) in *.
  split_and!.
  - apply round_half_up_ge. rewrite Hneg. clearbody x h. qc_lra.
  - intros Hup. apply round_half_up_ge.
    assert (previous * k ≤ current * k)%Qc as Hle.
    { apply Qcmult_le_mono_nonneg_r; [done|]. clear -Hup.
      set (c := current) in *. set (q := previous) in *. clearbody c q. qc_lra. }
    rewrite Hpk in Hle. fold x h in Hle. clearbody x h. qc_lra.
  - intros Hdown.
    assert (¬ 1 ≤ round_half_up (x - h)) as Hnot; [|lia].
    rewrite round_half_up_ge.
    assert (current * k ≤ previous * k)%Qc as Hle.
    { apply Qcmult_le_mono_nonneg_r; [done|]. clear -Hdown.
      set (c := current) in *. set (q := previous) in *. clearbody c q. qc_lra. }
    rewrite Hpk in Hle. fold x h in Hle. clearbody x h. intros Hx. qc_lra.
Qed.

(** X20. When the amounts are moderate, 0 or between 10^-15 and 10^15,
    the month-over-month change of the trend of the insights page,
    computed from the expenses that pass its time filter, is never shown
    below -100%, and its percentage has the sign of the change: not
    negative for an increase, not positive for a decrease. *)
Theorem X20_change_percentage (zone : JsDate.Zone)
    (timeFilter : InsightsCharts.TimeFilter)
    (today : JsDate.Date) (expenses : list Expense.t) :
  (∀ expense, expense ∈ expenses → moderate (Expense.amount expense)) →
  let shown := InsightsCharts.filteredExpenses zone timeFilter today expenses in
  let trend := InsightsCharts.getMonthlyData zone timeFilter today shown in
  -100 ≤ InsightsCharts.changePercentage trend ∧
  ((0 ≤ InsightsCharts.change trend)%Qc →
   0 ≤ InsightsCharts.changePercentage trend) ∧
  ((InsightsCharts.change trend ≤ 0)%Qc →
   InsightsCharts.changePercentage trend ≤ 0).
Proof.
  intros Hmoderate shown trend. subst trend.
  assert (∀ expense, expense ∈ shown → (0 ≤ Expense.amount expense)%Qc) as Hpos.
  { intros expense Hin. apply moderate_nonneg, Hmoderate.
    unfold shown, InsightsCharts.filteredExpenses in Hin. cbn zeta in Hin.
    by apply List_filter_elem_of in Hin as [? _]. }
  pose proof (getMonthlyData_change zone timeFilter today shown) as Hchange.
  rewrite getMonthlyData_totals in Hchange.
  set (totals := _ <$> countdown _) in Hchange.
  assert (Forall (λ t, 0 ≤ t)%Qc totals) as Htotals.
  { subst totals. apply Forall_fmap, Forall_forall. intros i _. csimpl.
    by apply monthTotal_nonneg. }
  clearbody totals.
  destruct (InsightsCharts.getMonthlyData zone timeFilter today shown)
    as [labels monthlyTotals change changePercentage]. csimpl in *.
  unfold InsightsCharts.monthOverMonth in Hchange.
  destruct (bool_decide (2 ≤ length totals)%nat);
    [|injection Hchange as -> ->; by split_and!].
  destruct (totals !! (length totals - 1)%nat) as [current|] eqn:Hcurrent;
    [|injection Hchange as -> ->; by split_and!].
  destruct (totals !! (length totals - 2)%nat) as [previous|];
    [|injection Hchange as -> ->; by split_and!].
  case_bool_decide as Hprevious; [|injection Hchange as -> ->; by split_and!].
  injection Hchange as -> ->.
  apply change_percentage_bounds; [done|].
  by eapply (Forall_lookup_1 _ _ _ _ Htotals).
Qed.

Lemma X20_change_percentage_witness :
  let bogota : JsDate.Zone := λ _, -18000000 in
  let today := JsDate.make 2024 2 15 in
  let expenses :=
    [Expense.mk 1 1 (Qc_of_Z 100) "Food" None None (JsDate.make 2024 1 20);
     Expense.mk 2 1 (Qc_of_Z 150) "Food" None None (JsDate.make 2024 2 10)] in
  let trend :=
    InsightsCharts.getMonthlyData bogota InsightsCharts.ThreeMonths today
      (InsightsCharts.filteredExpenses bogota InsightsCharts.ThreeMonths today
         expenses) in
  (∀ expense, expense ∈ expenses → moderate (Expense.amount expense)) ∧
  -100 ≤ InsightsCharts.changePercentage trend ∧
  InsightsCharts.changePercentage trend = 50.
Proof.
  intros bogota today expenses trend.
  assert (∀ expense, expense ∈ expenses → moderate (Expense.amount expense))
    as Hmoderate.
  { apply Forall_forall.
    repeat (apply Forall_cons; split; [right; split; by vm_compute|]).
    apply Forall_nil_2. }
  split; [exact Hmoderate|]. split; [|by vm_compute].
  exact (proj1 (X20_change_percentage bogota InsightsCharts.ThreeMonths today
                  expenses Hmoderate)).
Defined.

(** ** Averages by weekday *)

Lemma foldl_addToWeekday_spec zone expenses (i : nat) : ∀ acc,
  let acc' := foldl (InsightsCharts.addToWeekday zone) acc expenses in
  let onDay :=
    List.filter (λ expense,
      bool_decide (JsDate.getDay (JsDate.localDay zone (Expense.date expense))
                   = Z.of_nat i)) expenses in
  acc'.1 !! i = (λ t, t + Qsum (Expense.amount <$> onDay))%Qc <$> acc.1 !! i ∧
  acc'.2 !! i = (λ c, c + Z.of_nat (length onDay)) <$> acc.2 !! i.
Proof.
  induction expenses as [|expense expenses IH]; intros acc.
  - csimpl. rewrite Qsum_nil. split.
    + destruct (acc.1 !! i) as [t|]; csimpl; [|done]. f_equal. ring.
    + destruct (acc.2 !! i) as [c|]; csimpl; [|done]. f_equal. lia.
  - cbn [foldl List.filter].
    destruct (IH (InsightsCharts.addToWeekday zone acc expense))
      as [Htotals Hcounts].
    cbn zeta in *. rewrite Htotals, Hcounts. clear IH Htotals Hcounts.
    unfold InsightsCharts.addToWeekday. cbn [fst snd].
    set (date := JsDate.localDay zone (Expense.date expense)).
    assert (0 ≤ JsDate.getDay date) as Hday
      by (unfold JsDate.getDay; Z.div_mod_to_equations; lia).
    case_bool_decide as Hi.
    + replace (Z.to_nat (JsDate.getDay date)) with i by lia.
      rewrite !list_lookup_alter, !decide_True by done.
      cbn [length]. rewrite fmap_cons, Qsum_cons.
      split.
      * destruct (acc.1 !! i) as [t|]; csimpl; [|done]. f_equal. ring.
      * destruct (acc.2 !! i) as [c|]; csimpl; [|done]. f_equal. lia.
    + rewrite !list_lookup_alter_ne by lia. done.
Qed.

(** X21. The weekday chart of the insights page is computed from the
    expenses that pass the time filter of the page. In every time zone,
    the average of a weekday is the mean of the amounts of those expenses
    whose date the browser reads as that weekday: their sum, added up in
    the order of the list, divided by their number, and 0 for a weekday
    without expenses. There are seven averages, in the order Sunday to
    Saturday of the labels. *)
Theorem X21_weekday_averages (zone : JsDate.Zone)
    (timeFilter : InsightsCharts.TimeFilter) (today : JsDate.Date)
    (expenses : list Expense.t) (i : nat) :
  (i < 7)%nat →
  let shown := InsightsCharts.filteredExpenses zone timeFilter today expenses in
  let weekdayData := InsightsCharts.getWeekdayData zone shown in
  let onDay :=
    List.filter (λ expense,
      bool_decide (JsDate.getDay (JsDate.localDay zone (Expense.date expense))
                   = Z.of_nat i)) shown in
  InsightsCharts.weekdayAverages weekdayData !! i
  = Some (match onDay with
          | [] => 0%Qc
          | _ => (sumAmounts onDay / Qc_of_Z (Z.of_nat (length onDay)))%Qc
          end) ∧
  length (InsightsCharts.weekdayAverages weekdayData) = 7%nat ∧
  InsightsCharts.weekdayLabels weekdayData = InsightsCharts.weekdays.
Proof.
  intros Hi shown weekdayData onDay. subst weekdayData. clearbody shown.
  split_and!.
  - rewrite getWeekdayData_averages. cbn zeta. rewrite list_lookup_imap.
    destruct (foldl_addToWeekday_spec zone shown i
                (replicate 7 0%Qc, replicate 7 0)) as [Htotals Hcounts].
    cbn zeta in *. fold onDay in Htotals, Hcounts.
    cbn [fst snd] in Htotals, Hcounts.
    rewrite lookup_replicate_2 in Htotals by done.
    rewrite lookup_replicate_2 in Hcounts by done.
    set (acc := foldl (InsightsCharts.addToWeekday zone) _ shown) in *.
    clearbody acc. destruct acc as [totals counts]. cbn [fst snd] in *.
    rewrite Htotals. cbn [fmap option_fmap option_map]. f_equal.
    unfold InsightsCharts.average.
    rewrite Hcounts. cbn [fmap option_fmap option_map].
    clearbody onDay. destruct onDay as [|expense onDay'].
    + by rewrite bool_decide_eq_false_2.
    + rewrite bool_decide_eq_true_2 by (cbn [length]; lia).
      by rewrite Qcplus_0_l, sumAmounts_Qsum.
  - apply getWeekdayData_length.
  - unfold InsightsCharts.getWeekdayData.
    destruct (foldl (InsightsCharts.addToWeekday zone) _ _) as [totals counts].
    by destruct (foldl InsightsCharts.higher _ _).
Qed.

(** In Bogota, five hours behind UTC, the expenses of the scenario,
    dated Friday 15 March 2024, are read on Thursday 14 March. *)
Lemma X21_weekday_averages_witness :
  let bogota : JsDate.Zone := λ _, -18000000 in
  let today := JsDate.make 2024 2 20 in
  let weekdayData :=
    InsightsCharts.getWeekdayData bogota
      (InsightsCharts.filteredExpenses bogota InsightsCharts.AllTime today
         scenario) in
  (4 < 7)%nat ∧
  InsightsCharts.weekdayAverages weekdayData !! 4%nat
  = Some (Qc_of_Z 100 / Qc_of_Z 3)%Qc ∧
  InsightsCharts.weekdayAverages weekdayData !! 5%nat = Some 0%Qc ∧
  InsightsCharts.weekdays !! 4%nat = Some "Thursday".
Proof.
  intros bogota today weekdayData.
  assert (4 < 7)%nat as Hi by lia.
  split; [exact Hi|]. split_and!; [| |reflexivity].
  - destruct (X21_weekday_averages bogota InsightsCharts.AllTime today
                scenario 4 Hi) as (Haverage & _).
    etrans; [exact Haverage|].
    by apply (bool_decide_unpack _); vm_compute.
  - by apply (bool_decide_unpack _); vm_compute.
Defined.

(** ** Colours of the categories *)

Lemma getCategoryColor_inj c1 c2 :
  c1 ∈ EXPENSE_CATEGORIES → c2 ∈ EXPENSE_CATEGORIES →
  getCategoryColor c1 = getCategoryColor c2 → c1 = c2.
Proof.
  unfold EXPENSE_CATEGORIES. intros H1 H2.
  repeat (apply elem_of_cons in H1 as [-> | H1]);
    try (by apply elem_of_nil in H1);
    repeat (apply elem_of_cons in H2 as [-> | H2]);
    try (by apply elem_of_nil in H2); by vm_compute.
Qed.

(** X22. The colours of a chart tell the categories apart: when every
    expense has one of the categories of [EXPENSE_CATEGORIES], the
    colours of the category breakdown are pairwise distinct, one per
    label. A category outside that list is drawn with the colour and the
    badge of "Other". *)
Theorem X22_category_colours (expenses : list Expense.t) :
  let breakdown := InsightsCharts.getCategoryData expenses in
  ((∀ expense, expense ∈ expenses →
      Expense.category expense ∈ EXPENSE_CATEGORIES) →
   NoDup (InsightsCharts.colors breakdown) ∧
   length (InsightsCharts.colors breakdown)
   = length (remove_dups (Expense.category <$> expenses))) ∧
  (∀ category, category ∉ EXPENSE_CATEGORIES →
     getCategoryColor category = getCategoryColor "Other" ∧
     getCategoryBadgeStyles category = getCategoryBadgeStyles "Other").
Proof.
  intros breakdown. split.
  - intros Hknown.
    assert ("__proto__" ∉ Expense.category <$> expenses) as Hproto.
    { intros (expense & Hcategory & Hin)%list_elem_of_fmap.
      apply Hknown in Hin. rewrite <- Hcategory in Hin.
      unfold EXPENSE_CATEGORIES in Hin.
      repeat (apply elem_of_cons in Hin as [? | Hin]; [done|]).
      by apply elem_of_nil in Hin. }
    destruct (getCategoryData_labels_spec expenses Hproto)
      as [Hnodup Hlabels].
    fold breakdown in Hnodup, Hlabels.
    assert (InsightsCharts.colors breakdown
            = getCategoryColor <$> InsightsCharts.labels breakdown) as ->
      by reflexivity.
    split.
    + apply NoDup_fmap_2_strong; [|done].
      intros c1 c2 H1 H2. apply getCategoryColor_inj.
      * apply Hlabels, list_elem_of_fmap in H1 as (e & -> & He). by apply Hknown.
      * apply Hlabels, list_elem_of_fmap in H2 as (e & -> & He). by apply Hknown.
    + rewrite length_fmap. apply Permutation_length, NoDup_Permutation.
      * done.
      * apply NoDup_remove_dups.
      * intros c. by rewrite Hlabels, elem_of_remove_dups.
  - intros category Hother. unfold EXPENSE_CATEGORIES in Hother.
    rewrite !not_elem_of_cons in Hother.
    destruct Hother as (? & ? & ? & ? & ? & ? & ? & _).
    unfold getCategoryColor, getCategoryBadgeStyles.
    by rewrite !(bool_decide_eq_false_2 (category = _)) by done.
Qed.

(** ** The forms *)

Lemma amountSchema_spec amount :
  AddExpenseDialog.amountSchema amount = js_gt (parseFloat amount) (Finite 0).
Proof.
  unfold AddExpenseDialog.amountSchema. destruct amount as [|c amount].
  - by vm_compute.
  - rewrite bool_decide_eq_true_2 by (cbn [String.length]; lia).
    by destruct (parseFloat _).
Qed.

Lemma js_ge_one_cent n :
  js_ge n (Finite one_cent) = true → js_gt n (Finite 0) = true.
Proof.
  destruct n as [|s|q]; csimpl; try done.
  rewrite !bool_decide_eq_true. intros Hle.
  eapply Qclt_le_trans; [apply one_cent_pos | done].
Qed.

(** X23. The amount rule of the expense form. The form accepts an
    amount exactly when [parseFloat] reads a positive number from it (the
    check that it is not empty adds nothing), as the add-funds form does;
    the amount of the payload is then a positive number, never NaN. The
    server is stricter: whatever the storage, it answers 400 to every
    amount string the form refuses, and also to those that read as less
    than 0.01. *)
Theorem X23_form_amount_rule (amount : string) :
  AddExpenseDialog.amountSchema amount = js_gt (parseFloat amount) (Finite 0) ∧
  GoalCard.addFundsSchema amount = AddExpenseDialog.amountSchema amount ∧
  (AddExpenseDialog.amountSchema amount = true →
   (∃ q, AddExpenseDialog.payloadAmount amount = Finite q ∧ (0 < q)%Qc) ∨
   AddExpenseDialog.payloadAmount amount = Infinity false) ∧
  (∀ (storage : Storage) session userId body db,
     isAuthenticated session = true → user session = Some userId → userId ≠ 0 →
     ExpenseBody.amount body = JString amount →
     AddExpenseDialog.amountSchema amount = false ∨
     js_ge (parseFloat amount) (Finite one_cent) = false →
     run storage (Routes.postExpense session body) db
     = (db, mkResponse 400 InvalidData, [])).
Proof.
  split_and!.
  - apply amountSchema_spec.
  - reflexivity.
  - rewrite amountSchema_spec. unfold AddExpenseDialog.payloadAmount.
    destruct (parseFloat amount) as [|[]|q]; csimpl; try done.
    + by right.
    + rewrite bool_decide_eq_true. left. by exists q.
  - intros storage session userId body db Hauth Huser Hid Hbody Hrefused.
    unfold Routes.postExpense. rewrite (authenticated_route _ userId) by done.
    destruct (insertExpenseSchema (Routes.requestData userId body))
      as [validated|] eqn:Hparse; [|done].
    destruct (insertExpenseSchema_amount _ _ Hparse
                (requestData_amount userId body)) as (n & Hn & _ & Hge).
    unfold Routes.requestData in Hn. csimpl in Hn. rewrite Hbody in Hn.
    injection Hn as <-.
    destruct Hrefused as [Hform | Hsmall]; [|congruence].
    rewrite amountSchema_spec in Hform.
    apply js_ge_one_cent in Hge. congruence.
Qed.

(** X24. What the goal form submits. When the form values pass the
    schema, the payload has the name, status and target date of the form,
    a target amount that is a positive number and a current amount that
    is a number of at least 0, which is 0 for an empty field; neither is
    NaN. Form values that do not pass are not submitted. *)
Theorem X24_goal_form_payload (Date_parse : string → number)
    (data : AddGoalDialog.FormValues) :
  match AddGoalDialog.onSubmit Date_parse data with
  | Some payload =>
      AddGoalDialog.formSchema Date_parse data = true ∧
      AddGoalDialog.payloadName payload = AddGoalDialog.name data ∧
      AddGoalDialog.payloadStatus payload = AddGoalDialog.status data ∧
      AddGoalDialog.payloadTargetDate payload = AddGoalDialog.targetDate data ∧
      AddGoalDialog.payloadTargetAmount payload
      = parseFloat (AddGoalDialog.targetAmount data) ∧
      js_gt (AddGoalDialog.payloadTargetAmount payload) (Finite 0) = true ∧
      js_ge (AddGoalDialog.payloadCurrentAmount payload) (Finite 0) = true ∧
      (AddGoalDialog.currentAmount data = EmptyString →
       AddGoalDialog.payloadCurrentAmount payload = Finite 0)
  | None => AddGoalDialog.formSchema Date_parse data = false
  end.
Proof.
  unfold AddGoalDialog.onSubmit.
  destruct (AddGoalDialog.formSchema Date_parse data) eqn:Hvalid; [|done].
  unfold AddGoalDialog.formSchema in Hvalid.
  apply andb_prop in Hvalid as [[Htarget Hcurrent]%andb_prop _].
  apply andb_prop in Htarget as [_ [_ Htarget]%andb_prop].
  unfold AddGoalDialog.payload. csimpl.
  split_and!; try done.
  - case_bool_decide as Hempty; [by vm_compute|].
    apply orb_prop in Hcurrent as [Hcurrent | Hcurrent].
    + done.
    + by apply andb_prop in Hcurrent as [_ ?].
  - intros Hempty. by rewrite bool_decide_eq_true_2.
Qed.

(** ** The dashboard *)

(** X25. The cards and the chart of the dashboard agree. In every time
    zone, for a day [today] since 1970, the monthly spending of the card
    is the total of the expenses whose date the browser reads in the
    month of today, and it is compared with the total of those it reads in
    the month before (December of the year before, in January); these are
    the last point of the six-month chart and the point before it. *)
Theorem X25_dashboard_months (zone : JsDate.Zone) (today : JsDate.Date)
    (expenses : list Expense.t) (goals : option (list Goal.t)) :
  0 ≤ today →
  let summary := SummaryCards.compute zone today expenses goals in
  let chart :=
    SpendingChart.monthlyTotals
      (SpendingChart.getMonthlyData zone today expenses) in
  SummaryCards.currentMonthTotal summary
  = totalOfMonth zone expenses (monthNumber today) ∧
  SummaryCards.lastMonthTotal summary
  = totalOfMonth zone expenses (monthNumber today - 1) ∧
  length chart = 6%nat ∧
  chart !! 5%nat = Some (SummaryCards.currentMonthTotal summary) ∧
  chart !! 4%nat = Some (SummaryCards.lastMonthTotal summary).
Proof.
  intros Htoday summary chart.
  destruct (SummaryCards_totals zone today expenses goals)
    as (Hcurrent & Hlast & _).
  fold summary in Hcurrent, Hlast.
  rewrite Hcurrent, Hlast, !monthTotal_totalOfMonth, monthNumber_make by done.
  subst chart. unfold SpendingChart.getMonthlyData.
  cbn [SpendingChart.monthlyTotals].
  rewrite (trend_totals zone today expenses Htoday 6).
  split_and!; try done.
  csimpl. by rewrite Z.sub_0_r.
Qed.

(** In Bogota, five hours behind UTC, the expense dated 1 January 2024
    is read on 31 December 2023: on 15 January it belongs to last month's
    total. *)
Lemma X25_dashboard_months_witness :
  let bogota : JsDate.Zone := λ _, -18000000 in
  let today := JsDate.make 2024 0 15 in
  let expenses :=
    [Expense.mk 1 1 (Qc_of_Z 100) "Bills" None None (JsDate.make 2023 11 31);
     Expense.mk 2 1 (Qc_of_Z 70) "Food" None None (JsDate.make 2024 0 1)] in
  let summary := SummaryCards.compute bogota today expenses None in
  0 ≤ today ∧
  SummaryCards.lastMonthTotal summary
  = totalOfMonth bogota expenses (monthNumber today - 1) ∧
  totalOfMonth bogota expenses (monthNumber today - 1) = Qc_of_Z 170 ∧
  SummaryCards.currentMonthTotal summary = 0%Qc.
Proof.
  intros bogota today expenses summary.
  assert (0 ≤ today) as Htoday by (by vm_compute).
  split; [exact Htoday|].
  split_and!; [|by apply (bool_decide_unpack _); vm_compute ..].
  destruct (X25_dashboard_months bogota today expenses None Htoday)
    as (_ & Hlast & _).
  exact Hlast.
Defined.

(** ** Further theorems at concrete inputs *)

Lemma X10_dashboard_top_category_witness :
  let bogota : JsDate.Zone := λ _, -18000000 in
  let today := JsDate.make 2024 2 20 in
  let summary := SummaryCards.compute bogota today scenario None in
  let breakdown :=
    InsightsCharts.getCategoryData (expensesOfMonth bogota scenario today) in
  (∀ expense, expense ∈ scenario →
     JsObject.ordinary (Expense.category expense) = true) ∧
  (∀ expense, expense ∈ scenario → moderate (Expense.amount expense)) ∧
  head (InsightsCharts.labels breakdown) = Some "Food" ∧
  head (InsightsCharts.data breakdown) = Some (Qc_of_Z 80) ∧
  (0 < Qc_of_Z 80)%Qc ∧
  SummaryCards.topCategory summary = "Food" ∧
  SummaryCards.topCategoryAmount summary = Qc_of_Z 80.
Proof.
  intros bogota today summary breakdown.
  assert (∀ expense, expense ∈ scenario → moderate (Expense.amount expense))
    as Hmoderate by (intros expense Hin; by apply scenario_moderate).
  assert (head (InsightsCharts.labels breakdown) = Some "Food") as Hlabel
    by (by vm_compute).
  assert (head (InsightsCharts.data breakdown) = Some (Qc_of_Z 80)) as Hvalue
    by (by apply (bool_decide_unpack _); vm_compute).
  assert (0 < Qc_of_Z 80)%Qc as Hpos by (by vm_compute).
  destruct (X10_dashboard_top_category bogota today scenario None
              scenario_ordinary Hmoderate) as (_ & Htop & _).
  split_and!; [exact scenario_ordinary | exact Hmoderate | exact Hlabel |
               exact Hvalue | exact Hpos | |].
  - exact (proj1 (Htop "Food" (Qc_of_Z 80) Hlabel Hvalue Hpos)).
  - exact (proj2 (Htop "Food" (Qc_of_Z 80) Hlabel Hvalue Hpos)).
Defined.

Lemma X22_category_colours_witness :
  (∀ expense, expense ∈ scenario →
     Expense.category expense ∈ EXPENSE_CATEGORIES) ∧
  NoDup (InsightsCharts.colors (InsightsCharts.getCategoryData scenario)) ∧
  InsightsCharts.colors (InsightsCharts.getCategoryData scenario)
  = ["#3B82F6"; "#8B5CF6"].
Proof.
  assert (∀ expense, expense ∈ scenario →
            Expense.category expense ∈ EXPENSE_CATEGORIES) as Hknown.
  { intros expense Hin. unfold scenario in Hin.
    repeat (apply elem_of_cons in Hin as [-> | Hin];
            [by apply (bool_decide_unpack _); vm_compute|]).
    inversion Hin. }
  split; [exact Hknown|]. split; [|by vm_compute].
  exact (proj1 (proj1 (X22_category_colours scenario) Hknown)).
Defined.

Lemma X23_form_amount_rule_witness :
  let session := mkSession true (Some 2) in
  let body := ExpenseBody.mk (JString "Food") JUndefined JUndefined
                (JString "2024-03-15") (JString "0.004") in
  AddExpenseDialog.amountSchema "0.004" = true ∧
  js_ge (parseFloat "0.004") (Finite one_cent) = false ∧
  run DatabaseStorage.storage (Routes.postExpense session body) sample_db
  = (sample_db, mkResponse 400 InvalidData, []).
Proof.
  intros session body.
  assert (js_ge (parseFloat "0.004") (Finite one_cent) = false) as Hsmall
    by (by vm_compute).
  split; [by vm_compute|]. split; [exact Hsmall|].
  destruct (X23_form_amount_rule "0.004") as (_ & _ & _ & Hserver).
  apply (Hserver DatabaseStorage.storage session 2 body sample_db);
    [reflexivity | reflexivity | lia | reflexivity | right; exact Hsmall].
Defined.

(** ** Requests and the records of other users *)

Lemma authenticated_cases session route :
  (∃ response, Routes.authenticated session route = Respond response) ∨
  (∃ userId, user session = Some userId ∧
             Routes.authenticated session route = route userId).
Proof.
  unfold Routes.authenticated.
  destruct (isAuthenticated session); [|by left; eexists].
  destruct (user session) as [userId|]; [|by left; eexists].
  case_bool_decide; [by left; eexists|]. right. by exists userId.
Qed.

(** X26. No request changes a record of another user. Whatever the
    session and whichever of the writing routes is called (POST, PUT,
    DELETE on expenses; PUT, DELETE on goals), every expense and every
    goal that belongs to a user other than the one of the session is
    stored afterwards as it was before; for the POST, provided the next
    id of the sequence is not yet in use. *)
Theorem X26_other_users_records_untouched (db : Db) (session : Session)
    (request : Request) (owner : Z) :
  expenses db !! (expenses_id_seq db + 1) = None →
  user session ≠ Some owner →
  let db' := (run DatabaseStorage.storage (handle session request) db).1.1 in
  (∀ id expense, expenses db !! id = Some expense →
     Expense.userId expense = owner → expenses db' !! id = Some expense) ∧
  (∀ id goal, goals db !! id = Some goal →
     Goal.userId goal = owner → goals db' !! id = Some goal).
Proof.
  intros Hfresh Hother db'. subst db'.
  destruct request as [body|expenseId body|expenseId|goalId body|goalId];
    unfold handle.
  - unfold Routes.postExpense.
    destruct (authenticated_cases session (λ userId,
      match insertExpenseSchema (Routes.requestData userId body) with
      | Some validatedData =>
          Await (CreateExpense validatedData)
            (λ expense, Respond (mkResponse 201 (ExpenseJson (Some expense))))
            (mkResponse 500 (Message "Failed to create expense"))
      | None => Respond (mkResponse 400 InvalidData)
      end)) as [[response ->] | (userId & Huser & ->)]; [done|].
    destruct (insertExpenseSchema _) as [validated|]; [|done].
    rewrite run_Await. csimpl. unfold DatabaseStorage.createExpense.
    destruct (DatabaseStorage.numeric_in _); [|done].
    destruct (DatabaseStorage.date_in _); [|done].
    csimpl. split; [|done].
    intros id expense Hsome _. rewrite lookup_insert_ne; [done|].
    intros <-. congruence.
  - unfold Routes.putExpense.
    destruct (authenticated_cases session (λ userId,
      Await (GetExpenseById expenseId)
        (λ expense,
          match expense with
          | None => Respond (mkResponse 404 (Message "Expense not found"))
          | Some expense =>
              if bool_decide (Expense.userId expense ≠ userId)
              then Respond (mkResponse 403
                     (Message "Not authorized to update this expense"))
              else
                Await (UpdateExpense expenseId body)
                  (λ updatedExpense,
                    Respond (mkResponse 200 (ExpenseJson updatedExpense)))
                  (mkResponse 500 (Message "Failed to update expense"))
          end)
        (mkResponse 500 (Message "Failed to update expense"))))
      as [[response ->] | (userId & Huser & ->)]; [done|].
    rewrite run_Await. csimpl. unfold DatabaseStorage.getExpenseById.
    destruct (expenses db !! expenseId) as [mine|] eqn:Hmine; [|done].
    case_bool_decide as Hmy; [done|].
    rewrite run_Await. csimpl. unfold DatabaseStorage.updateExpense.
    destruct (ExpensePatch.is_empty body); [done|]. rewrite Hmine. csimpl.
    split; [|done].
    intros id expense Hsome Howner. rewrite lookup_insert_ne; [done|].
    intros <-. congruence.
  - unfold Routes.deleteExpense.
    destruct (authenticated_cases session (λ userId,
      Await (GetExpenseById expenseId)
        (λ expense,
          match expense with
          | None => Respond (mkResponse 404 (Message "Expense not found"))
          | Some expense =>
              if bool_decide (Expense.userId expense ≠ userId)
              then Respond (mkResponse 403
                     (Message "Not authorized to delete this expense"))
              else
                Await (DeleteExpense expenseId)
                  (λ result : bool,
                    if result then Respond (mkResponse 204 Empty)
                    else Respond (mkResponse 500
                           (Message "Failed to delete expense")))
                  (mkResponse 500 (Message "Failed to delete expense"))
          end)
        (mkResponse 500 (Message "Failed to delete expense"))))
      as [[response ->] | (userId & Huser & ->)]; [done|].
    rewrite run_Await. csimpl. unfold DatabaseStorage.getExpenseById.
    destruct (expenses db !! expenseId) as [mine|] eqn:Hmine; [|done].
    case_bool_decide as Hmy; [done|].
    rewrite run_Await. csimpl. unfold DatabaseStorage.deleteExpense.
    rewrite Hmine. csimpl. split; [|done].
    intros id expense Hsome Howner. rewrite lookup_delete_ne; [done|].
    intros <-. congruence.
  - unfold Routes.putGoal.
    destruct (authenticated_cases session (λ userId,
      Await (GetGoalById goalId)
        (λ goal,
          match goal with
          | None => Respond (mkResponse 404 (Message "Goal not found"))
          | Some goal =>
              if bool_decide (Goal.userId goal ≠ userId)
              then Respond (mkResponse 403
                     (Message "Not authorized to update this goal"))
              else
                Await (UpdateGoal goalId body)
                  (λ updatedGoal,
                    Respond (mkResponse 200 (GoalJson updatedGoal)))
                  (mkResponse 500 (Message "Failed to update goal"))
          end)
        (mkResponse 500 (Message "Failed to update goal"))))
      as [[response ->] | (userId & Huser & ->)]; [done|].
    rewrite run_Await. csimpl. unfold DatabaseStorage.getGoalById.
    destruct (goals db !! goalId) as [mine|] eqn:Hmine; [|done].
    case_bool_decide as Hmy; [done|].
    rewrite run_Await. csimpl. unfold DatabaseStorage.updateGoal.
    destruct (GoalPatch.is_empty body); [done|]. rewrite Hmine. csimpl.
    split; [done|].
    intros id goal Hsome Howner. rewrite lookup_insert_ne; [done|].
    intros <-. congruence.
  - unfold Routes.deleteGoal.
    destruct (authenticated_cases session (λ userId,
      Await (GetGoalById goalId)
        (λ goal,
          match goal with
          | None => Respond (mkResponse 404 (Message "Goal not found"))
          | Some goal =>
              if bool_decide (Goal.userId goal ≠ userId)
              then Respond (mkResponse 403
                     (Message "Not authorized to delete this goal"))
              else
                Await (DeleteGoal goalId)
                  (λ result : bool,
                    if result then Respond (mkResponse 204 Empty)
                    else Respond (mkResponse 500
                           (Message "Failed to delete goal")))
                  (mkResponse 500 (Message "Failed to delete goal"))
          end)
        (mkResponse 500 (Message "Failed to delete goal"))))
      as [[response ->] | (userId & Huser & ->)]; [done|].
    rewrite run_Await. csimpl. unfold DatabaseStorage.getGoalById.
    destruct (goals db !! goalId) as [mine|] eqn:Hmine; [|done].
    case_bool_decide as Hmy; [done|].
    rewrite run_Await. csimpl. unfold DatabaseStorage.deleteGoal.
    rewrite Hmine. csimpl. split; [done|].
    intros id goal Hsome Howner. rewrite lookup_delete_ne; [done|].
    intros <-. congruence.
Qed.

Lemma X26_other_users_records_untouched_witness :
  let session := mkSession true (Some 1) in
  let expense := Expense.mk 1 2 (Qc_of_Z 10) "Food" None None
                   (JsDate.make 2024 2 15) in
  let patch := ExpensePatch.mk (Some 1) (Some (Qc_of_Z 0)) None None None None in
  expenses sample_db !! (expenses_id_seq sample_db + 1) = None ∧
  user session ≠ Some 2 ∧
  expenses sample_db !! 1 = Some expense ∧ Expense.userId expense = 2 ∧
  expenses
    (run DatabaseStorage.storage (handle session (PutExpense 1 patch)) sample_db).1.1
    !! 1 = Some expense.
Proof.
  intros session expense patch.
  assert (expenses sample_db !! (expenses_id_seq sample_db + 1) = None)
    as Hfresh by (by vm_compute).
  assert (user session ≠ Some 2) as Hother by discriminate.
  assert (expenses sample_db !! 1 = Some expense) as Hsome by (by vm_compute).
  assert (Expense.userId expense = 2) as Howner by reflexivity.
  split_and!; [exact Hfresh | exact Hother | exact Hsome | exact Howner |].
  exact (proj1 (X26_other_users_records_untouched sample_db session
                  (PutExpense 1 patch) 2 Hfresh Hother) 1 expense Hsome Howner).
Defined.
